(** * Box Node SDK: request, retry and token core

    A shallow embedding of the request executor ([src/api-request.ts]),
    the token manager ([token-manager.js], under [unnamed/part_001]) and
    the configuration object ([util/config.js], under
    [unnamed/part_010]) of the Box Node SDK, and of what the request
    manager ([api-request-manager.js]) and the SDK object
    ([box-node-sdk.js], under [unnamed/part_014]) do with them, with
    the properties of the specification proved, or refuted, against it,
    and further properties of the code.  The sessions, the
    error helpers and the exponential backoff are not among the sources;
    what is needed of them is taken from the specification or left as a
    parameter, and says so.

    Conventions of the embedding:
    - JavaScript numbers that the code handles here (status codes, retry
      counts, millisecond and second counts) are integers; they are
      modelled as [Z].  [NaN] is kept where a coercion can produce it.
    - A JavaScript object used as a string-keyed record of strings (HTTP
      headers) is a [gmap string string]; a plain object with arbitrary
      values is an insertion-ordered association list.
    - A function that can throw returns a [result].
    - Side effects (events on the bus, timers, callbacks) are collected in
      a list of [effect]s, in the order the code performs them.
    - Wall-clock reads ([Date.now()], [process.hrtime()]) are arguments. *)

From Stdlib Require Import ZArith List String Ascii Bool Lia.
From Stdlib Require Import DecimalString DecimalN DecimalPos.
From stdpp Require Import base option strings gmap.
Import ListNotations.

Local Open Scope string_scope.
Local Open Scope list_scope.
Local Open Scope Z_scope.
Set Warnings "-register-all".

(* ===================================================================== *)
(** * Part I: the embedding *)
(* ===================================================================== *)

(** ** JavaScript values and coercions *)

Module Js.

(** A number, as far as this code needs it: an integer or [NaN]. *)
Inductive number :=
| Num (z : Z)
| NaN.

(** Thrown values. *)
Inductive exn :=
| TypeError
| AssertionError (message : string)
| LibraryError (message : string).

(** The outcome of code that may throw. *)
Inductive result (A : Type) :=
| Ret (a : A)
| Throw (e : exn).
Arguments Ret {A} a.
Arguments Throw {A} e.

Definition bind {A B} (m : result A) (k : A -> result B) : result B :=
  match m with
  | Ret a => k a
  | Throw e => Throw e
  end.

(** [ToNumber] on a string, as applied by [*] or unary [+] to a header
    value.  The model covers the empty string ([0], as in JavaScript)
    and the strings made of decimal digits with an optional leading
    minus sign.  Every other string is mapped to [NaN]; the forms with
    fraction, exponent, radix prefix, plus sign or surrounding blanks
    are not modelled. *)
Definition ToNumber (s : string) : number :=
  match s with
  | String "-" EmptyString => NaN
  | String "-" rest =>
      match NilEmpty.uint_of_string rest with
      | Some d => Num (- Z.of_N (N.of_uint d))
      | None => NaN
      end
  | _ =>
      match NilEmpty.uint_of_string s with
      | Some d => Num (Z.of_N (N.of_uint d))
      | None => NaN
      end
  end.

(** The decimal rendering of a natural number, the way a server writes
    a [delay-seconds] value. *)
Definition decimal (n : N) : string :=
  NilEmpty.string_of_uint (N.to_uint n).

(** A string of digits without its trailing zeros. *)
Fixpoint strip_zeros (digits : string) : string :=
  match digits with
  | EmptyString => EmptyString
  | String c rest =>
      match strip_zeros rest with
      | EmptyString =>
          if Ascii.eqb c "0" then EmptyString else String c EmptyString
      | rest' => String c rest'
      end
  end.

(** The exponent form of a positive integer given by its decimal
    digits: the first digit, the other digits as the fraction unless
    they are all zero, and the exponent. *)
Definition exponent_form (digits : string) : string :=
  match digits with
  | EmptyString => EmptyString
  | String c rest =>
      String c
        (match strip_zeros rest with
         | EmptyString => EmptyString
         | fraction => String "." fraction
         end
         +:+ "e+" +:+ decimal (N.of_nat (String.length rest)))
  end.

(** [String(n)] for an integer [n]: its positional decimal rendering
    below [10^21] in magnitude, and the exponent form from there on
    ([String(1e21)] is ["1e+21"]).  In the exponent form JavaScript
    prints the shortest digits that denote the same double; these are
    the digits of [n] when [n] has at most 15 significant digits, and
    the embedding prints the digits of [n].  JavaScript has no finite
    number of magnitude [2^1024] (about [1.8 * 10^308]) or more. *)
Definition Number_toString (n : number) : string :=
  match n with
  | Num z =>
      if 10 ^ 21 <=? Z.abs z
      then (if z <? 0 then "-" else "")
           +:+ exponent_form (decimal (Z.to_N (Z.abs z)))
      else NilZero.string_of_int (Z.to_int z)
  | NaN => "NaN"
  end.

(** The value of a decimal digit character. *)
Definition digit_of (c : ascii) : option Z :=
  let n := Z.of_N (N_of_ascii c) in
  if (48 <=? n) && (n <=? 57) then Some (n - 48) else None.

(** The longest prefix of decimal digits, read left to right;
    [None] when there is no digit. *)
Fixpoint parse_digits (s : string) (acc : option Z) : option Z :=
  match s with
  | EmptyString => acc
  | String c rest =>
      match digit_of c with
      | Some d =>
          parse_digits rest
            (Some (10 * match acc with Some a => a | None => 0 end + d))
      | None => acc
      end
  end.

Definition is_space (c : ascii) : bool :=
  let n := N_of_ascii c in
  ((9 <=? n) && (n <=? 13))%N || (n =? 32)%N.

Fixpoint skip_spaces (s : string) : string :=
  match s with
  | String c rest => if is_space c then skip_spaces rest else s
  | EmptyString => s
  end.

Definition of_option (o : option Z) : number :=
  match o with
  | Some z => Num z
  | None => NaN
  end.

(** [parseInt(s, 10)] on a string: leading blanks, an optional sign,
    then the longest run of digits. *)
Definition parseInt_string (s : string) : number :=
  match skip_spaces s with
  | String "-" rest => of_option (option_map Z.opp (parse_digits rest None))
  | String "+" rest => of_option (parse_digits rest None)
  | s' => of_option (parse_digits s' None)
  end.

Definition mul (a b : number) : number :=
  match a, b with
  | Num x, Num y => Num (x * y)
  | _, _ => NaN
  end.

Definition add (a b : number) : number :=
  match a, b with
  | Num x, Num y => Num (x + y)
  | _, _ => NaN
  end.

Definition sub (a b : number) : number :=
  match a, b with
  | Num x, Num y => Num (x - y)
  | _, _ => NaN
  end.

(** [a > b]; a comparison with [NaN] is false. *)
Definition gt (a b : number) : bool :=
  match a, b with
  | Num x, Num y => y <? x
  | _, _ => false
  end.

(** [Math.floor(a / d)] and [Math.ceil(x / d)] for a positive integer
    divisor [d]. *)
Definition floor_div (a : number) (d : Z) : number :=
  match a with
  | Num x => Num (x / d)
  | NaN => NaN
  end.

Definition ceil_divZ (x d : Z) : Z := - ((- x) / d).

(** JSON values, as [JSON.parse] yields them (numbers restricted to
    integers). *)
Inductive json :=
| JNull
| JBool (b : bool)
| JNum (z : Z)
| JStr (s : string)
| JArr (items : list json)
| JObj (members : list (string * json)).

(** Own-property lookup in a JSON object; the last member of a repeated
    key wins in [JSON.parse], so members are kept without repetition
    and the first match is the property. *)
Fixpoint jget (k : string) (ps : list (string * json)) : option json :=
  match ps with
  | [] => None
  | (k', v) :: rest => if String.eqb k k' then Some v else jget k rest
  end.

(** [String(v)] on a JSON value. *)
Fixpoint json_toString (v : json) : string :=
  match v with
  | JNull => "null"
  | JBool true => "true"
  | JBool false => "false"
  | JNum z => Number_toString (Num z)
  | JStr s => s
  | JArr items =>
      (fix join (l : list json) : string :=
         match l with
         | [] => ""
         | x :: rest =>
             let sx := match x with JNull => "" | _ => json_toString x end in
             match rest with
             | [] => sx
             | _ => sx +:+ "," +:+ join rest
             end
         end) items
  | JObj _ => "[object Object]"
  end.

(** [parseInt(v, 10)] on a property read from a JSON object ([None] is
    [undefined]). *)
Definition parseInt (v : option json) : number :=
  match v with
  | Some j => parseInt_string (json_toString j)
  | None => parseInt_string "undefined"
  end.

(** Values found in configuration and option objects.  An object is a
    plain object; it carries its [frozen] flag and its own enumerable
    properties in insertion order.  A function stands for itself under
    a name.  Arrays and class instances other than [Buffer] and
    [Readable] are not modelled. *)
Inductive value :=
| VUndefined
| VNull
| VBool (b : bool)
| VNum (z : Z)
| VStr (s : string)
| VFun (name : string)
| VBuffer (bytes : list Z)
| VReadable (id : nat)
| VObj (frozen : bool) (props : list (string * value)).

Definition truthy (v : value) : bool :=
  match v with
  | VUndefined | VNull => false
  | VBool b => b
  | VNum z => negb (z =? 0)
  | VStr s => negb (String.eqb s "")
  | _ => true
  end.

(** Truthiness of a possibly absent string property. *)
Definition truthy_str (o : option string) : bool :=
  match o with
  | Some s => negb (String.eqb s "")
  | None => false
  end.

Inductive type_tag :=
| TUndefined | TObject | TBoolean | TNumber | TString | TFunction.

Definition typeof (v : value) : type_tag :=
  match v with
  | VUndefined => TUndefined
  | VNull => TObject
  | VBool _ => TBoolean
  | VNum _ => TNumber
  | VStr _ => TString
  | VFun _ => TFunction
  | VBuffer _ | VReadable _ | VObj _ _ => TObject
  end.

Definition type_tag_eqb (a b : type_tag) : bool :=
  match a, b with
  | TUndefined, TUndefined | TObject, TObject | TBoolean, TBoolean
  | TNumber, TNumber | TString, TString | TFunction, TFunction => true
  | _, _ => false
  end.

(** Own-property lookup in an object's property list. *)
Fixpoint get (k : string) (ps : list (string * value)) : option value :=
  match ps with
  | [] => None
  | (k', v) :: rest => if String.eqb k k' then Some v else get k rest
  end.

(** [o.k]: the property, or [undefined] when it is absent. *)
Definition prop (k : string) (ps : list (string * value)) : value :=
  match get k ps with
  | Some v => v
  | None => VUndefined
  end.

Definition hasOwnProperty (k : string) (ps : list (string * value)) : bool :=
  match get k ps with
  | Some _ => true
  | None => false
  end.

(** [o[k] = v] on an extensible object: overwrite in place or append. *)
Fixpoint set (k : string) (v : value) (ps : list (string * value))
  : list (string * value) :=
  match ps with
  | [] => [(k, v)]
  | (k', v') :: rest =>
      if String.eqb k k' then (k', v) :: rest else (k', v') :: set k v rest
  end.

(** [delete o[k]]. *)
Fixpoint delete (k : string) (ps : list (string * value))
  : list (string * value) :=
  match ps with
  | [] => []
  | (k', v') :: rest =>
      if String.eqb k k' then delete k rest else (k', v') :: delete k rest
  end.

(** [o.k] for the property names this code reads (none of them is a
    built-in property of a string, a function, a buffer or a stream, or
    a name that an object inherits from a prototype): reading from
    [undefined] or [null] throws, and only a plain object has the
    property. *)
Definition member (o : value) (k : string) : result value :=
  match o with
  | VUndefined | VNull => Throw TypeError
  | VObj _ ps => Ret (prop k ps)
  | _ => Ret VUndefined
  end.

(** [o.k = v] in strict mode (ES modules and class bodies are strict):
    it throws on [undefined], [null], a primitive, and a frozen object.
    Properties added to functions, buffers and streams are not
    modelled: those are returned as they are. *)
Definition assign_member (o : value) (k : string) (v : value) : result value :=
  match o with
  | VObj false ps => Ret (VObj false (set k v ps))
  | VFun _ | VBuffer _ | VReadable _ => Ret o
  | _ => Throw TypeError
  end.

(** [o.hasOwnProperty(k)] for a property name that is not built in, on
    an object that has no own property [hasOwnProperty]. *)
Definition hasOwn (o : value) (k : string) : bool :=
  match o with
  | VObj _ ps => hasOwnProperty k ps
  | _ => false
  end.

(** [delete o.k] on an extensible object. *)
Definition delete_member (o : value) (k : string) : value :=
  match o with
  | VObj false ps => VObj false (delete k ps)
  | _ => o
  end.

Definition indexed {A} (f : A -> value) (l : list A) : list (string * value) :=
  imap (fun i x => (decimal (N.of_nat i), f x)) l.

(** The own enumerable properties [Object.assign] copies from a source:
    those of a plain object, the characters of a string, the bytes of a
    buffer; the internal state of a stream is not modelled. *)
Definition own_enumerable (v : value) : list (string * value) :=
  match v with
  | VObj _ ps => ps
  | VStr s => indexed (fun c => VStr (String c EmptyString)) (list_ascii_of_string s)
  | VBuffer bytes => indexed VNum bytes
  | _ => []
  end.

(** [Object.assign(target, source)] on property lists. *)
Definition assign_props (target source : list (string * value))
  : list (string * value) :=
  fold_left (fun t kv => set (fst kv) (snd kv) t) source target.

(** The rendering of a value inside a template literal.  A function is
    rendered as its name and a buffer byte by byte, which is its UTF-8
    reading for ASCII content. *)
Definition template (v : value) : string :=
  match v with
  | VUndefined => "undefined"
  | VNull => "null"
  | VBool true => "true"
  | VBool false => "false"
  | VNum z => Number_toString (Num z)
  | VStr s => s
  | VFun name => name
  | VBuffer bytes =>
      string_of_list_ascii (map (fun b => ascii_of_N (Z.to_N b)) bytes)
  | VReadable _ | VObj _ _ => "[object Object]"
  end.

Definition assert (condition : bool) (message : string) : result unit :=
  if condition then Ret tt else Throw (AssertionError message).

(** [s.indexOf(t) > -1]. *)
Definition contains (t s : string) : bool :=
  match String.index 0 t s with
  | Some _ => true
  | None => false
  end.

End Js.

Notation "'let*' x ':=' m 'in' k" := (Js.bind m (fun x => k))
  (at level 10, x name, m at level 100, k at level 200).

(** ** HTTP descriptors *)

Module Http.

(** [APIRequest~RequestObject]: the request object of the [request]
    library, reduced to what the SDK reads and writes. *)
Record RequestObject := {
  method : string;
  uri : string;
  headers : option (gmap string string);
}.

(** A response body: absent, left as a [Buffer], or parsed JSON. *)
Inductive Body :=
| BodyUndefined
| BodyBuffer (bytes : list Z)
| BodyJson (j : Js.json).

(** The response as the transport delivers it. *)
Record RawResponse := {
  statusCode : Z;
  response_headers : option (gmap string string);
  body : Body;
}.

(** [APIRequest~ResponseObject]: a response together with the request
    object it refers to.  In the source [response.request] and
    [this.request] are one object; the embedding pairs the response
    with the state of that object when the value is surfaced. *)
Record ResponseObject := {
  request : RequestObject;
  raw : RawResponse;
}.

End Http.

(** ** The request executor ([src/api-request.ts]) *)

Module APIRequest.
Import Http.

Definition REMOVED_HEADER_MESSAGE : string := "[REMOVED BY SDK]".

Definition HTTP_STATUS_CODE_SERVER_ERROR_BLOCK_RANGE : Z * Z := (500, 599).

(** Constants of the [http-status] package. *)
Definition INSUFFICIENT_STORAGE : Z := 507.
Definition REQUEST_TIMEOUT : Z := 408.
Definition TOO_MANY_REQUESTS : Z := 429.

(** The map of status codes that can be retried. *)
Definition retryableStatusCodes : gmap Z bool :=
  <[TOO_MANY_REQUESTS := true]> (<[REQUEST_TIMEOUT := true]> ∅).

Definition isTemporaryError (response : RawResponse) : bool :=
  let statusCode := statusCode response in
  if negb (statusCode =? INSUFFICIENT_STORAGE)
     && (fst HTTP_STATUS_CODE_SERVER_ERROR_BLOCK_RANGE <=? statusCode)
     && (statusCode <=? snd HTTP_STATUS_CODE_SERVER_ERROR_BLOCK_RANGE)
  then true
  else if default false (retryableStatusCodes !! statusCode)
  then true
  else false.

Definition isClientErrorResponse (response : RawResponse) : bool :=
  let statusCode := statusCode response in
  (400 <=? statusCode) && (statusCode <? 500).

(** What an error object is. *)
Inductive ErrorKind :=
| StatusError (code : Z)          (* made by [createErrorForResponse] *)
| TransportError (message : string)
| StrategyError (message : string).

(** [APIRequest~Error]. *)
Record Error := {
  kind : ErrorKind;
  err_request : option RequestObject;
  err_response : option ResponseObject;
  err_statusCode : option Z;
  maxRetriesExceeded : bool;
}.

Definition newError (k : ErrorKind) : Error :=
  {| kind := k; err_request := None; err_response := None;
     err_statusCode := None; maxRetriesExceeded := false |}.

Definition createErrorForResponse (response : RawResponse) : Error :=
  newError (StatusError (statusCode response)).

(** Overwrite one header with the marker when it is set and truthy. *)
Definition cleanHeader (name : string) (h : gmap string string)
  : gmap string string :=
  if Js.truthy_str (h !! name) then <[name := REMOVED_HEADER_MESSAGE]> h else h.

Definition cleanSensitiveHeaders (requestObj : RequestObject) : RequestObject :=
  match headers requestObj with
  | Some h =>
      {| method := method requestObj; uri := uri requestObj;
         headers := Some (cleanHeader "Authorization" (cleanHeader "BoxApi" h)) |}
  | None => requestObj
  end.

(** The options handed to a retry strategy. *)
Record RetryOptions := {
  error : Error;
  numRetryAttempts : Z;
  opt_numMaxRetries : Z;
  opt_retryIntervalMS : Z;
  totalElapsedTimeMS : Z;
}.

(** What a retry strategy may return. *)
Inductive StrategyResult :=
| Wait (ms : Z)
| Fail (e : Error)
| Other.

(** [config.request]: the options of the outgoing request. *)
Record RequestOptions := {
  opt_method : string;
  opt_url : string;
  opt_headers : option (gmap string string);
  form : option (list (string * Js.value));
  formData : Js.value;
}.

(** The fields of [Config] the executor reads. *)
Record Config := {
  numMaxRetries : Z;
  retryIntervalMS : Z;
  retryStrategy : option (RetryOptions -> StrategyResult);
  config_request : RequestOptions;
}.

Definition isRequestRetryable (options : RequestOptions) : bool :=
  negb (Js.truthy (formData options)).

(** The instance state. *)
Record t := {
  config : Config;
  isRetryable : bool;
  _callback : bool;                 (* whether a callback is stored *)
  this_request : option RequestObject;
  stream : option RequestObject;
  numRetries : option Z;
}.

Definition constructor (config : Config) : t :=
  {| config := config;
     isRetryable := isRequestRetryable (config_request config);
     _callback := false; this_request := None; stream := None;
     numRetries := None |}.

(** Observable effects, in program order. *)
Inductive effect :=
| Send (buffered : bool) (req : RequestObject)
| Emit (err : option Error) (response : option ResponseObject)
| SetTimeout (delay : Js.number)
| Callback (err : option Error) (response : option ResponseObject).

(** [request(options, ...)]: the library copies the headers into a new
    request object. *)
Definition request_lib (o : RequestOptions) : RequestObject :=
  {| method := opt_method o; uri := opt_url o; headers := opt_headers o |}.

Definition with_request (this : t) (r : RequestObject) (streaming : bool) : t :=
  {| config := config this; isRetryable := isRetryable this;
     _callback := _callback this; this_request := Some r;
     stream := if streaming then Some r else stream this;
     numRetries := numRetries this |}.

Definition with_callback (this : t) (cb : bool) : t :=
  {| config := config this; isRetryable := isRetryable this;
     _callback := cb; this_request := this_request this;
     stream := stream this; numRetries := numRetries this |}.

Definition with_numRetries (this : t) (n : Z) : t :=
  {| config := config this; isRetryable := isRetryable this;
     _callback := _callback this; this_request := this_request this;
     stream := stream this; numRetries := Some n |}.

(** [execute(callback?)].  [timer] is the module-level
    [asyncRequestTimer]; [now] the clock in milliseconds. *)
Definition execute (this : t) (callback : bool) (timer : option Z) (now : Z)
  : t * option Z * list effect :=
  let this := with_callback this (callback || _callback this) in
  let r := request_lib (config_request (config this)) in
  if _callback this then
    let timer := match timer with Some s => Some s | None => Some now end in
    (with_request this r false, timer, [Send true r])
  else
    (with_request this r true, timer, [Send false r]).

Definition _finish (err : option Error) (response : option ResponseObject)
  : list effect :=
  match err with
  | Some e => [Callback (Some e) None]
  | None => [Callback None response]
  end.

Definition set_maxRetriesExceeded (e : Error) : Error :=
  {| kind := kind e; err_request := err_request e;
     err_response := err_response e; err_statusCode := err_statusCode e;
     maxRetriesExceeded := true |}.

(** The [retry-after] header of the response attached to an error. *)
Definition retry_after (err : Error) : option string :=
  r ← err_response err;
  h ← response_headers (raw r);
  h !! "retry-after".

Section WithBackoff.

(** [getRetryTimeout] of [util/exponential-backoff], which is not part
    of the sources at hand (and draws a random jitter). *)
Variable getRetryTimeout : Z -> Z -> Z.

(** [_retry(err)].  [elapsed] is the reading of
    [process.hrtime(asyncRequestTimer)] in milliseconds. *)
Definition _retry (this : t) (err : Error) (elapsed : Z) : t * list effect :=
  let n := match numRetries this with Some n => if n =? 0 then 0 else n | None => 0 end in
  let this := with_numRetries this n in
  if n <? numMaxRetries (config this) then
    let n := n + 1 in
    let this := with_numRetries this n in
    match retryStrategy (config this) with
    | Some strategy =>
        let retryOptions :=
          {| error := err; numRetryAttempts := n;
             opt_numMaxRetries := numMaxRetries (config this);
             opt_retryIntervalMS := retryIntervalMS (config this);
             totalElapsedTimeMS := elapsed |} in
        match strategy retryOptions with
        | Wait ms => (this, [SetTimeout (Js.Num ms)])
        | Fail e => (this, _finish (Some e) None)
        | Other => (this, _finish (Some err) None)
        end
    | None =>
        match retry_after err with
        | Some s => (this, [SetTimeout (Js.mul (Js.ToNumber s) (Js.Num 1000))])
        | None =>
            (this, [SetTimeout
                      (Js.Num (getRetryTimeout n (retryIntervalMS (config this))))])
        end
    end
  else
    (this, _finish (Some (set_maxRetriesExceeded err)) None).

(** What the transport hands to [_handleResponse]: an error, possibly
    with a response, or a response without error. *)
Inductive Outcome :=
| Failed (err : Error) (response : option RawResponse)
| Responded (response : RawResponse).

Definition isJWT (o : RequestOptions) : bool :=
  match form o with
  | Some f =>
      match Js.get "grant_type" f with
      | Some (Js.VStr g) =>
          String.eqb g "urn:ietf:params:oauth:grant-type:jwt-bearer"
      | _ => false
      end
  | None => false
  end.

Definition attach (err : Error) (req : RequestObject)
           (response : option RawResponse) : Error :=
  {| kind := kind err;
     err_request := Some req;
     err_response :=
       match response with
       | Some r => Some {| request := req; raw := r |}
       | None => err_response err
       end;
     err_statusCode :=
       match response with
       | Some r => Some (statusCode r)
       | None => err_statusCode err
       end;
     maxRetriesExceeded := maxRetriesExceeded err |}.

(** The error and the response [_handleResponse] goes on with: a
    response with a temporary status and no error gets an error made
    from its status. *)
Definition classify (o : Outcome) : option Error * option RawResponse :=
  match o with
  | Failed e r => (Some e, r)
  | Responded r =>
      if isTemporaryError r
      then (Some (createErrorForResponse r), Some r)
      else (None, Some r)
  end.

(** [_handleResponse(err, response)]. *)
Definition _handleResponse (this : t) (o : Outcome) (elapsed : Z)
  : Js.result (t * list effect) :=
  match this_request this with
  | None => Js.Throw Js.TypeError
  | Some req0 =>
      let req := cleanSensitiveHeaders req0 in
      let this := with_request this req false in
      let '(err, response) := classify o in
      match err with
      | Some e =>
          let e := attach e req response in
          let emitted := [Emit (Some e) None] in
          if isRetryable this && negb (isJWT (config_request (config this)))
          then let '(this', effs) := _retry this e elapsed in
               Js.Ret (this', emitted ++ effs)
          else Js.Ret (this, emitted ++ _finish (Some e) None)
      | None =>
          let resp := option_map (fun r => {| request := req; raw := r |}) response in
          Js.Ret (this, Emit None resp :: _finish None resp)
      end
  end.

(** The handlers installed on the stream by [execute()] without
    callback. *)
Definition on_stream_error (err : Error) : list effect :=
  [Emit (Some err) None].

Definition on_stream_response (response : ResponseObject) : list effect :=
  if isClientErrorResponse (raw response)
  then [Emit (Some (createErrorForResponse (raw response))) None]
  else [Emit None (Some response)].

(** The transport raising ['response'] on the stream of the request in
    flight: the response it delivers refers to that request object. *)
Definition stream_response (this : t) (response : RawResponse)
  : list effect :=
  match stream this with
  | Some req => on_stream_response {| request := req; raw := response |}
  | None => []
  end.

(** *** One logical request in callback mode

    [execute(callback)], then for each answer of the transport
    [_handleResponse]; when that arms the timer, the timer fires and
    calls [execute()] again.  An attempt is the clock at [execute],
    the clock when the answer arrives, and the answer.  Without a
    callback the request is streamed and [_handleResponse] is never
    installed. *)

Definition is_timeout (e : effect) : bool :=
  match e with
  | SetTimeout _ => true
  | _ => false
  end.

Definition elapsed_since (timer : option Z) (now : Z) : Z :=
  match timer with
  | Some start => now - start
  | None => 0
  end.

Fixpoint run (this : t) (callback : bool) (timer : option Z)
         (attempts : list (Z * Z * Outcome)) : Js.result (t * list effect) :=
  match attempts with
  | [] => Js.Ret (this, [])
  | (t_exec, t_answer, o) :: rest =>
      let '(this1, timer1, e1) := execute this callback timer t_exec in
      if _callback this1 then
        let* r := _handleResponse this1 o (elapsed_since timer1 t_answer) in
        let '(this2, e2) := r in
        if existsb is_timeout e2 then
          let* r' := run this2 false timer1 rest in
          Js.Ret (fst r', e1 ++ e2 ++ snd r')
        else Js.Ret (this2, e1 ++ e2)
      else Js.Ret (this1, e1)
  end.

(** The number of retries armed in a trace. *)
Definition retries (trace : list effect) : nat :=
  length (List.filter is_timeout trace).

(** [this.numRetries || 0]. *)
Definition current_retries (this : t) : Z :=
  match numRetries this with
  | Some n => n
  | None => 0
  end.

End WithBackoff.

(** *** What a surfaced value exposes *)

Definition option_list {A} (o : option A) : list A :=
  match o with
  | Some a => [a]
  | None => []
  end.

(** The request objects reachable from the error and the response of an
    event or a callback. *)
Definition surfaced_requests (e : effect) : list RequestObject :=
  match e with
  | Emit err response | Callback err response =>
      match err with
      | Some x =>
          option_list (err_request x)
          ++ option_list (option_map request (err_response x))
      | None => []
      end
      ++ option_list (option_map request response)
  | _ => []
  end.

Definition sensitive (name : string) : Prop :=
  name = "Authorization" \/ name = "BoxApi".

(** A request object whose sensitive headers, when set, hold the
    marker. *)
Definition redacted (r : RequestObject) : Prop :=
  forall h name,
    headers r = Some h -> sensitive name ->
    Js.truthy_str (h !! name) = true ->
    h !! name = Some REMOVED_HEADER_MESSAGE.

End APIRequest.

(** ** The token manager ([token-manager.js])

    The request a grant sends (the form, the client credentials, the
    forwarded address) is not modelled; the embedding starts where the
    answer of [makeRequest] arrives. *)

Module TokenManager.
Import Http.

(** [TokenInfo]; [None] is [undefined]. *)
Record TokenInfo := {
  accessToken : option Js.json;
  refreshToken : option Js.json;
  accessTokenTTLMS : option Js.number;
  acquiredAtMS : option Js.number;
}.

(** Which helper of [util/errors] built an error, or where else it
    came from. *)
Inductive ErrorSource :=
| FromRequest                              (* rejection of [makeRequest] *)
| AuthError (message : option string)      (* [buildAuthError] *)
| UnexpectedResponseError                  (* [buildUnexpectedResponseError] *)
| ResponseError (message : string)         (* [buildResponseError] *)
| FromStrategy (message : string)          (* returned by a retry strategy *)
| Exception (e : Js.exn).                  (* thrown by the runtime or a library *)

(** The fields of an error object that the token manager reads or
    writes. *)
Record GrantError := {
  source : ErrorSource;
  authExpired : bool;
  err_statusCode : option Z;
  err_response : option RawResponse;
  maxRetriesExceeded : bool;
}.

(** Modelled from the spec: [buildResponseError] of [util/errors], of
    which only the declarations are at hand; it attaches "meta data from
    the response data", here the response and its status code. *)
Definition buildResponseError (response : RawResponse) (message : string)
  : GrantError :=
  {| source := ResponseError message; authExpired := false;
     err_statusCode := Some (statusCode response);
     err_response := Some response; maxRetriesExceeded := false |}.

(** Modelled from the spec: [buildAuthError] of [util/errors], the
    "expired/invalid credential" error, which "indicates auth-expired". *)
Definition buildAuthError (response : RawResponse) (message : option string)
  : GrantError :=
  {| source := AuthError message; authExpired := true;
     err_statusCode := Some (statusCode response);
     err_response := Some response; maxRetriesExceeded := false |}.

(** Modelled from the spec: [buildUnexpectedResponseError] of
    [util/errors], the "unexpected response" error. *)
Definition buildUnexpectedResponseError (response : RawResponse) : GrantError :=
  {| source := UnexpectedResponseError; authExpired := false;
     err_statusCode := Some (statusCode response);
     err_response := Some response; maxRetriesExceeded := false |}.

Definition thrown (e : Js.exn) : GrantError :=
  {| source := Exception e; authExpired := false; err_statusCode := None;
     err_response := None; maxRetriesExceeded := false |}.

(** [err.response.body.error_description.indexOf(t) > -1]. *)
Definition description_mentions (t : string) (b : Body) : Js.result bool :=
  match b with
  | BodyJson (Js.JObj ps) =>
      match Js.jget "error_description" ps with
      | Some (Js.JStr d) => Js.Ret (Js.contains t d)
      | Some (Js.JArr items) =>
          Js.Ret (existsb (fun x => match x with
                                    | Js.JStr s => String.eqb s t
                                    | _ => false
                                    end) items)
      | _ => Js.Throw Js.TypeError
      end
  | _ => Js.Throw Js.TypeError
  end.

Definition status_retryable (statusCode : option Z) : bool :=
  match statusCode with
  | Some c => (c =? 429) || (500 <=? c)
  | None => false
  end.

Definition isJWTAuthErrorRetryable (err : GrantError) : Js.result bool :=
  if authExpired err then
    match err_response err with
    | None => Js.Throw Js.TypeError
    | Some r =>
        match response_headers r with
        | None => Js.Throw Js.TypeError
        | Some h =>
            if Js.truthy_str (h !! "date") then
              let* exp := description_mentions "exp" (body r) in
              let* hit :=
                (if exp then Js.Ret true
                 else description_mentions "jti" (body r)) in
              if hit then Js.Ret true
              else Js.Ret (status_retryable (err_statusCode err))
            else Js.Ret (status_retryable (err_statusCode err))
        end
    end
  else Js.Ret (status_retryable (err_statusCode err)).

(** [grantResponseBody.k]; reading a property of [undefined] or [null]
    throws, a [Buffer] or a JSON value that is not an object has no such
    property. *)
Definition body_prop (k : string) (b : Body) : Js.result (option Js.json) :=
  match b with
  | BodyUndefined | BodyJson Js.JNull => Js.Throw Js.TypeError
  | BodyJson (Js.JObj ps) => Js.Ret (Js.jget k ps)
  | _ => Js.Ret None
  end.

Definition getTokensFromGrantResponse (grantResponseBody : Body) (now : Z)
  : Js.result TokenInfo :=
  let* access_token := body_prop "access_token" grantResponseBody in
  let* refresh_token := body_prop "refresh_token" grantResponseBody in
  let* expires_in := body_prop "expires_in" grantResponseBody in
  Js.Ret {| accessToken := access_token;
            refreshToken := refresh_token;
            accessTokenTTLMS := Some (Js.mul (Js.parseInt expires_in) (Js.Num 1000));
            acquiredAtMS := Some (Js.Num now) |}.

Definition isValidCodeOrToken (codeOrToken : option Js.json) : bool :=
  match codeOrToken with
  | Some (Js.JStr s) => 0 <? Z.of_nat (String.length s)
  | _ => false
  end.

Definition is_number (v : option Js.json) : bool :=
  match v with
  | Some (Js.JNum _) => true
  | _ => false
  end.

Definition isValidTokenResponse (grantType : string) (responseBody : Body)
  : Js.result bool :=
  let* access_token := body_prop "access_token" responseBody in
  if negb (isValidCodeOrToken access_token) then Js.Ret false
  else
    let* expires_in := body_prop "expires_in" responseBody in
    if negb (is_number expires_in) then Js.Ret false
    else if String.eqb grantType "authorization_code"
            || String.eqb grantType "refresh_token"
    then
      let* refresh_token := body_prop "refresh_token" responseBody in
      if negb (isValidCodeOrToken refresh_token) then Js.Ret false
      else Js.Ret true
    else Js.Ret true.

Definition nonempty_string (v : option Js.json) : bool :=
  match v with
  | Some (Js.JStr s) => negb (String.eqb s "")
  | _ => false
  end.

Definition has_member (k : string) (ps : list (string * Js.json)) : bool :=
  match Js.jget k ps with
  | Some _ => true
  | None => false
  end.

Definition requires_refresh_token (grantType : string) : bool :=
  String.eqb grantType "authorization_code"
  || String.eqb grantType "refresh_token".

(** The condition as the specification words it: the body contains the
    fields the grant type requires, [access_token] always and
    [refresh_token] for the two grants that yield one. *)
Definition spec_required_fields (grantType : string)
           (ps : list (string * Js.json)) : bool :=
  has_member "access_token" ps
  && (negb (requires_refresh_token grantType) || has_member "refresh_token" ps).

(** The condition the code checks, read off a JSON object: a non-empty
    string [access_token], a number [expires_in] and, for the two
    grants above, a non-empty string [refresh_token]. *)
Definition token_fields_ok (grantType : string)
           (ps : list (string * Js.json)) : bool :=
  nonempty_string (Js.jget "access_token" ps)
  && is_number (Js.jget "expires_in" ps)
  && (negb (requires_refresh_token grantType)
      || nonempty_string (Js.jget "refresh_token" ps)).

(** [isAccessTokenValid(tokenInfo, bufferMS)]; [now] is [Date.now()]. *)
Definition isAccessTokenValid (tokenInfo : TokenInfo)
           (bufferMS : option Js.number) (now : Z) : bool :=
  match acquiredAtMS tokenInfo, accessTokenTTLMS tokenInfo with
  | Some acquired, Some ttl =>
      let bufferMS :=
        match bufferMS with
        | Some (Js.Num b) => if b =? 0 then Js.Num 0 else Js.Num b
        | _ => Js.Num 0
        end in
      let expireTime := Js.sub (Js.add acquired ttl) bufferMS in
      Js.gt expireTime (Js.Num now)
  | _, _ => false
  end.

(** A settled promise. *)
Inductive Settled (A : Type) :=
| Resolved (a : A)
| Rejected (e : GrantError).
Arguments Resolved {A} a.
Arguments Rejected {A} e.

Definition is_invalid_grant (b : Body) : bool :=
  match b with
  | BodyJson (Js.JObj ps) =>
      match Js.jget "error" ps with
      | Some (Js.JStr e) => String.eqb e "invalid_grant"
      | _ => false
      end
  | _ => false
  end.

(** [response.body.error_description] of a body that passed
    [is_invalid_grant]. *)
Definition error_description (b : Body) : option Js.json :=
  match b with
  | BodyJson (Js.JObj ps) => Js.jget "error_description" ps
  | _ => None
  end.

Definition json_truthy (v : option Js.json) : bool :=
  match v with
  | None | Some Js.JNull => false
  | Some (Js.JBool b) => b
  | Some (Js.JNum z) => negb (z =? 0)
  | Some (Js.JStr s) => negb (String.eqb s "")
  | Some _ => true
  end.

Definition is_buffer (b : Body) : bool :=
  match b with
  | BodyBuffer _ => true
  | _ => false
  end.

Definition OK : Z := 200.

(** The [then] handler of [getTokens]: what the promise settles to when
    [makeRequest] resolves with [response]; [now] is the clock when the
    handler runs. *)
Definition getTokens_then (grant_type : string) (response : RawResponse)
           (now : Z) : Settled TokenInfo :=
  if is_invalid_grant (body response) then
    let errDescription := error_description (body response) in
    let message :=
      if json_truthy errDescription
      then Some ("Auth Error: " +:+
                 match errDescription with
                 | Some j => Js.json_toString j
                 | None => ""
                 end)
      else None in
    Rejected (buildAuthError response message)
  else if negb (statusCode response =? OK) || is_buffer (body response) then
    Rejected (buildUnexpectedResponseError response)
  else
    match isValidTokenResponse grant_type (body response) with
    | Js.Throw e => Rejected (thrown e)
    | Js.Ret false =>
        Rejected (buildResponseError response "Token format from response invalid")
    | Js.Ret true =>
        match getTokensFromGrantResponse (body response) now with
        | Js.Throw e => Rejected (thrown e)
        | Js.Ret tokenInfo => Resolved tokenInfo
        end
    end.

(** [getTokens]: the promise of [makeRequest] either rejects, and the
    rejection passes through, or resolves and the handler runs. *)
Definition getTokens (grant_type : string)
           (answer : GrantError + RawResponse) (now : Z) : Settled TokenInfo :=
  match answer with
  | inl e => Rejected e
  | inr response => getTokens_then grant_type response now
  end.

(** *** The JWT retry loop *)

(** The options handed to a retry strategy. *)
Record RetryOptions := {
  error : GrantError;
  numRetryAttempts : Z;
  opt_numMaxRetries : Z;
  opt_retryIntervalMS : Z;
  totalElapsedTimeMS : Z;
}.

Inductive StrategyResult :=
| Wait (ms : Z)
| Fail (e : GrantError)
| Other.

(** The fields of [Config] the retry loop reads; [expirationTime] is
    [config.appAuth.expirationTime]. *)
Record Config := {
  numMaxRetries : Z;
  retryIntervalMS : Z;
  retryStrategy : option (RetryOptions -> StrategyResult);
  expirationTime : Z;
}.

(** The value held by the variable [retryTimeoutinSeconds]: a number
    (from the strategy or the backoff) or the header string. *)
Inductive Timeout :=
| OfNumber (z : Z)
| OfHeader (s : string).

(** [+ms], the coercion [Promise.delay] of bluebird applies to its
    argument before it arms [setTimeout] with it. *)
Definition delay_ms (t : Timeout) : Js.number :=
  match t with
  | OfNumber z => Js.Num z
  | OfHeader s => Js.ToNumber s
  end.

(** [a + t] for a number [a]: a sum, or a concatenation when [t] is a
    string. *)
Definition plus_timeout (a : Js.number) (t : Timeout) : Js.number :=
  match t with
  | OfNumber z => Js.add a (Js.Num z)
  | OfHeader s => Js.ToNumber (Js.Number_toString a +:+ s)
  end.

Definition retry_after (err : GrantError) : option string :=
  r ← err_response err;
  h ← response_headers r;
  h !! "retry-after".

Definition set_maxRetriesExceeded (e : GrantError) : GrantError :=
  {| source := source e; authExpired := authExpired e;
     err_statusCode := err_statusCode e; err_response := err_response e;
     maxRetriesExceeded := true |}.

(** What one call of [retryJWTGrant] does: it throws, or it re-signs
    and returns [Promise.delay(retryTimeoutinSeconds).then(...)], whose
    continuation calls [getTokens] again. *)
Inductive Step :=
| Throws (e : GrantError)
| Delay (ms : Js.number) (exp : Js.number) (jwtid : string)
        (assertion : string) (numRetries : Z).

Section WithLibraries.

(** [getRetryTimeout] of [util/exponential-backoff], [Date.parse],
    and [jwt.sign] applied to the claims' [exp] and the [jwtid]. *)
Variable getRetryTimeout : Z -> Z -> Z.
Variable Date_parse : string -> Js.number.
Variable jwt_sign : Js.number -> string -> Js.result string.

(** The choice of [retryTimeoutinSeconds], or the error to throw. *)
Definition choose_timeout (cfg : Config) (error : GrantError)
           (numRetries elapsed : Z) : GrantError + Timeout :=
  match retryStrategy cfg with
  | Some strategy =>
      let retryOptions :=
        {| error := error; numRetryAttempts := numRetries;
           opt_numMaxRetries := numMaxRetries cfg;
           opt_retryIntervalMS := retryIntervalMS cfg;
           totalElapsedTimeMS := elapsed |} in
      match strategy retryOptions with
      | Wait ms => inr (OfNumber ms)
      | Fail e => inl e
      | Other => inl error
      end
  | None =>
      match retry_after error with
      | Some s => inr (OfHeader s)
      | None =>
          inr (OfNumber
                 (Js.ceil_divZ
                    (getRetryTimeout numRetries (retryIntervalMS cfg)) 1000))
      end
  end.

(** [retryJWTGrant(claims, jwtOptions, keyParams, params, options,
    error, numRetries)]; [elapsed] is the reading of the request
    timer, [now] is [Date.now()], [uuid] the value of [uuid.v4()]. *)
Definition retryJWTGrant (cfg : Config) (error : GrantError)
           (numRetries elapsed now : Z) (uuid : string) : Step :=
  match (if numRetries <? numMaxRetries cfg
         then isJWTAuthErrorRetryable error
         else Js.Ret false) with
  | Js.Throw e => Throws (thrown e)
  | Js.Ret true =>
      let numRetries := numRetries + 1 in
      match choose_timeout cfg error numRetries elapsed with
      | inl e => Throws e
      | inr retryTimeoutinSeconds =>
          match err_response error with
          | None => Throws (thrown Js.TypeError)
          | Some r =>
              match response_headers r with
              | None => Throws (thrown Js.TypeError)
              | Some h =>
                  let time :=
                    match h !! "date" with
                    | Some d =>
                        if negb (String.eqb d "")
                        then Js.floor_div (Date_parse d) 1000
                        else Js.Num (now / 1000)
                    | None => Js.Num (now / 1000)
                    end in
                  let exp :=
                    plus_timeout (Js.add time (Js.Num (expirationTime cfg)))
                                 retryTimeoutinSeconds in
                  match jwt_sign exp uuid with
                  | Js.Throw e => Throws (thrown e)
                  | Js.Ret assertion =>
                      Delay (delay_ms retryTimeoutinSeconds) exp uuid
                            assertion numRetries
                  end
              end
          end
      end
  | Js.Ret false =>
      if numMaxRetries cfg <=? numRetries
      then Throws (set_maxRetriesExceeded error)
      else Throws error
  end.

End WithLibraries.

End TokenManager.

(** ** API sessions with refresh capability

    Of the sessions ([PersistentSession], [AppAuthSession],
    [CCGSession]) only the declarations are at hand: the fields
    [_tokenInfo] and [_refreshPromise] and the signature of
    [getAccessToken].  Their behaviour is taken from section 4.4 of the
    specification. *)

Module Session.
Import TokenManager.

(** Modelled from the spec: the two buffers of the configuration that
    decide when a token counts as expired and as stale; the session
    implementations that read them are missing from the sources. *)
Record Config := {
  expiredBufferMS : Z;
  staleBufferMS : Z;
}.

(** Modelled from the spec: the mutable state of a session, "a Session's
    cached TokenInfo and in-flight-refresh marker"; the implementations
    are missing from the sources.  [_refreshPromise] names the promise of
    the grant call under way by its number; [grants] counts the grant
    calls issued to the token endpoint so far. *)
Record t := {
  _tokenInfo : option TokenInfo;
  _refreshPromise : option nat;
  grants : nat;
}.

(** Modelled from the spec: what [getAccessToken] hands to its caller,
    the cached access token at once or the promise of a refresh to
    await; the implementations are missing from the sources. *)
Inductive Reply :=
| Token (accessToken : option Js.json)
| Pending (promise : nat).

(** Modelled from the spec: the four states of a session, "transitioning
    purely as a function of wall-clock time against the held TokenInfo";
    the session implementations are missing from the sources. *)
Inductive Freshness := NoToken | Valid | StaleButValid | Expired.

(** Modelled from the spec: the state of a session at a clock reading;
    expired is "beyond the expired buffer", stale is valid but "inside
    the stale buffer window".  The implementations are missing from the
    sources; the validity test is the token manager's. *)
Definition freshness (cfg : Config) (s : t) (now : Z) : Freshness :=
  match _tokenInfo s with
  | None => NoToken
  | Some tokenInfo =>
      if negb (isAccessTokenValid tokenInfo
                 (Some (Js.Num (expiredBufferMS cfg))) now)
      then Expired
      else if negb (isAccessTokenValid tokenInfo
                      (Some (Js.Num (staleBufferMS cfg))) now)
      then StaleButValid
      else Valid
  end.

(** Modelled from the spec: the refresh, missing from the sources.  "If
    a refresh is already in flight, all concurrent callers await the
    same in-flight refresh promise rather than issuing duplicate grant
    calls"; otherwise one grant call is issued and its promise becomes
    the marker.  The check and the set happen in one turn of the event
    loop ("never awaiting between the check and the flag-set"). *)
Definition refresh (s : t) : t * nat :=
  match _refreshPromise s with
  | Some promise => (s, promise)
  | None =>
      ({| _tokenInfo := _tokenInfo s;
          _refreshPromise := Some (grants s);
          grants := S (grants s) |},
       grants s)
  end.

(** Modelled from the spec: the access token of the cached TokenInfo,
    read by the missing [getAccessToken]. *)
Definition cached_accessToken (s : t) : option Js.json :=
  match _tokenInfo s with
  | Some tokenInfo => accessToken tokenInfo
  | None => None
  end.

(** Modelled from the spec: the contract of [getAccessToken(options)],
    missing from the sources.  No token or an expired one: the caller
    blocks on a refresh.  Stale but valid: the caller gets the current
    token and a background refresh is kicked off.  Valid: the token, no
    refresh. *)
Definition getAccessToken (cfg : Config) (s : t) (now : Z) : t * Reply :=
  match freshness cfg s now with
  | NoToken | Expired => let '(s', promise) := refresh s in (s', Pending promise)
  | StaleButValid => (fst (refresh s), Token (cached_accessToken s))
  | Valid => (s, Token (cached_accessToken s))
  end.

(** Modelled from the spec: the completion of the grant call under way,
    missing from the sources.  "The in-flight marker is cleared on
    completion (success or failure)"; on success the result is cached
    (the TokenInfo is "replaced wholesale on refresh"). *)
Definition settle (s : t) (result : GrantError + TokenInfo) : t :=
  {| _tokenInfo := match result with
                   | inr tokenInfo => Some tokenInfo
                   | inl _ => _tokenInfo s
                   end;
     _refreshPromise := None;
     grants := grants s |}.

(** Modelled from the spec: what the refresh promise settles to, the
    new access token or the error of the grant call; the implementations
    are missing from the sources. *)
Definition delivered (result : GrantError + TokenInfo)
  : GrantError + option Js.json :=
  match result with
  | inr tokenInfo => inr (accessToken tokenInfo)
  | inl e => inl e
  end.

(** Modelled from the spec: what the caller holding [reply] has received
    once the promise numbered [promise] has settled with [result]; a
    caller awaiting another promise has received nothing yet. *)
Definition received (promise : nat) (result : GrantError + TokenInfo)
           (reply : Reply) : option (GrantError + option Js.json) :=
  match reply with
  | Token accessToken => Some (inr accessToken)
  | Pending awaited =>
      if Nat.eqb awaited promise then Some (delivered result) else None
  end.

(** Modelled from the spec: a burst of concurrent [getAccessToken]
    calls, one per clock reading, served one after the other by the
    event loop before any grant call completes. *)
Fixpoint calls (cfg : Config) (s : t) (nows : list Z) : t * list Reply :=
  match nows with
  | [] => (s, [])
  | now :: rest =>
      let '(s1, reply) := getAccessToken cfg s now in
      let '(s2, replies) := calls cfg s1 rest in
      (s2, reply :: replies)
  end.

(** Modelled from the spec: "no valid token is cached", the session
    holds no token or an expired one. *)
Definition needs_refresh (cfg : Config) (s : t) (now : Z) : bool :=
  match freshness cfg s now with
  | NoToken | Expired => true
  | _ => false
  end.

End Session.

(** ** The [merge-options] package

    [merge(...options)] returns a fresh object: the options merged from
    left to right, plain objects recursively, every other value replaced
    by the later one. *)

Module MergeOptions.
Import Js.

(** [clone(value)]: a plain object is copied, property by property; any
    other value is returned itself. *)
Fixpoint clone (v : value) : value :=
  match v with
  | VObj _ ps =>
      VObj false
        ((fix each (ps : list (string * value)) : list (string * value) :=
            match ps with
            | [] => []
            | (key, x) :: rest => (key, clone x) :: each rest
            end) ps)
  | _ => v
  end.

(** [merge(merged, source)], with [mergeKeys] inlined; [merged] is a
    fresh object, "already cloned". *)
Fixpoint merge (merged source : value) {struct source} : value :=
  match source with
  | VObj _ sps =>
      match merged with
      | VObj _ mps =>
          VObj false
            ((fix mergeKeys (keys acc : list (string * value))
                : list (string * value) :=
                match keys with
                | [] => acc
                | (key, sv) :: rest =>
                    mergeKeys rest
                      (set key
                         match get key acc with
                         | Some mv => merge mv sv
                         | None => clone sv
                         end acc)
                end) sps mps)
      | _ => clone source
      end
  | _ => source
  end.

Fixpoint merge_all (merged : value) (options : list value) : result value :=
  match options with
  | [] => Ret merged
  | VUndefined :: rest => merge_all merged rest
  | (VObj _ _ as option) :: rest => merge_all (merge merged option) rest
  | _ :: _ => Throw TypeError
  end.

(** The exported function. *)
Definition mergeOptions (options : list value) : result value :=
  merge_all (VObj false []) options.

End MergeOptions.

(** ** The configuration object ([util/config.js])

    A [Config] instance is an object whose first own property is
    [_params] and whose other properties are those of [_params].  In the
    source the nested objects of the instance are the very objects of
    [_params]; the embedding is a tree and holds them twice. *)

Module Config.
Import Js MergeOptions.

Definition appAuthDefaults : list (string * value) :=
  [("algorithm", VStr "RS256"); ("expirationTime", VNum 30);
   ("verifyTimestamp", VBool false)].

(** The message texts are given without their quotation marks. *)
Definition validateBasicParams (params : value) : result unit :=
  let* clientID := member params "clientID" in
  let* _ := assert (type_tag_eqb (typeof clientID) TString)
              "clientID must be set via init() before using the SDK." in
  let* clientSecret := member params "clientSecret" in
  assert (type_tag_eqb (typeof clientSecret) TString)
    "clientSecret must be set via init() before using the SDK.".

Definition is_Buffer (v : value) : bool :=
  match v with
  | VBuffer _ => true
  | _ => false
  end.

Definition nonempty_String (v : value) : bool :=
  match v with
  | VStr s => 0 <? Z.of_nat (String.length s)
  | _ => false
  end.

Definition validAlgorithms : list string := ["RS256"; "RS384"; "RS512"].

Definition is_valid_algorithm (v : value) : bool :=
  match v with
  | VStr a => existsb (String.eqb a) validAlgorithms
  | _ => false
  end.

Definition is_valid_expirationTime (v : value) : bool :=
  match v with
  | VNum e => (0 <? e) && (e <=? 60)
  | _ => false
  end.

Definition validateAppAuthParams (appAuth : value) : result unit :=
  let* keyID := member appAuth "keyID" in
  let* _ := assert (type_tag_eqb (typeof keyID) TString)
              "Key ID must be provided in app auth params" in
  let* privateKey := member appAuth "privateKey" in
  let* _ := assert (type_tag_eqb (typeof privateKey) TString || is_Buffer privateKey)
              "Private key must be provided in app auth params" in
  let* passphrase := member appAuth "passphrase" in
  let* _ := assert (nonempty_String passphrase)
              "Passphrase must be provided in app auth params" in
  let* algorithm := member appAuth "algorithm" in
  let* _ := (if negb (type_tag_eqb (typeof algorithm) TUndefined)
             then assert (is_valid_algorithm algorithm)
                    "Algorithm in app auth params must be one of: RS256, RS384, RS512"
             else Ret tt) in
  let* expirationTime := member appAuth "expirationTime" in
  if negb (type_tag_eqb (typeof expirationTime) TUndefined)
  then assert (is_valid_expirationTime expirationTime)
         "Valid token expiration time (0 - 60) must be provided in app auth params"
  else Ret tt.

(** [deepFreezeWithRequest(obj)]: freeze [obj], then every own property
    that is a non-null object, not yet frozen, and neither a [Buffer]
    nor a [Readable]. *)
Fixpoint deepFreezeWithRequest (obj : value) : value :=
  match obj with
  | VObj _ ps =>
      VObj true
        ((fix each (ps : list (string * value)) : list (string * value) :=
            match ps with
            | [] => []
            | (name, prop) :: rest =>
                (name,
                 match prop with
                 | VObj false _ => deepFreezeWithRequest prop
                 | _ => prop
                 end) :: each rest
            end) ps)
  | _ => obj
  end.

Section WithEnvironment.

(** The version strings of the package and of Node, and [url.parse],
    whose result has string or null fields. *)
Variable sdkVersion nodeVersion : string.
Variable url_parse : string -> list (string * option string).

Definition defaults : list (string * value) :=
  [("clientID", VNull);
   ("clientSecret", VNull);
   ("apiRootURL", VStr "https://api.box.com");
   ("uploadAPIRootURL", VStr "https://upload.box.com/api");
   ("authorizeRootURL", VStr "https://account.box.com/api");
   ("apiVersion", VStr "2.0");
   ("uploadRequestTimeoutMS", VNum 60000);
   ("retryIntervalMS", VNum 2000);
   ("numMaxRetries", VNum 5);
   ("retryStrategy", VNull);
   ("expiredBufferMS", VNum 180000);
   ("staleBufferMS", VNum 0);
   ("appAuth", VUndefined);
   ("iterators", VBool false);
   ("enterpriseID", VUndefined);
   ("analyticsClient", VNull);
   ("proxy", VObj false [("url", VNull); ("username", VNull); ("password", VNull)]);
   ("request",
    VObj false
      [("strictSSL", VBool true);
       ("agentClass", VFun "https.Agent");
       ("agentOptions", VObj false [("keepAlive", VBool true)]);
       ("json", VBool true);
       ("encoding", VNull);
       ("followRedirect", VBool false);
       ("headers",
        VObj false
          [("User-Agent",
            VStr ("Box Node.js SDK v" +:+ sdkVersion +:+ " (Node "
                  +:+ nodeVersion +:+ ")"))])])].

Definition parsed_props (fields : list (string * option string))
  : list (string * value) :=
  map (fun kv => (fst kv, match snd kv with Some s => VStr s | None => VNull end))
      fields.

(** [updateRequestAgent(params)].  The nested objects it assigns to are
    written back into [params], which is the fresh result of a merge. *)
Definition updateRequestAgent (params : value) : result value :=
  let* proxy := member params "proxy" in
  let* url := member proxy "url" in
  if truthy url then
    let* request := member params "request" in
    let* request := assign_member request "agentClass" (VFun "ProxyAgent") in
    let* agentOptions := member request "agentOptions" in
    let* parsed := match url with
                   | VStr s => Ret (parsed_props (url_parse s))
                   | _ => Throw TypeError
                   end in
    let agentOptions :=
      VObj false (assign_props (assign_props [] (own_enumerable agentOptions)) parsed) in
    let* request := assign_member request "agentOptions" agentOptions in
    let* username := member proxy "username" in
    let* password := member proxy "password" in
    let* request :=
      (if truthy username && truthy password then
         let* agentOptions :=
           assign_member agentOptions "auth"
             (VStr (template username +:+ ":" +:+ template password)) in
         assign_member request "agentOptions" agentOptions
       else Ret request) in
    assign_member params "request" request
  else Ret params.

(** [new Config(params)]. *)
Definition constructor (params : value) : result value :=
  let* _ := validateBasicParams params in
  let* appAuth := member params "appAuth" in
  let* params :=
    (if type_tag_eqb (typeof appAuth) TObject then
       let* _ := validateAppAuthParams appAuth in
       let* merged := mergeOptions [VObj false []; VObj false appAuthDefaults; appAuth] in
       assign_member params "appAuth" merged
     else Ret params) in
  let* _ := assert (negb (hasOwn params "extend"))
              "Config params may not override Config methods" in
  let* _ := assert (negb (hasOwn params "_params"))
              "Config params may not override Config methods" in
  let* _params := mergeOptions [VObj false defaults; params] in
  let* _params := updateRequestAgent _params in
  let this := VObj false (assign_props [("_params", _params)] (own_enumerable _params)) in
  Ret (deepFreezeWithRequest this).

(** [extend(params)] on the instance [this]. *)
Definition extend (this params : value) : result value :=
  let* _params := member this "_params" in
  let* newParams := mergeOptions [VObj false []; _params; params] in
  let newParams := delete_member newParams "extend" in
  let newParams := delete_member newParams "_params" in
  constructor newParams.

End WithEnvironment.

(** *** Attempts to change a value from outside *)

Inductive mutation :=
| Assign (k : string) (v : value)
| Delete (k : string).

(** The mutation applied to the object itself: it takes effect on an
    object that is not frozen, and on nothing else. *)
Definition apply_mutation (m : mutation) (o : value) : value :=
  match o with
  | VObj false ps =>
      VObj false match m with
                 | Assign k v => set k v ps
                 | Delete k => delete k ps
                 end
  | _ => o
  end.

(** Replace the value of the property [k], when there is one. *)
Fixpoint update (k : string) (f : value -> value) (ps : list (string * value))
  : list (string * value) :=
  match ps with
  | [] => []
  | (k', v) :: rest =>
      if String.eqb k k' then (k', f v) :: rest else (k', v) :: update k f rest
  end.

(** The mutation applied to the object reached from [root] along the
    property path [path].  Reaching an object through a frozen one is
    not hindered: freezing is shallow. *)
Fixpoint attempt (path : list string) (m : mutation) (root : value) : value :=
  match path with
  | [] => apply_mutation m root
  | name :: rest =>
      match root with
      | VObj frozen ps => VObj frozen (update name (attempt rest m) ps)
      | _ => root
      end
  end.

(** [buffer[i] = byte] on the buffer reached along [path]. *)
Fixpoint poke (path : list string) (i : nat) (byte : Z) (root : value) : value :=
  match path with
  | [] =>
      match root with
      | VBuffer bytes => VBuffer (<[i := byte]> bytes)
      | _ => root
      end
  | name :: rest =>
      match root with
      | VObj frozen ps => VObj frozen (update name (poke rest i byte) ps)
      | _ => root
      end
  end.

(** Every object in the value is frozen. *)
Fixpoint deep_frozen (v : value) : bool :=
  match v with
  | VObj frozen ps =>
      frozen
      && (fix all (ps : list (string * value)) : bool :=
            match ps with
            | [] => true
            | (_, x) :: rest => deep_frozen x && all rest
            end) ps
  | _ => true
  end.

(** No object in the value is frozen. *)
Fixpoint fresh (v : value) : bool :=
  match v with
  | VObj frozen ps =>
      negb frozen
      && (fix all (ps : list (string * value)) : bool :=
            match ps with
            | [] => true
            | (_, x) :: rest => fresh x && all rest
            end) ps
  | _ => true
  end.

Definition all_fresh (ps : list (string * value)) : Prop :=
  Forall (fun kv => fresh (snd kv) = true) ps.

Definition all_frozen (ps : list (string * value)) : Prop :=
  Forall (fun kv => deep_frozen (snd kv) = true) ps.

End Config.

(** ** Kinds of values *)

Module Values.
Import Js Config.

(** A value that is not a plain object: [merge] takes it as it is. *)
Definition atomic (v : value) : Prop := forall frozen ps, v <> VObj frozen ps.

(** What [deepFreezeWithRequest] does to a property of the object it
    freezes. *)
Definition frozen_prop (v : value) : value :=
  match v with
  | VObj false _ => deepFreezeWithRequest v
  | _ => v
  end.

(** The names that a plain object inherits from [Object.prototype],
    and a configuration besides from [Config.prototype].  Read on an
    object without own property of that name, they yield the inherited
    member; and [__proto__] is an accessor, so that assigning to it
    makes no own property.  The embedding keeps own properties only:
    what is stated of every property name is stated of the names
    outside this list. *)
Definition inherited : list string :=
  ["constructor"; "extend"; "__proto__"; "hasOwnProperty"; "isPrototypeOf";
   "propertyIsEnumerable"; "toString"; "toLocaleString"; "valueOf";
   "__defineGetter__"; "__defineSetter__"; "__lookupGetter__";
   "__lookupSetter__"].

(** The representation invariant of objects: no property name occurs
    twice, in the value and in every object inside it. *)
Fixpoint distinct (keys : list string) : bool :=
  match keys with
  | [] => true
  | k :: rest => negb (existsb (String.eqb k) rest) && distinct rest
  end.

Fixpoint wf (v : value) : bool :=
  match v with
  | VObj _ ps =>
      distinct (map fst ps)
      && (fix all (ps : list (string * value)) : bool :=
            match ps with
            | [] => true
            | (_, x) :: rest => wf x && all rest
            end) ps
  | _ => true
  end.

Definition all_wf (ps : list (string * value)) : Prop :=
  Forall (fun kv => wf (snd kv) = true) ps.

(** [v'] carries [v]: it is [v] when [v] is no plain object, and
    otherwise a plain object that has, under the same names, the
    properties of [v] that are no plain objects. *)
Definition carries (v v' : value) : Prop :=
  match v with
  | VObj _ ps =>
      exists frozen' ps',
        v' = VObj frozen' ps'
        /\ forall k x, get k ps = Some x -> atomic x -> get k ps' = Some x
  | _ => v' = v
  end.

End Values.

(** ** The trace of a logical request *)

Module Lifecycle.
Import Http APIRequest.

(** The effects of an attempt that ends with the timer re-armed: the
    request is sent, the error is put on the event bus, the timer is
    set. *)
Definition retry_round (req : RequestObject) (r : Error * Js.number)
  : list effect :=
  [Send true req; Emit (Some (fst r)) None; SetTimeout (snd r)].

End Lifecycle.

(** ** The JWT grant and its retries ([getTokensJWTGrant]) *)

Module JWTGrant.
Import Http TokenManager.

(** [grantTypes.JWT]. *)
Definition JWT : string := "urn:ietf:params:oauth:grant-type:jwt-bearer".

(** The answer of the token endpoint to one request of the grant, with
    what the handler that receives it reads from its environment:
    [Date.now()], the request timer (restarted before each request)
    and, when it signs anew, [uuid.v4()]. *)
Record Answer := {
  answer : GrantError + RawResponse;
  now : Z;
  elapsed : Z;
  uuid : string;
}.

(** What a call of [getTokensJWTGrant] comes to. *)
Inductive Started :=
| Thrown (e : Js.exn)                   (* thrown by the call itself *)
| RejectedAtOnce (message : string)     (* [Promise.reject(new Error(message))] *)
| RejectedBySign (e : Js.exn)           (* [Promise.reject(jwtErr)] *)
| Requested (exp : Js.number) (jwtid assertion : string)
            (retries : list Step) (settled : option (Settled TokenInfo)).

Section WithLibraries.

Variable getRetryTimeout : Z -> Z -> Z.
Variable Date_parse : string -> Js.number.
Variable jwt_sign : Js.number -> string -> Js.result string.

(** [this.getTokens(params, options).catch(err => this.retryJWTGrant(...,
    err, numRetries))], over the answers given to the successive
    requests: the retries made, in order, and what the promise settles
    to, [None] as long as a request is unanswered. *)
Fixpoint chain (cfg : Config) (numRetries : Z) (answers : list Answer)
  : list Step * option (Settled TokenInfo) :=
  match answers with
  | [] => ([], None)
  | a :: rest =>
      match getTokens JWT (answer a) (now a) with
      | Resolved tokenInfo => ([], Some (Resolved tokenInfo))
      | Rejected err =>
          match retryJWTGrant getRetryTimeout Date_parse jwt_sign cfg err
                  numRetries (elapsed a) (now a) (uuid a) with
          | Throws e => ([], Some (Rejected e))
          | Delay ms exp jwtid assertion numRetries' =>
              let '(retries, settled) := chain cfg numRetries' rest in
              (Delay ms exp jwtid assertion numRetries' :: retries, settled)
          end
      end
  end.

(** [getTokensJWTGrant(type, id, options)].  [appAuth] is
    [this.config.appAuth], whose [expirationTime] is the one of [cfg];
    [now] and [uuid] are [Date.now()] and [uuid.v4()] at the call. *)
Definition getTokensJWTGrant (cfg : Config) (appAuth : Js.value)
           (now : Z) (uuid : string) (answers : list Answer) : Started :=
  match Js.member appAuth "keyID" with
  | Js.Throw e => Thrown e
  | Js.Ret keyID =>
      if negb (Js.truthy keyID) then
        RejectedAtOnce "Must provide app auth configuration to use JWT Grant"
      else
        let exp := Js.add (Js.Num (now / 1000)) (Js.Num (expirationTime cfg)) in
        match jwt_sign exp uuid with
        | Js.Throw e => RejectedBySign e
        | Js.Ret assertion =>
            let '(retries, settled) := chain cfg 0 answers in
            Requested exp uuid assertion retries settled
        end
  end.

End WithLibraries.

(** The retry count a step carries. *)
Definition count (s : Step) : option Z :=
  match s with
  | Delay _ _ _ _ n => Some n
  | Throws _ => None
  end.

End JWTGrant.

(** ** The requests of the token manager ([token-manager.js]) *)

Module TokenRequests.
Import Js.

Definition AUTHORIZATION_CODE : string := "authorization_code".
Definition REFRESH_TOKEN : string := "refresh_token".
Definition CLIENT_CREDENTIALS : string := "client_credentials".
Definition JWT : string := "urn:ietf:params:oauth:grant-type:jwt-bearer".
Definition TOKEN_EXCHANGE : string := "urn:ietf:params:oauth:grant-type:token-exchange".

(** [tokenPaths]. *)
Definition ROOT : string := "/oauth2".
Definition GET : string := "/token".
Definition REVOKE : string := "/revoke".

Definition HEADER_XFF : string := "X-Forwarded-For".
Definition ACCESS_TOKEN_TYPE : string := "urn:ietf:params:oauth:token-type:access_token".
Definition ACTOR_TOKEN_TYPE : string := "urn:ietf:params:oauth:token-type:id_token".
Definition BOX_JWT_AUDIENCE : string := "https://api.box.com/oauth2/token".

(** The fields of [Config] read when a request is put together;
    [apiRootURL] is a string. *)
Record Config := {
  clientID : value;
  clientSecret : value;
  apiRootURL : string;
  boxSubjectType : value;
  boxSubjectId : value;
}.

(** [this.oauthBaseURL], set by the constructor. *)
Definition oauthBaseURL (config : Config) : string := apiRootURL config +:+ ROOT.

(** The options object handed to [makeRequest]; [headers] is [None]
    when the object has no such property. *)
Record Params := {
  method : string;
  url : string;
  headers : option (list (string * value));
  form : list (string * value);
}.

(** [o.k] on a truthy value, for a name that is not built in. *)
Definition field (o : value) (k : string) : value :=
  match o with
  | VObj _ ps => prop k ps
  | _ => VUndefined
  end.

(** The request of [getTokens(formParams, options)]; the form is the
    caller's object, with the credentials of the application written
    into it. *)
Definition getTokens (config : Config) (formParams : list (string * value))
           (options : value) : Params :=
  let options := if truthy options then options else VObj false [] in
  let form := set "client_id" (clientID config) formParams in
  let form := set "client_secret" (clientSecret config) form in
  let ip := field options "ip" in
  {| method := "POST";
     url := oauthBaseURL config +:+ GET;
     headers := Some (if truthy ip then set HEADER_XFF ip [] else []);
     form := form |}.

(** [typeof codeOrToken === 'string' && codeOrToken.length > 0] on an
    argument of a call. *)
Definition isValidCodeOrToken (codeOrToken : value) : bool :=
  match codeOrToken with
  | VStr s => 0 <? Z.of_nat (String.length s)
  | _ => false
  end.

(** A grant method returns a promise that is rejected before any
    request is made, or makes the request. *)
Inductive Started :=
| RejectedAtOnce (message : string)   (* [Promise.reject(new Error(message))] *)
| RejectedBySign (e : exn)             (* [Promise.reject(jwtError)] *)
| Request (params : Params).

Definition getTokensAuthorizationCodeGrant (config : Config)
           (authorizationCode options : value) : Started :=
  if negb (isValidCodeOrToken authorizationCode)
  then RejectedAtOnce "Invalid authorization code."
  else Request (getTokens config
                  [("grant_type", VStr AUTHORIZATION_CODE);
                   ("code", authorizationCode)] options).

Definition getTokensClientCredentialsGrant (config : Config) (options : value)
  : Started :=
  Request (getTokens config
             [("grant_type", VStr CLIENT_CREDENTIALS);
              ("box_subject_type", boxSubjectType config);
              ("box_subject_id", boxSubjectId config)] options).

Definition getTokensRefreshGrant (config : Config)
           (refreshToken options : value) : Started :=
  if negb (isValidCodeOrToken refreshToken)
  then RejectedAtOnce "Invalid refresh token."
  else Request (getTokens config
                  [("grant_type", VStr REFRESH_TOKEN);
                   ("refresh_token", refreshToken)] options).

(** The request of a JWT grant, first or retried: [getTokens] on the
    form that holds the assertion. *)
Definition jwt_request (config : Config) (assertion : string) (options : value)
  : Params :=
  getTokens config [("grant_type", VStr JWT); ("assertion", VStr assertion)] options.

(** [scopes]: a string, or an array of strings to be joined. *)
Inductive Scopes :=
| ScopeString (s : string)
| ScopeArray (items : list string).

(** [items.join(' ')]. *)
Fixpoint join (items : list string) : string :=
  match items with
  | [] => ""
  | [s] => s
  | s :: rest => s +:+ " " +:+ join rest
  end.

(** [options.actor] and [options.sharedLink] of [exchangeToken], as
    [ActorParams] and [SharedLinkParams] declare them. *)
Record ActorParams := {
  actor_id : value;
  actor_name : value;
}.

Record ExchangeOptions := {
  tokenRequestOptions : value;
  actor : option ActorParams;
  sharedLink : option value;       (* [options.sharedLink.url] *)
}.

Section WithLibraries.

(** [jwt.sign(payload, 'UNUSED', jwtOptions)] of the actor token,
    applied to the issuer, the actor and the [jwtid]. *)
Variable sign_actor : value -> ActorParams -> string -> result string.

(** [exchangeToken(accessToken, scopes, resource, options)]; [uuid] is
    the value of [uuid.v4()]. *)
Definition exchangeToken (config : Config) (accessToken : value)
           (scopes : Scopes) (resource : value)
           (options : option ExchangeOptions) (uuid : string) : Started :=
  let params :=
    [("grant_type", VStr TOKEN_EXCHANGE);
     ("subject_token_type", VStr ACCESS_TOKEN_TYPE);
     ("subject_token", accessToken);
     ("scope", VStr match scopes with
                    | ScopeString s => s
                    | ScopeArray items => join items
                    end)] in
  let params := if truthy resource then set "resource" resource params else params in
  let params :=
    match options with
    | Some {| sharedLink := Some url |} => set "box_shared_link" url params
    | _ => params
    end in
  let signed :=
    match options with
    | Some {| actor := Some a |} =>
        match sign_actor (clientID config) a uuid with
        | Throw e => inl e
        | Ret token =>
            inr (set "actor_token_type" (VStr ACTOR_TOKEN_TYPE)
                   (set "actor_token" (VStr token) params))
        end
    | _ => inr params
    end in
  match signed with
  | inl e => RejectedBySign e
  | inr params =>
      Request (getTokens config params
                 match options with
                 | Some o => if truthy (tokenRequestOptions o)
                             then tokenRequestOptions o else VNull
                 | None => VNull
                 end)
  end.

End WithLibraries.

(** The options object itself, as [makeRequest] receives it. *)
Definition options_object (p : Params) : value :=
  VObj false
    ([("method", VStr (method p)); ("url", VStr (url p))]
     ++ match headers p with
        | Some h => [("headers", VObj false h)]
        | None => []
        end
     ++ [("form", VObj false (form p))]).

(** [revokeTokens(token, options)]. *)
Definition revokeTokens (config : Config) (token options : value) : Params :=
  let ip := if truthy options then field options "ip" else VUndefined in
  {| method := "POST";
     url := oauthBaseURL config +:+ REVOKE;
     headers := if truthy ip then Some (set HEADER_XFF ip []) else None;
     form := [("token", token);
              ("client_id", clientID config);
              ("client_secret", clientSecret config)] |}.

End TokenRequests.

(** ** The request manager ([api-request-manager.js]) *)

Module APIRequestManager.
Import Js.

Section WithEnvironment.

Variable sdkVersion nodeVersion : string.
Variable url_parse : string -> list (string * option string).

(** [this.config.extend({request: options})]: the request-specific
    configuration that [makeRequest] and [makeStreamingRequest] hand to
    [new APIRequest]. *)
Definition requestConfig (config options : value) : result value :=
  Config.extend sdkVersion nodeVersion url_parse config
    (VObj false [("request", options)]).

End WithEnvironment.

(** What [new APIRequest(requestConfig, eventBus)] sets [isRetryable]
    to: [isRequestRetryable(config.request)], that is
    [!config.request.formData]. *)
Definition isRetryable (requestConfig : value) : result bool :=
  let* request := member requestConfig "request" in
  let* formData := member request "formData" in
  Ret (negb (truthy formData)).

(** [o.hasOwnProperty(k)] as a method call: it throws on [undefined]
    and [null]. *)
Definition hasOwnProperty_call (o : value) (k : string) : result bool :=
  match o with
  | VUndefined | VNull => Throw TypeError
  | _ => Ret (hasOwn o k)
  end.

(** The test of [_handleResponse] for a JWT grant, on the
    configuration of the request. *)
Definition isJWT (requestConfig : value) : result bool :=
  let* request := member requestConfig "request" in
  let* hasForm := hasOwnProperty_call request "form" in
  if hasForm then
    let* form := member request "form" in
    let* hasGrantType := hasOwnProperty_call form "grant_type" in
    if hasGrantType then
      let* grant_type := member form "grant_type" in
      Ret match grant_type with
          | VStr g => String.eqb g "urn:ietf:params:oauth:grant-type:jwt-bearer"
          | _ => false
          end
    else Ret false
  else Ret false.

End APIRequestManager.

(** ** The requests of a grant, through [makeRequest]

    [makeRequest] runs a request executor in callback mode and returns
    [Promise.fromCallback(callback => apiRequest.execute(callback))],
    with a [catch] that unwraps the rejection. *)

Module GrantTransport.
Import Http.

(** The fields of an error of the executor that the token manager
    reads.  The errors the executor makes ([new Error(...)]) and those
    of the transport have no [authExpired]. *)
Definition rejection (e : APIRequest.Error) : TokenManager.GrantError :=
  {| TokenManager.source := TokenManager.FromRequest;
     TokenManager.authExpired := false;
     TokenManager.err_statusCode := APIRequest.err_statusCode e;
     TokenManager.err_response := option_map raw (APIRequest.err_response e);
     TokenManager.maxRetriesExceeded := APIRequest.maxRetriesExceeded e |}.

(** What the promise settles to: the arguments of the first call of the
    callback, [None] as long as there is none.  Modelled from the spec:
    [unwrapAndThrow] of [util/errors], of which only the declaration is
    at hand; through it "the original error (with its attached
    request/response/statusCode/maxRetriesExceeded fields) reaches the
    caller unchanged".  The executor never calls back with neither
    error nor response. *)
Fixpoint settled (trace : list APIRequest.effect)
  : option (TokenManager.GrantError + RawResponse) :=
  match trace with
  | [] => None
  | APIRequest.Callback (Some e) _ :: _ => Some (inl (rejection e))
  | APIRequest.Callback None (Some response) :: _ => Some (inr (raw response))
  | APIRequest.Callback None None :: _ => None
  | _ :: rest => settled rest
  end.

Section WithBackoff.

Variable getRetryTimeout : Z -> Z -> Z.

(** [makeRequest(options)], from [new APIRequest(requestConfig,
    eventBus)] on: [cfg] is what the executor reads of [requestConfig],
    [timer] the module-level request timer, [attempts] the answers of
    the transport with the clock readings. *)
Definition makeRequest (cfg : APIRequest.Config) (timer : option Z)
           (attempts : list (Z * Z * APIRequest.Outcome))
  : option (TokenManager.GrantError + RawResponse) :=
  match APIRequest.run getRetryTimeout (APIRequest.constructor cfg) true timer
          attempts with
  | Js.Ret (_, trace) => settled trace
  | Js.Throw _ => None
  end.

(** An answer that tells a grant to come back: its request, made
    through [makeRequest] under the executor configuration [cfg], gets
    a response with status 429 or from 500 up, with headers, whose body
    is no [invalid_grant] error, and the answer is what the promise of
    [makeRequest] settles to. *)
Definition busy (cfg : APIRequest.Config) (a : JWTGrant.Answer)
           (response : RawResponse) : Prop :=
  (exists timer t_exec t_answer,
      makeRequest cfg timer [(t_exec, t_answer, APIRequest.Responded response)]
      = Some (JWTGrant.answer a))
  /\ (statusCode response = 429 \/ 500 <= statusCode response)
  /\ TokenManager.is_invalid_grant (body response) = false
  /\ response_headers response <> None.

End WithBackoff.

End GrantTransport.

(** ** The SDK object ([box-node-sdk.js]) *)

Module BoxSDKNode.
Import Js.

(** [typeof v === 'object']. *)
Definition is_object (v : value) : bool := type_tag_eqb (typeof v) TObject.

Definition is_string (v : value) : bool := type_tag_eqb (typeof v) TString.

(** The first part of [getPreconfiguredInstance(appConfig)]: the
    arguments it hands to [Webhooks.setSignatureKeys], when it calls it,
    and the parameters it puts together for [new BoxSDKNode(params)]. *)
Definition preconfigured_params (appConfig : value)
  : result (option (value * value) * value) :=
  let* boxAppSettings := member appConfig "boxAppSettings" in
  if negb (is_object boxAppSettings) then Throw TypeError
  else
    let* webhooks := member appConfig "webhooks" in
    let* signatureKeys :=
      (if is_object webhooks then
         let* primaryKey := member webhooks "primaryKey" in
         let* secondaryKey := member webhooks "secondaryKey" in
         Ret (Some (primaryKey, secondaryKey))
       else Ret None) in
    let params := [] in
    let* clientID := member boxAppSettings "clientID" in
    let params := if is_string clientID then set "clientID" clientID params
                  else params in
    let* clientSecret := member boxAppSettings "clientSecret" in
    let params := if is_string clientSecret then set "clientSecret" clientSecret params
                  else params in
    let* appAuth := member boxAppSettings "appAuth" in
    let* params :=
      (if is_object appAuth then
         let* publicKeyID := member appAuth "publicKeyID" in
         if truthy publicKeyID then
           let* privateKey := member appAuth "privateKey" in
           let settings := [("keyID", publicKeyID); ("privateKey", privateKey)] in
           let* passphrase := member appAuth "passphrase" in
           let settings := if is_string passphrase
                           then set "passphrase" passphrase settings
                           else settings in
           Ret (set "appAuth" (VObj false settings) params)
         else Ret params
       else Ret params) in
    let* enterpriseID := member appConfig "enterpriseID" in
    let params := if is_string enterpriseID then set "enterpriseID" enterpriseID params
                  else params in
    Ret (signatureKeys, VObj false params).

Section WithEnvironment.

Variable sdkVersion nodeVersion : string.
Variable url_parse : string -> list (string * option string).

(** [getPreconfiguredInstance(appConfig)], as far as the configuration
    of the instance it returns: [new BoxSDKNode(params)] makes it with
    [new Config(params)]. *)
Definition getPreconfiguredInstance (appConfig : value)
  : result (option (value * value) * value) :=
  let* r := preconfigured_params appConfig in
  let* config := Config.constructor sdkVersion nodeVersion url_parse (snd r) in
  Ret (fst r, config).

(** [configure(params)], as far as the configuration. *)
Definition configure (config params : value) : result value :=
  Config.extend sdkVersion nodeVersion url_parse config params.

End WithEnvironment.

End BoxSDKNode.

(* ===================================================================== *)
(** * Part II: properties *)
(* ===================================================================== *)

(** ** Failure classification *)

Section Classification.
Import Http APIRequest.

Lemma retryableStatusCodes_lookup (c : Z) :
  default false (retryableStatusCodes !! c) = (c =? 408) || (c =? 429).
Proof.
  unfold retryableStatusCodes, TOO_MANY_REQUESTS, REQUEST_TIMEOUT.
  destruct (Z.eqb_spec c 429) as [->|H429].
  - rewrite lookup_insert_eq. reflexivity.
  - rewrite lookup_insert_ne by congruence.
    destruct (Z.eqb_spec c 408) as [->|H408].
    + rewrite lookup_insert_eq. reflexivity.
    + rewrite lookup_insert_ne by congruence.
      rewrite lookup_empty. reflexivity.
Qed.

Lemma isTemporaryError_bool (r : RawResponse) :
  isTemporaryError r =
  (negb (statusCode r =? 507) && (500 <=? statusCode r) && (statusCode r <=? 599))
  || (statusCode r =? 408) || (statusCode r =? 429).
Proof.
  unfold isTemporaryError, INSUFFICIENT_STORAGE,
    HTTP_STATUS_CODE_SERVER_ERROR_BLOCK_RANGE; cbn [fst snd].
  rewrite retryableStatusCodes_lookup.
  destruct (negb (statusCode r =? 507) && (500 <=? statusCode r)
            && (statusCode r <=? 599)); cbn.
  - reflexivity.
  - destruct ((statusCode r =? 408) || (statusCode r =? 429)); reflexivity.
Qed.

Lemma isTemporaryError_iff (r : RawResponse) :
  isTemporaryError r = true <->
  (500 <= statusCode r <= 599 /\ statusCode r <> 507)
  \/ statusCode r = 408 \/ statusCode r = 429.
Proof.
  rewrite isTemporaryError_bool.
  rewrite !orb_true_iff, !andb_true_iff, negb_true_iff.
  rewrite !Z.eqb_eq, Z.eqb_neq, !Z.leb_le. tauto.
Qed.

End Classification.

(** ** The retry loop of the request executor *)

Section RetryLoop.
Import Http APIRequest.

Variable getRetryTimeout : Z -> Z -> Z.

Lemma finish_no_timeout err response :
  existsb is_timeout (_finish err response) = false.
Proof. destruct err; reflexivity. Qed.

Lemma finish_retries err response : retries (_finish err response) = 0%nat.
Proof. destruct err; reflexivity. Qed.

Lemma normalise_retries (this : APIRequest.t) :
  match numRetries this with
  | Some n => if n =? 0 then 0 else n
  | None => 0
  end = current_retries this.
Proof.
  unfold current_retries. destruct (numRetries this) as [n|]; [|reflexivity].
  destruct (Z.eqb_spec n 0); congruence.
Qed.

(** [_retry] when the budget is spent. *)
Lemma retry_exhausted (this : APIRequest.t) (err : Error) (elapsed : Z) :
  numMaxRetries (config this) <= current_retries this ->
  _retry getRetryTimeout this err elapsed =
  (with_numRetries this (current_retries this),
   [Callback (Some (set_maxRetriesExceeded err)) None]).
Proof.
  intros Hle. unfold _retry. rewrite normalise_retries. cbn [config with_numRetries].
  destruct (Z.ltb_spec (current_retries this) (numMaxRetries (config this)));
    [lia | reflexivity].
Qed.

(** [_retry] leaves the configuration alone, and arms the timer only
    after counting one more retry within the budget. *)
Lemma retry_step (this : APIRequest.t) (err : Error) (elapsed : Z) :
  let r := _retry getRetryTimeout this err elapsed in
  config (fst r) = config this
  /\ _callback (fst r) = _callback this
  /\ isRetryable (fst r) = isRetryable this
  /\ current_retries this <= current_retries (fst r)
  /\ (existsb is_timeout (snd r) = true ->
      current_retries this < numMaxRetries (config this)
      /\ current_retries (fst r) = current_retries this + 1
      /\ retries (snd r) = 1%nat)
  /\ (existsb is_timeout (snd r) = false -> retries (snd r) = 0%nat).
Proof.
  unfold _retry. rewrite normalise_retries. cbn [config with_numRetries].
  destruct (Z.ltb_spec (current_retries this) (numMaxRetries (config this)))
    as [Hlt|Hge].
  - destruct (retryStrategy (config this)) as [strategy|].
    + destruct (strategy _); cbn; repeat split; try lia; try congruence;
        intros; try discriminate;
        rewrite ?finish_no_timeout in *; try discriminate; apply finish_retries.
    + destruct (retry_after err); cbn; repeat split; try lia; congruence.
  - cbn. repeat split; try lia; try reflexivity; intros; discriminate.
Qed.

Lemma retries_app (a b : list effect) :
  retries (a ++ b) = (retries a + retries b)%nat.
Proof. unfold retries. rewrite List.filter_app, length_app. reflexivity. Qed.

(** [_handleResponse] of a request in flight never throws; it keeps the
    configuration, and arms the timer at most once, within the budget. *)
Lemma handleResponse_step (this : APIRequest.t) (req0 : RequestObject)
      (o : Outcome) (elapsed : Z) :
  this_request this = Some req0 ->
  exists this' effs,
    _handleResponse getRetryTimeout this o elapsed = Js.Ret (this', effs)
    /\ config this' = config this
    /\ _callback this' = _callback this
    /\ isRetryable this' = isRetryable this
    /\ (existsb is_timeout effs = true ->
        current_retries this < numMaxRetries (config this)
        /\ current_retries this' = current_retries this + 1
        /\ retries effs = 1%nat)
    /\ (existsb is_timeout effs = false -> retries effs = 0%nat).
Proof.
  intros Hreq. unfold _handleResponse. rewrite Hreq.
  set (this1 := with_request this (cleanSensitiveHeaders req0) false).
  assert (Hcur : current_retries this1 = current_retries this) by reflexivity.
  destruct (classify o) as [[e|] response].
  - destruct (isRetryable this1
              && negb (isJWT (config_request (config this1)))).
    + pose proof (retry_step this1
                    (attach e (cleanSensitiveHeaders req0) response) elapsed) as H.
      destruct (_retry getRetryTimeout this1 _ elapsed) as [this' effs].
      cbn [fst snd] in H. destruct H as (Hc & Hcb & Hr & _ & Ht & Hn).
      exists this', ([Emit (Some (attach e (cleanSensitiveHeaders req0) response)) None]
                     ++ effs).
      split; [reflexivity|].
      split; [exact Hc|]. split; [exact Hcb|]. split; [exact Hr|].
      split.
      * intros H. cbn in H. destruct (Ht H) as (H1 & H2 & H3).
        rewrite retries_app, H3. cbn. rewrite <- Hcur. auto.
      * intros H. cbn in H. rewrite retries_app, (Hn H). reflexivity.
    + exists this1, ([Emit (Some (attach e (cleanSensitiveHeaders req0) response)) None]
                     ++ _finish (Some (attach e (cleanSensitiveHeaders req0) response)) None).
      split; [reflexivity|].
      repeat (split; [reflexivity|]).
      split; intros H; cbn in H; [discriminate|reflexivity].
  - exists this1.
    eexists. split; [reflexivity|].
    repeat (split; [reflexivity|]).
    split; intros H; cbn in H |- *; [discriminate|reflexivity].
Qed.

Lemma execute_spec (this : APIRequest.t) (cb : bool) (timer : option Z) (now : Z) :
  let r := request_lib (config_request (config this)) in
  let stored := cb || _callback this in
  execute this cb timer now =
  (with_request (with_callback this stored) r (negb stored),
   if stored then Some (default now timer) else timer,
   [Send stored r]).
Proof.
  unfold execute. cbn [_callback with_callback].
  destruct (cb || _callback this); cbn; [|reflexivity].
  destruct timer; reflexivity.
Qed.

(** A logical request always runs to an end, whatever the transport
    answers, and arms the timer no more often than the budget left. *)
Lemma run_bound (attempts : list (Z * Z * Outcome)) :
  forall (this : APIRequest.t) (cb : bool) (timer : option Z),
  exists this' trace,
    run getRetryTimeout this cb timer attempts = Js.Ret (this', trace)
    /\ (retries trace
        <= Z.to_nat (numMaxRetries (config this) - current_retries this))%nat.
Proof.
  induction attempts as [|[[t_exec t_answer] o] rest IH]; intros this cb timer.
  - exists this, []. split; [reflexivity|]. cbn. lia.
  - cbn [run]. rewrite execute_spec. cbv zeta.
    set (stored := cb || _callback this).
    set (this1 := with_request _ _ _).
    assert (Hcfg1 : config this1 = config this) by reflexivity.
    assert (Hcur1 : current_retries this1 = current_retries this) by reflexivity.
    change (_callback this1) with stored.
    destruct stored eqn:Hstored.
    + destruct (handleResponse_step this1
                  (request_lib (config_request (config this))) o
                  (elapsed_since (Some (default t_exec timer)) t_answer)
                  eq_refl)
        as (this2 & e2 & Hh & Hcfg2 & _ & _ & Ht & Hn).
      rewrite Hh. cbn [Js.bind].
      destruct (existsb is_timeout e2) eqn:Harmed.
      * destruct (Ht eq_refl) as (Hlt & Hinc & Hone).
        destruct (IH this2 false (Some (default t_exec timer)))
          as (this3 & tl & Hrun & Hle).
        rewrite Hrun. cbn [Js.bind fst snd].
        exists this3, ([Send true (request_lib (config_request (config this)))]
                       ++ e2 ++ tl).
        split; [reflexivity|].
        rewrite !retries_app, Hone. cbn.
        rewrite Hcfg2, Hcfg1, Hinc, Hcur1 in Hle.
        rewrite Hcfg1, Hcur1 in Hlt. lia.
      * exists this2, ([Send true (request_lib (config_request (config this)))]
                       ++ e2).
        split; [reflexivity|].
        rewrite retries_app, (Hn eq_refl). cbn. lia.
    + exists this1, [Send false (request_lib (config_request (config this)))].
      split; [reflexivity|]. cbn. lia.
Qed.

(** The first attempt of a fresh executor in callback mode. *)
Lemma run_first (cfg : APIRequest.Config) (timer : option Z)
      (t_exec t_answer : Z) (o : Outcome) (rest : list (Z * Z * Outcome)) :
  let req := request_lib (config_request cfg) in
  let this1 := with_request (with_callback (constructor cfg) true) req false in
  let timer1 := Some (default t_exec timer) in
  run getRetryTimeout (constructor cfg) true timer ((t_exec, t_answer, o) :: rest) =
  let* r := _handleResponse getRetryTimeout this1 o (elapsed_since timer1 t_answer) in
  if existsb is_timeout (snd r) then
    let* r' := run getRetryTimeout (fst r) false timer1 rest in
    Js.Ret (fst r', [Send true req] ++ snd r ++ snd r')
  else Js.Ret (fst r, [Send true req] ++ snd r).
Proof.
  cbn [run]. rewrite execute_spec. cbn [orb negb]. cbv zeta.
  cbn [_callback with_request with_callback config constructor].
  destruct (_handleResponse _ _ _ _) as [[this2 e2]|]; reflexivity.
Qed.

(** Any attempt of an executor that has, or is given, a callback. *)
Lemma run_step (this : APIRequest.t) (cb : bool) (timer : option Z)
      (t_exec t_answer : Z) (o : Outcome) (rest : list (Z * Z * Outcome)) :
  cb || _callback this = true ->
  let req := request_lib (config_request (config this)) in
  let this1 := with_request (with_callback this true) req false in
  let timer1 := Some (default t_exec timer) in
  run getRetryTimeout this cb timer ((t_exec, t_answer, o) :: rest) =
  let* r := _handleResponse getRetryTimeout this1 o (elapsed_since timer1 t_answer) in
  if existsb is_timeout (snd r) then
    let* r' := run getRetryTimeout (fst r) false timer1 rest in
    Js.Ret (fst r', [Send true req] ++ snd r ++ snd r')
  else Js.Ret (fst r, [Send true req] ++ snd r).
Proof.
  intros Hcb. cbn [run]. rewrite execute_spec, Hcb. cbn [negb]. cbv zeta.
  cbn [_callback with_request with_callback].
  destruct (_handleResponse _ _ _ _) as [[this2 e2]|]; reflexivity.
Qed.

(** What [_handleResponse] does with an error of a request that enters
    the built-in retry loop. *)
Lemma handleResponse_retry (this : APIRequest.t) (req0 : RequestObject)
      (o : Outcome) (elapsed : Z) (e : Error) (response : option RawResponse) :
  this_request this = Some req0 ->
  isRetryable this = true ->
  isJWT (config_request (config this)) = false ->
  retryStrategy (config this) = None ->
  classify o = (Some e, response) ->
  let req := cleanSensitiveHeaders req0 in
  let this1 := with_request this req false in
  let e' := attach e req response in
  _handleResponse getRetryTimeout this o elapsed =
  if current_retries this <? numMaxRetries (config this)
  then Js.Ret (with_numRetries this1 (current_retries this + 1),
               [Emit (Some e') None;
                SetTimeout
                  match retry_after e' with
                  | Some s => Js.mul (Js.ToNumber s) (Js.Num 1000)
                  | None => Js.Num (getRetryTimeout (current_retries this + 1)
                                      (retryIntervalMS (config this)))
                  end])
  else Js.Ret (with_numRetries this1 (current_retries this),
               [Emit (Some e') None;
                Callback (Some (set_maxRetriesExceeded e')) None]).
Proof.
  intros Hreq Hretry Hjwt Hstrat Hcl. cbv zeta.
  unfold _handleResponse. rewrite Hreq, Hcl.
  cbn [isRetryable config with_request]. rewrite Hretry, Hjwt. cbn [andb negb].
  unfold _retry. rewrite normalise_retries.
  cbn [config with_numRetries with_request]. rewrite Hstrat.
  change (current_retries (with_request this (cleanSensitiveHeaders req0) false))
    with (current_retries this).
  destruct (current_retries this <? numMaxRetries (config this)); [|reflexivity].
  destruct (retry_after _); reflexivity.
Qed.

(** With the built-in policy, a request whose every attempt fails uses
    its whole budget and then hands the flagged error to the callback:
    [k] retries left take [k + 1] failing answers. *)
Lemma run_until_exhausted (k : nat) :
  forall (this : APIRequest.t) (cb : bool) (timer : option Z)
         (attempts : list (Z * Z * Outcome)),
    cb || _callback this = true ->
    isRetryable this = true ->
    isJWT (config_request (config this)) = false ->
    retryStrategy (config this) = None ->
    Z.of_nat k = numMaxRetries (config this) - current_retries this ->
    length attempts = S k ->
    Forall (fun a => exists e r, classify (snd a) = (Some e, r)) attempts ->
    exists this' trace e,
      run getRetryTimeout this cb timer attempts
      = Js.Ret (this', trace ++ [Callback (Some e) None])
      /\ maxRetriesExceeded e = true
      /\ retries (trace ++ [Callback (Some e) None]) = k.
Proof.
  induction k as [|k IH];
    intros this cb timer attempts Hcb Hretry Hjwt Hstrat Hk Hlen Hall;
    destruct attempts as [|[[t_exec t_answer] o] rest]; try discriminate;
    inversion Hall as [|? ? (e & response & Hcl) Hrest]; subst; cbn [snd] in Hcl;
    rewrite run_step by exact Hcb; cbv zeta;
    rewrite (handleResponse_retry
               (with_request (with_callback this true)
                  (request_lib (config_request (config this))) false)
               (request_lib (config_request (config this)))
               o _ e response eq_refl Hretry Hjwt Hstrat Hcl);
    change (current_retries (with_request (with_callback this true) _ false))
      with (current_retries this);
    change (config (with_request (with_callback this true) _ false))
      with (config this).
  - destruct (Z.ltb_spec (current_retries this) (numMaxRetries (config this)));
      [lia|].
    cbn [Js.bind snd fst existsb is_timeout orb].
    eexists _, [_; _], _. split; [reflexivity|]. split; reflexivity.
  - destruct (Z.ltb_spec (current_retries this) (numMaxRetries (config this)));
      [|lia].
    cbn [Js.bind snd fst existsb is_timeout orb].
    edestruct (IH (with_numRetries
                     (with_request
                        (with_request (with_callback this true)
                           (request_lib (config_request (config this))) false)
                        (cleanSensitiveHeaders
                           (request_lib (config_request (config this)))) false)
                     (current_retries this + 1))
                  false (Some (default t_exec timer)) rest)
      as (this' & trace & e1 & Hrun & Hflag & Hcount);
      try reflexivity; try assumption.
    + cbn. lia.
    + cbn in Hlen. lia.
    + rewrite Hrun. cbn [Js.bind fst snd].
      eexists this', (_ :: _ :: _ :: trace), e1.
      split; [reflexivity|]. split; [exact Hflag|].
      cbn [app] in *. unfold retries in *. cbn [List.filter is_timeout length].
      rewrite Hcount. reflexivity.
Qed.

End RetryLoop.

(** C1: a buffered response is classified as a temporary failure exactly
    when its status is in 500..599 and is not 507, or is 408 or 429, by
    the predicate and by the executor: [_handleResponse], given a
    response without transport error, makes of a response with such a
    status the error of that status, puts it on the event bus and then
    either arms a retry or hands an error to the callback, and hands a
    response with any other status to the callback as a success, the
    retry count untouched; a response with such a status is retried when
    the request is retryable and retries are left.  A 507 response is
    not temporary, and a callback-mode request answered by a 507
    response ends at once with the success callback, at the first
    attempt and at any later one: no error is made from it and no retry
    is armed. *)
Theorem temporary_error_classification :
  (forall r : Http.RawResponse,
      APIRequest.isTemporaryError r = true <->
      (500 <= Http.statusCode r <= 599 /\ Http.statusCode r <> 507)
      \/ Http.statusCode r = 408 \/ Http.statusCode r = 429)
  /\ (forall h b,
         APIRequest.isTemporaryError
           {| Http.statusCode := 507; Http.response_headers := h; Http.body := b |}
         = false)
  /\ (forall getRetryTimeout cfg timer t_exec t_answer h b rest,
         let r := {| Http.statusCode := 507; Http.response_headers := h;
                     Http.body := b |} in
         let req := APIRequest.request_lib (APIRequest.config_request cfg) in
         let resp := {| Http.request := APIRequest.cleanSensitiveHeaders req;
                        Http.raw := r |} in
         exists this',
           APIRequest.run getRetryTimeout (APIRequest.constructor cfg) true timer
             ((t_exec, t_answer, APIRequest.Responded r) :: rest)
           = Js.Ret (this', [APIRequest.Send true req;
                             APIRequest.Emit None (Some resp);
                             APIRequest.Callback None (Some resp)]))
  /\ (forall getRetryTimeout this req0 r elapsed,
         APIRequest.this_request this = Some req0 ->
         let req := APIRequest.cleanSensitiveHeaders req0 in
         let resp := {| Http.request := req; Http.raw := r |} in
         let e := APIRequest.attach (APIRequest.createErrorForResponse r) req
                    (Some r) in
         exists this' effs,
           APIRequest._handleResponse getRetryTimeout this (APIRequest.Responded r)
             elapsed
           = Js.Ret (this', effs)
           /\ ((500 <= Http.statusCode r <= 599 /\ Http.statusCode r <> 507)
               \/ Http.statusCode r = 408 \/ Http.statusCode r = 429 ->
               APIRequest.kind e = APIRequest.StatusError (Http.statusCode r)
               /\ exists next,
                   effs = [APIRequest.Emit (Some e) None; next]
                   /\ ((exists delay, next = APIRequest.SetTimeout delay)
                       \/ (exists e1, next = APIRequest.Callback (Some e1) None)))
           /\ (~ ((500 <= Http.statusCode r <= 599 /\ Http.statusCode r <> 507)
                  \/ Http.statusCode r = 408 \/ Http.statusCode r = 429) ->
               effs = [APIRequest.Emit None (Some resp);
                       APIRequest.Callback None (Some resp)]
               /\ APIRequest.numRetries this' = APIRequest.numRetries this))
  /\ (forall getRetryTimeout this req0 r elapsed,
         APIRequest.this_request this = Some req0 ->
         APIRequest.isRetryable this = true ->
         APIRequest.isJWT (APIRequest.config_request (APIRequest.config this))
         = false ->
         APIRequest.retryStrategy (APIRequest.config this) = None ->
         APIRequest.current_retries this
         < APIRequest.numMaxRetries (APIRequest.config this) ->
         (500 <= Http.statusCode r <= 599 /\ Http.statusCode r <> 507)
         \/ Http.statusCode r = 408 \/ Http.statusCode r = 429 ->
         let e := APIRequest.attach (APIRequest.createErrorForResponse r)
                    (APIRequest.cleanSensitiveHeaders req0) (Some r) in
         exists this' delay,
           APIRequest._handleResponse getRetryTimeout this (APIRequest.Responded r)
             elapsed
           = Js.Ret (this', [APIRequest.Emit (Some e) None;
                             APIRequest.SetTimeout delay])
           /\ APIRequest.current_retries this'
              = APIRequest.current_retries this + 1)
  /\ (forall getRetryTimeout this cb timer t_exec t_answer h b rest,
         cb || APIRequest._callback this = true ->
         let r := {| Http.statusCode := 507; Http.response_headers := h;
                     Http.body := b |} in
         let req := APIRequest.request_lib
                      (APIRequest.config_request (APIRequest.config this)) in
         let resp := {| Http.request := APIRequest.cleanSensitiveHeaders req;
                        Http.raw := r |} in
         exists this',
           APIRequest.run getRetryTimeout this cb timer
             ((t_exec, t_answer, APIRequest.Responded r) :: rest)
           = Js.Ret (this', [APIRequest.Send true req;
                             APIRequest.Emit None (Some resp);
                             APIRequest.Callback None (Some resp)])
           /\ APIRequest.numRetries this' = APIRequest.numRetries this).
Proof.
  split; [exact isTemporaryError_iff|].
  split; [intros h b; rewrite isTemporaryError_bool; reflexivity|].
  split.
  { intros gRT cfg timer t_exec t_answer h b rest r req resp.
    rewrite run_first. eexists. reflexivity. }
  split.
  { intros gRT this req0 r elapsed Hreq req resp e.
    unfold APIRequest._handleResponse. rewrite Hreq.
    cbn [APIRequest.classify].
    destruct (APIRequest.isTemporaryError r) eqn:Ht.
    - assert (Hfail :
                forall x : APIRequest.t * list APIRequest.effect,
                  (exists next,
                      snd x = [next]
                      /\ ((exists delay, next = APIRequest.SetTimeout delay)
                          \/ (exists e1, next = APIRequest.Callback (Some e1) None))) ->
                  exists this' effs,
                    (let '(this', effs) := x in
                     Js.Ret (this', [APIRequest.Emit (Some e) None] ++ effs))
                    = Js.Ret (this', effs)
                    /\ ((500 <= Http.statusCode r <= 599 /\ Http.statusCode r <> 507)
                        \/ Http.statusCode r = 408 \/ Http.statusCode r = 429 ->
                        APIRequest.kind e = APIRequest.StatusError (Http.statusCode r)
                        /\ exists next,
                            effs = [APIRequest.Emit (Some e) None; next]
                            /\ ((exists delay, next = APIRequest.SetTimeout delay)
                                \/ (exists e1,
                                       next = APIRequest.Callback (Some e1) None)))
                    /\ (~ ((500 <= Http.statusCode r <= 599
                            /\ Http.statusCode r <> 507)
                           \/ Http.statusCode r = 408 \/ Http.statusCode r = 429) ->
                        effs = [APIRequest.Emit None (Some resp);
                                APIRequest.Callback None (Some resp)]
                        /\ APIRequest.numRetries this' = APIRequest.numRetries this)).
      { intros [this' effs] (next & Heffs & Hnext). cbn [snd] in Heffs. subst effs.
        exists this', [APIRequest.Emit (Some e) None; next].
        split; [reflexivity|]. split.
        - intros _. split; [reflexivity|]. exists next. split; [reflexivity|exact Hnext].
        - intros Hnot. exfalso. apply Hnot. apply isTemporaryError_iff. exact Ht. }
      cbv zeta.
      destruct (APIRequest.isRetryable _ && negb (APIRequest.isJWT _)).
      + apply Hfail. unfold APIRequest._retry.
        destruct (_ <? _).
        * destruct (APIRequest.retryStrategy _) as [strategy|].
          -- destruct (strategy _); cbn [snd APIRequest._finish];
               eexists; (split; [reflexivity|]); eauto.
          -- destruct (APIRequest.retry_after _); cbn [snd];
               eexists; (split; [reflexivity|]); eauto.
        * cbn [snd APIRequest._finish]. eexists. split; [reflexivity|]. eauto.
      + apply (Hfail (_, _)). cbn [snd APIRequest._finish].
        eexists. split; [reflexivity|]. eauto.
    - cbv zeta. eexists _, _. split; [reflexivity|]. split.
      + intros Hyes. apply isTemporaryError_iff in Hyes. congruence.
      + intros _. split; reflexivity. }
  split.
  { intros gRT this req0 r elapsed Hreq Hretry Hjwt Hstrat Hlt Hyes e.
    apply isTemporaryError_iff in Hyes.
    rewrite (handleResponse_retry gRT this req0 (APIRequest.Responded r) elapsed
               (APIRequest.createErrorForResponse r) (Some r)
               Hreq Hretry Hjwt Hstrat)
      by (cbn [APIRequest.classify]; rewrite Hyes; reflexivity).
    destruct (Z.ltb_spec (APIRequest.current_retries this)
                (APIRequest.numMaxRetries (APIRequest.config this))); [|lia].
    eexists _, _. split; reflexivity. }
  intros gRT this cb timer t_exec t_answer h b rest Hcb r req resp.
  rewrite run_step by exact Hcb. eexists. split; reflexivity.
Qed.

(** C1 at a fresh request answered 503 and at one answered 404. *)
Lemma temporary_error_classification_witness :
  let cfg := {| APIRequest.numMaxRetries := 5; APIRequest.retryIntervalMS := 2000;
                APIRequest.retryStrategy := None;
                APIRequest.config_request :=
                  {| APIRequest.opt_method := "GET";
                     APIRequest.opt_url := "https://api.box.com/2.0/files/1";
                     APIRequest.opt_headers := None; APIRequest.form := None;
                     APIRequest.formData := Js.VUndefined |} |} in
  let this := fst (fst (APIRequest.execute (APIRequest.constructor cfg) true None 0)) in
  let status c := {| Http.statusCode := c; Http.response_headers := None;
                     Http.body := Http.BodyUndefined |} in
  (exists this' e delay,
      APIRequest._handleResponse (fun _ _ => 2000) this
        (APIRequest.Responded (status 503)) 1
      = Js.Ret (this', [APIRequest.Emit (Some e) None; APIRequest.SetTimeout delay])
      /\ APIRequest.kind e = APIRequest.StatusError 503)
  /\ (exists this' resp,
         APIRequest._handleResponse (fun _ _ => 2000) this
           (APIRequest.Responded (status 404)) 1
         = Js.Ret (this', [APIRequest.Emit None (Some resp);
                           APIRequest.Callback None (Some resp)])).
Proof.
  intros cfg this status.
  destruct temporary_error_classification as (_ & _ & _ & Hhandle & Hretried & _).
  split.
  - destruct (Hretried (fun _ _ => 2000) this
                (APIRequest.request_lib (APIRequest.config_request cfg))
                (status 503) 1 eq_refl eq_refl eq_refl eq_refl
                ltac:(cbn; lia) ltac:(cbn; lia))
      as (this' & delay & Hrun & _).
    eexists this', _, delay. split; [exact Hrun|reflexivity].
  - destruct (Hhandle (fun _ _ => 2000) this
                (APIRequest.request_lib (APIRequest.config_request cfg))
                (status 404) 1 eq_refl)
      as (this' & effs & Hrun & _ & Hno).
    destruct Hno as [-> _]; [cbn; lia|].
    eexists this', _. exact Hrun.
Defined.

(** C3, as the specification states it, fails: a multipart upload
    (truthy [formData]) under [numMaxRetries = 0] is answered 503, a
    temporary status.  The classified error is handed to the callback at
    once, and it is not flagged [maxRetriesExceeded]: a request that is
    not retryable never enters the retry loop, where the flag is set. *)
Lemma zero_budget_error_can_be_unflagged :
  let cfg := {| APIRequest.numMaxRetries := 0; APIRequest.retryIntervalMS := 2000;
                APIRequest.retryStrategy := None;
                APIRequest.config_request :=
                  {| APIRequest.opt_method := "POST";
                     APIRequest.opt_url := "https://upload.box.com/api/2.0/files/content";
                     APIRequest.opt_headers := None; APIRequest.form := None;
                     APIRequest.formData :=
                       Js.VObj false [("file", Js.VReadable 0)] |} |} in
  let r := {| Http.statusCode := 503; Http.response_headers := None;
              Http.body := Http.BodyUndefined |} in
  let req := APIRequest.request_lib (APIRequest.config_request cfg) in
  let e := APIRequest.attach (APIRequest.createErrorForResponse r)
             (APIRequest.cleanSensitiveHeaders req) (Some r) in
  APIRequest.numMaxRetries cfg = 0
  /\ APIRequest.isTemporaryError r = true
  /\ (exists this',
         APIRequest.run (fun _ _ => 0) (APIRequest.constructor cfg) true None
           [(0, 1, APIRequest.Responded r)]
         = Js.Ret (this', [APIRequest.Send true req;
                           APIRequest.Emit (Some e) None;
                           APIRequest.Callback (Some e) None]))
  /\ APIRequest.maxRetriesExceeded e = false.
Proof.
  intros cfg r req e.
  split; [reflexivity|]. split; [reflexivity|]. split; [|reflexivity].
  eexists. reflexivity.
Qed.

(** C3, amended: the retry loop of the request executor arms at most
    [numMaxRetries] retries for one logical request, whatever the
    transport answers; once the retry count has reached [numMaxRetries]
    the error at hand is flagged [maxRetriesExceeded] and handed to the
    callback; with [numMaxRetries = 0] an error of a request that enters
    the retry loop (a request without [formData] that is no JWT grant)
    is handed to the callback at the first attempt, with the flag set,
    whatever its status code; with the built-in policy a request whose
    attempts all fail uses the whole budget and then calls back with the
    flagged error; and the error of a request that does not enter the
    retry loop is handed to the callback at the first attempt as it is,
    unflagged, whatever the budget. *)
Theorem retry_budget :
  (forall getRetryTimeout cfg timer attempts,
      exists this' trace,
        APIRequest.run getRetryTimeout (APIRequest.constructor cfg) true timer attempts
        = Js.Ret (this', trace)
        /\ (APIRequest.retries trace <= Z.to_nat (APIRequest.numMaxRetries cfg))%nat)
  /\ (forall getRetryTimeout this err elapsed,
         APIRequest.numMaxRetries (APIRequest.config this)
         <= APIRequest.current_retries this ->
         snd (APIRequest._retry getRetryTimeout this err elapsed)
         = [APIRequest.Callback (Some (APIRequest.set_maxRetriesExceeded err)) None]
         /\ APIRequest.maxRetriesExceeded (APIRequest.set_maxRetriesExceeded err) = true)
  /\ (forall getRetryTimeout cfg timer t_exec t_answer o rest e response,
         APIRequest.numMaxRetries cfg = 0 ->
         APIRequest.isRequestRetryable (APIRequest.config_request cfg) = true ->
         APIRequest.isJWT (APIRequest.config_request cfg) = false ->
         APIRequest.classify o = (Some e, response) ->
         let req := APIRequest.request_lib (APIRequest.config_request cfg) in
         let e' := APIRequest.attach e (APIRequest.cleanSensitiveHeaders req) response in
         exists this',
           APIRequest.run getRetryTimeout (APIRequest.constructor cfg) true timer
             ((t_exec, t_answer, o) :: rest)
           = Js.Ret (this', [APIRequest.Send true req;
                             APIRequest.Emit (Some e') None;
                             APIRequest.Callback
                               (Some (APIRequest.set_maxRetriesExceeded e')) None]))
  /\ (forall getRetryTimeout cfg timer attempts,
         APIRequest.isRequestRetryable (APIRequest.config_request cfg) = true ->
         APIRequest.isJWT (APIRequest.config_request cfg) = false ->
         APIRequest.retryStrategy cfg = None ->
         0 <= APIRequest.numMaxRetries cfg ->
         length attempts = S (Z.to_nat (APIRequest.numMaxRetries cfg)) ->
         Forall (fun a => exists e r, APIRequest.classify (snd a) = (Some e, r))
                attempts ->
         exists this' trace e,
           APIRequest.run getRetryTimeout (APIRequest.constructor cfg) true timer
             attempts
           = Js.Ret (this', trace ++ [APIRequest.Callback (Some e) None])
           /\ APIRequest.maxRetriesExceeded e = true
           /\ APIRequest.retries (trace ++ [APIRequest.Callback (Some e) None])
              = Z.to_nat (APIRequest.numMaxRetries cfg))
  /\ (forall getRetryTimeout cfg timer t_exec t_answer o rest e response,
         APIRequest.isRequestRetryable (APIRequest.config_request cfg) = false
         \/ APIRequest.isJWT (APIRequest.config_request cfg) = true ->
         APIRequest.classify o = (Some e, response) ->
         let req := APIRequest.request_lib (APIRequest.config_request cfg) in
         let e' := APIRequest.attach e (APIRequest.cleanSensitiveHeaders req) response in
         (exists this',
             APIRequest.run getRetryTimeout (APIRequest.constructor cfg) true timer
               ((t_exec, t_answer, o) :: rest)
             = Js.Ret (this', [APIRequest.Send true req;
                               APIRequest.Emit (Some e') None;
                               APIRequest.Callback (Some e') None]))
         /\ APIRequest.maxRetriesExceeded e' = APIRequest.maxRetriesExceeded e).
Proof.
  split; [|split; [|split; [|split]]].
  - intros gRT cfg timer attempts.
    destruct (run_bound gRT attempts (APIRequest.constructor cfg) true timer)
      as (this' & trace & Hrun & Hle).
    exists this', trace. split; [exact Hrun|].
    cbn in Hle. rewrite Z.sub_0_r in Hle. exact Hle.
  - intros gRT this err elapsed Hle.
    rewrite (retry_exhausted gRT this err elapsed Hle). split; reflexivity.
  - intros gRT cfg timer t_exec t_answer o rest e response Hmax Hretry Hjwt Hcl req e'.
    rewrite run_first. cbv zeta. unfold APIRequest._handleResponse.
    cbn [APIRequest.this_request APIRequest.with_request APIRequest.with_callback
           APIRequest.constructor APIRequest.config APIRequest.isRetryable].
    rewrite Hcl, Hretry, Hjwt. cbn [andb negb].
    rewrite retry_exhausted by (cbn; lia).
    cbn. eexists. reflexivity.
  - intros gRT cfg timer attempts Hretry Hjwt Hstrat Hmax Hlen Hall.
    apply run_until_exhausted; try assumption; try reflexivity.
    cbn. lia.
  - intros gRT cfg timer t_exec t_answer o rest e response Hno Hcl req e'.
    split; [|reflexivity].
    rewrite run_first. cbv zeta. unfold APIRequest._handleResponse.
    cbn [APIRequest.this_request APIRequest.with_request APIRequest.with_callback
           APIRequest.constructor APIRequest.config APIRequest.isRetryable].
    rewrite Hcl.
    assert (Hcond : APIRequest.isRequestRetryable (APIRequest.config_request cfg)
                    && negb (APIRequest.isJWT (APIRequest.config_request cfg))
                    = false).
    { destruct Hno as [-> | ->]; [reflexivity|apply andb_false_r]. }
    rewrite Hcond. cbn. eexists. reflexivity.
Qed.

(** C3 at a concrete request: a retryable request with [numMaxRetries = 0]
    answered 503. *)
Lemma retry_budget_witness :
  let cfg := {| APIRequest.numMaxRetries := 0; APIRequest.retryIntervalMS := 2000;
                APIRequest.retryStrategy := None;
                APIRequest.config_request :=
                  {| APIRequest.opt_method := "GET";
                     APIRequest.opt_url := "https://api.box.com/2.0/files/1";
                     APIRequest.opt_headers := None; APIRequest.form := None;
                     APIRequest.formData := Js.VUndefined |} |} in
  let r := {| Http.statusCode := 503; Http.response_headers := None;
              Http.body := Http.BodyUndefined |} in
  exists this' e,
    APIRequest.run (fun _ _ => 0) (APIRequest.constructor cfg) true None
      [(0, 1, APIRequest.Responded r)]
    = Js.Ret (this', [APIRequest.Send true
                        (APIRequest.request_lib (APIRequest.config_request cfg));
                      APIRequest.Emit (Some e) None;
                      APIRequest.Callback
                        (Some (APIRequest.set_maxRetriesExceeded e)) None]).
Proof.
  intros cfg r.
  destruct retry_budget as (_ & _ & H & _).
  destruct (H (fun _ _ => 0) cfg None 0 1 (APIRequest.Responded r) []
              (APIRequest.createErrorForResponse r) (Some r)
              eq_refl eq_refl eq_refl eq_refl) as (this' & Hrun).
  exists this'. eexists. exact Hrun.
Defined.

(** ** Token validity *)

(** C5: for a token with both timestamps, [isAccessTokenValid] answers
    true exactly when [acquiredAtMS + accessTokenTTLMS - bufferMS > now],
    an omitted buffer counting as 0; it answers false whenever
    [acquiredAtMS] or [accessTokenTTLMS] is undefined. *)
Theorem isAccessTokenValid_iff :
  (forall access refresh (acquired ttl : Z) (bufferMS : option Z) (now : Z),
      TokenManager.isAccessTokenValid
        {| TokenManager.accessToken := access;
           TokenManager.refreshToken := refresh;
           TokenManager.accessTokenTTLMS := Some (Js.Num ttl);
           TokenManager.acquiredAtMS := Some (Js.Num acquired) |}
        (option_map Js.Num bufferMS) now = true
      <-> acquired + ttl - default 0 bufferMS > now)
  /\ (forall tokenInfo bufferMS now,
         TokenManager.acquiredAtMS tokenInfo = None
         \/ TokenManager.accessTokenTTLMS tokenInfo = None ->
         TokenManager.isAccessTokenValid tokenInfo bufferMS now = false).
Proof.
  split.
  - intros access refresh acquired ttl bufferMS now.
    unfold TokenManager.isAccessTokenValid; cbn.
    destruct bufferMS as [b|]; cbn.
    + destruct (Z.eqb_spec b 0) as [->|Hb]; cbn; rewrite Z.ltb_lt; lia.
    + rewrite Z.ltb_lt; lia.
  - intros tokenInfo bufferMS now [H|H];
      unfold TokenManager.isAccessTokenValid; rewrite H;
      [reflexivity | destruct (TokenManager.acquiredAtMS tokenInfo); reflexivity].
Qed.

(** C5 at a token that lacks its capture time. *)
Lemma isAccessTokenValid_iff_witness :
  TokenManager.isAccessTokenValid
    {| TokenManager.accessToken := Some (Js.JStr "a1");
       TokenManager.refreshToken := None;
       TokenManager.accessTokenTTLMS := Some (Js.Num 3600000);
       TokenManager.acquiredAtMS := None |}
    None 1000 = false.
Proof.
  apply (proj2 isAccessTokenValid_iff). left. reflexivity.
Defined.

(** ** Streaming mode *)

(** C10: after [execute()] without callback the request is streamed, and
    a response raised on the stream is turned into an error only when its
    status is in 400..499; any other status, the server errors 500..599
    and 507 included, is emitted on the event bus as a plain ['response']
    event carrying the response: no error, no timer, no callback. *)
Theorem streaming_converts_only_client_errors :
  forall (cfg : APIRequest.Config) (timer : option Z) (now : Z)
         (response : Http.RawResponse),
    let req := APIRequest.request_lib (APIRequest.config_request cfg) in
    exists this,
      APIRequest.execute (APIRequest.constructor cfg) false timer now
      = (this, timer, [APIRequest.Send false req])
      /\ APIRequest.stream this = Some req
      /\ (400 <= Http.statusCode response < 500 ->
          APIRequest.stream_response this response
          = [APIRequest.Emit
               (Some (APIRequest.createErrorForResponse response)) None])
      /\ (Http.statusCode response < 400 \/ 500 <= Http.statusCode response ->
          APIRequest.stream_response this response
          = [APIRequest.Emit None
               (Some {| Http.request := req; Http.raw := response |})]).
Proof.
  intros cfg timer now response req.
  eexists. split; [reflexivity|]. split; [reflexivity|].
  unfold APIRequest.stream_response, APIRequest.on_stream_response,
    APIRequest.isClientErrorResponse; cbn.
  split; intros H.
  - replace (400 <=? Http.statusCode response) with true by (symmetry; apply Z.leb_le; lia).
    replace (Http.statusCode response <? 500) with true by (symmetry; apply Z.ltb_lt; lia).
    reflexivity.
  - destruct (Z.leb_spec 400 (Http.statusCode response));
      destruct (Z.ltb_spec (Http.statusCode response) 500);
      try reflexivity; lia.
Qed.

(** C10 at a streamed request answered 507. *)
Lemma streaming_converts_only_client_errors_witness :
  let cfg := {| APIRequest.numMaxRetries := 5; APIRequest.retryIntervalMS := 2000;
                APIRequest.retryStrategy := None;
                APIRequest.config_request :=
                  {| APIRequest.opt_method := "GET";
                     APIRequest.opt_url := "https://api.box.com/2.0/files/1/content";
                     APIRequest.opt_headers := None; APIRequest.form := None;
                     APIRequest.formData := Js.VUndefined |} |} in
  let r := {| Http.statusCode := 507; Http.response_headers := None;
              Http.body := Http.BodyUndefined |} in
  exists this,
    APIRequest.execute (APIRequest.constructor cfg) false None 0
    = (this, None, [APIRequest.Send false
                      (APIRequest.request_lib (APIRequest.config_request cfg))])
    /\ APIRequest.stream_response this r
       = [APIRequest.Emit None
            (Some {| Http.request :=
                       APIRequest.request_lib (APIRequest.config_request cfg);
                     Http.raw := r |})].
Proof.
  intros cfg r.
  destruct (streaming_converts_only_client_errors cfg None 0 r)
    as (this & Hexec & _ & _ & Hout).
  exists this. split; [exact Hexec|].
  apply Hout. right. cbn. lia.
Defined.

(** ** Redaction of sensitive headers *)

Section Redaction.
Import Http APIRequest.

Lemma cleanHeader_same (name : string) (h : gmap string string) :
  Js.truthy_str (cleanHeader name h !! name) = true ->
  cleanHeader name h !! name = Some REMOVED_HEADER_MESSAGE.
Proof.
  unfold cleanHeader. destruct (Js.truthy_str (h !! name)) eqn:Ht.
  - intros _. apply lookup_insert_eq.
  - rewrite Ht. discriminate.
Qed.

Lemma cleanHeader_other (name other : string) (h : gmap string string) :
  name <> other -> cleanHeader name h !! other = h !! other.
Proof.
  intros Hne. unfold cleanHeader.
  destruct (Js.truthy_str (h !! name)); [|reflexivity].
  apply lookup_insert_ne. exact Hne.
Qed.

Lemma cleanSensitiveHeaders_redacted (r : RequestObject) :
  redacted (cleanSensitiveHeaders r).
Proof.
  unfold redacted, cleanSensitiveHeaders.
  destruct (headers r) as [h0|] eqn:Hh; cbn; intros h name Heq Hs Ht.
  - injection Heq as <-. destruct Hs as [-> | ->].
    + apply cleanHeader_same. exact Ht.
    + rewrite cleanHeader_other in Ht |- * by discriminate.
      apply cleanHeader_same. exact Ht.
  - congruence.
Qed.

(** In callback mode, with the built-in retry policy, whatever
    [_handleResponse] emits or hands to the callback refers to the
    redacted request object only. *)
Lemma handleResponse_redacts getRetryTimeout (this : APIRequest.t)
      (o : Outcome) (elapsed : Z) this' effs :
  retryStrategy (config this) = None ->
  (forall e r, o = Failed e r -> err_request e = None /\ err_response e = None) ->
  _handleResponse getRetryTimeout this o elapsed = Js.Ret (this', effs) ->
  forall eff req, In eff effs -> In req (surfaced_requests eff) -> redacted req.
Proof.
  intros Hstrat Hbare. unfold _handleResponse.
  destruct (this_request this) as [req0|]; [|discriminate].
  pose proof (cleanSensitiveHeaders_redacted req0) as Hred.
  set (req := cleanSensitiveHeaders req0) in *.
  assert (Hcl : forall e response, classify o = (Some e, response) ->
                forall q, In q (option_list (err_request (attach e req response))
                                ++ option_list (option_map request
                                                  (err_response (attach e req response))))
                          -> q = req).
  { intros e response Hc q Hq. destruct o as [e0 r0|r0]; cbn in Hc.
    - injection Hc as <- <-. destruct (Hbare e0 r0 eq_refl) as [_ Hresp].
      destruct r0; cbn in Hq; rewrite ?Hresp in Hq; cbn in Hq;
        intuition congruence.
    - destruct (isTemporaryError r0); [|discriminate].
      injection Hc as <- <-; cbn in Hq; intuition congruence. }
  destruct (classify o) as [[e|] response] eqn:Hc.
  - specialize (Hcl e response eq_refl).
    destruct (isRetryable _ && negb _).
    + unfold _retry. cbn [config with_numRetries with_request].
      rewrite Hstrat.
      destruct (_ <? _).
      * destruct (retry_after _); intros [= <- <-] eff q Hin Hq;
          cbn in Hin; destruct Hin as [<-|[<-|[]]]; cbn in Hq;
          rewrite ?app_nil_r in Hq; try contradiction;
          rewrite (Hcl q Hq); exact Hred.
      * intros [= <- <-] eff q Hin Hq.
        cbn in Hin; destruct Hin as [<-|[<-|[]]]; cbn [surfaced_requests] in Hq;
          rewrite ?app_nil_r in Hq; rewrite (Hcl q Hq); exact Hred.
    + intros [= <- <-] eff q Hin Hq.
      cbn in Hin; destruct Hin as [<-|[<-|[]]]; cbn [surfaced_requests] in Hq;
        rewrite ?app_nil_r in Hq; rewrite (Hcl q Hq); exact Hred.
  - intros [= <- <-] eff q Hin Hq.
    cbn in Hin. destruct Hin as [<-|[<-|[]]]; destruct response; cbn in Hq;
      try contradiction; destruct Hq as [<-|[]]; exact Hred.
Qed.

End Redaction.

(** C9: in streaming mode the executor does not redact.  A streamed
    request that carries [Authorization: Bearer T0KEN] and is answered 200
    puts on the event bus a response whose request object still holds the
    token, while the same request in callback mode surfaces the marker. *)
Theorem streaming_response_exposes_authorization :
  let cfg := {| APIRequest.numMaxRetries := 5; APIRequest.retryIntervalMS := 2000;
                APIRequest.retryStrategy := None;
                APIRequest.config_request :=
                  {| APIRequest.opt_method := "GET";
                     APIRequest.opt_url := "https://api.box.com/2.0/files/1/content";
                     APIRequest.opt_headers :=
                       Some {[ "Authorization" := "Bearer T0KEN" ]};
                     APIRequest.form := None;
                     APIRequest.formData := Js.VUndefined |} |} in
  let r := {| Http.statusCode := 200; Http.response_headers := Some ∅;
              Http.body := Http.BodyBuffer [] |} in
  (exists this resp h,
      APIRequest.execute (APIRequest.constructor cfg) false None 0
      = (this, None, [APIRequest.Send false (Http.request resp)])
      /\ APIRequest.stream_response this r = [APIRequest.Emit None (Some resp)]
      /\ Http.headers (Http.request resp) = Some h
      /\ h !! "Authorization" = Some "Bearer T0KEN"
      /\ ~ APIRequest.redacted (Http.request resp))
  /\ (exists this resp h,
         APIRequest.run (fun _ _ => 0) (APIRequest.constructor cfg) true None
           [(0, 1, APIRequest.Responded r)]
         = Js.Ret (this, [APIRequest.Send true
                            (APIRequest.request_lib (APIRequest.config_request cfg));
                          APIRequest.Emit None (Some resp);
                          APIRequest.Callback None (Some resp)])
         /\ Http.headers (Http.request resp) = Some h
         /\ h !! "Authorization" = Some APIRequest.REMOVED_HEADER_MESSAGE).
Proof.
  intros cfg r.
  set (req := APIRequest.request_lib (APIRequest.config_request cfg)).
  split.
  - exists (APIRequest.with_request
              (APIRequest.with_callback (APIRequest.constructor cfg) false) req true),
      {| Http.request := req; Http.raw := r |},
      {[ "Authorization" := "Bearer T0KEN" ]}.
    split; [reflexivity|]. split; [reflexivity|].
    split; [reflexivity|]. split; [reflexivity|].
    intros Hred.
    specialize (Hred _ "Authorization" eq_refl (or_introl eq_refl) eq_refl).
    discriminate Hred.
  - exists (APIRequest.with_request
              (APIRequest.with_callback (APIRequest.constructor cfg) true)
              (APIRequest.cleanSensitiveHeaders req) false),
      {| Http.request := APIRequest.cleanSensitiveHeaders req; Http.raw := r |},
      {[ "Authorization" := APIRequest.REMOVED_HEADER_MESSAGE ]}.
    split; [reflexivity|]. split; [|reflexivity].
    vm_compute. reflexivity.
Qed.

(** ** The JWT retry loop of the token manager *)

Section JWTRetry.
Import Http TokenManager.

(** When [isJWTAuthErrorRetryable] returns, it returns the condition of
    the specification. *)
Lemma isJWTAuthErrorRetryable_returns (err : GrantError) (b : bool) :
  isJWTAuthErrorRetryable err = Js.Ret b ->
  b = true <->
  (authExpired err = true
   /\ (exists r h, err_response err = Some r /\ response_headers r = Some h
                   /\ Js.truthy_str (h !! "date") = true
                   /\ (description_mentions "exp" (body r) = Js.Ret true
                       \/ description_mentions "jti" (body r) = Js.Ret true)))
  \/ status_retryable (err_statusCode err) = true.
Proof.
  unfold isJWTAuthErrorRetryable.
  destruct (authExpired err) eqn:Hauth.
  - destruct (err_response err) as [r|] eqn:Hr; [|discriminate].
    destruct (response_headers r) as [h|] eqn:Hh; [|discriminate].
    destruct (Js.truthy_str (h !! "date")) eqn:Hd.
    + destruct (description_mentions "exp" (body r)) as [[|]|] eqn:Hexp;
        cbn [Js.bind]; [| |discriminate].
      * intros [= <-]. split; [intros _|reflexivity].
        left. split; [reflexivity|]. exists r, h. auto.
      * destruct (description_mentions "jti" (body r)) as [[|]|] eqn:Hjti;
          cbn [Js.bind]; [| |discriminate].
        -- intros [= <-]. split; [intros _|reflexivity].
           left. split; [reflexivity|]. exists r, h. auto.
        -- intros [= <-]. split; [intros ->; right; reflexivity|].
           intros [(_ & r' & h' & Hr' & _ & _ & [He|Hj])|Hs]; [| |exact Hs].
           ++ injection Hr' as <-. congruence.
           ++ injection Hr' as <-. congruence.
    + intros [= <-]. split; [intros ->; right; reflexivity|].
      intros [(_ & r' & h' & Hr' & Hh' & Hd' & _)|Hs]; [|exact Hs].
      injection Hr' as <-. rewrite Hh in Hh'. injection Hh' as <-. congruence.
  - intros [= <-]. split; [intros ->; right; reflexivity|].
    intros [(H & _)|Hs]; [discriminate|exact Hs].
Qed.

End JWTRetry.

(** C6: [isJWTAuthErrorRetryable] does not return on every JWT-grant
    error.  The auth error [getTokens] builds from an [invalid_grant]
    answer that has a [date] header and no [error_description] makes it
    throw a [TypeError], whatever the status; with status 507 the
    condition of the specification holds and asks for [true]. *)
Theorem isJWTAuthErrorRetryable_throws_without_description :
  forall now status : Z,
    let r := {| Http.statusCode := status;
                Http.response_headers :=
                  Some {[ "date" := "Sun, 01 Nov 2026 00:00:00 GMT" ]};
                Http.body :=
                  Http.BodyJson (Js.JObj [("error", Js.JStr "invalid_grant")]) |} in
    let err := {| TokenManager.source := TokenManager.AuthError None;
                  TokenManager.authExpired := true;
                  TokenManager.err_statusCode := Some status;
                  TokenManager.err_response := Some r;
                  TokenManager.maxRetriesExceeded := false |} in
    TokenManager.getTokens_then "urn:ietf:params:oauth:grant-type:jwt-bearer" r now
    = TokenManager.Rejected err
    /\ TokenManager.isJWTAuthErrorRetryable err = Js.Throw Js.TypeError
    /\ TokenManager.status_retryable (Some 507) = true.
Proof.
  intros now status r err. repeat split; reflexivity.
Qed.

(** ** The [retry-after] header *)

Section RetryAfter.
Import Http.

Lemma ToNumber_string_of_uint (d : Decimal.uint) :
  Js.ToNumber (NilEmpty.string_of_uint d) = Js.Num (Z.of_N (N.of_uint d)).
Proof.
  destruct d; unfold Js.ToNumber; cbn [NilEmpty.string_of_uint];
    try reflexivity;
    match goal with
    | |- context [Js.Num (Z.of_N (N.of_uint ?u))] =>
        match goal with
        | |- context [NilEmpty.uint_of_string ?s] =>
            change s with (NilEmpty.string_of_uint u);
            rewrite (NilEmpty.usu u); reflexivity
        end
    end.
Qed.

(** A [delay-seconds] value is read back as the number it renders. *)
Lemma ToNumber_decimal (n : N) : Js.ToNumber (Js.decimal n) = Js.Num (Z.of_N n).
Proof.
  unfold Js.decimal. rewrite ToNumber_string_of_uint.
  rewrite DecimalN.Unsigned.of_to. reflexivity.
Qed.

(** The request executor waits [S * 1000] ms for [retry-after: S]. *)
Lemma executor_retry_after getRetryTimeout (this : APIRequest.t)
      (err : APIRequest.Error) (elapsed : Z) (S : N) :
  APIRequest.retryStrategy (APIRequest.config this) = None ->
  APIRequest.current_retries this
  < APIRequest.numMaxRetries (APIRequest.config this) ->
  APIRequest.retry_after err = Some (Js.decimal S) ->
  snd (APIRequest._retry getRetryTimeout this err elapsed)
  = [APIRequest.SetTimeout (Js.Num (Z.of_N S * 1000))].
Proof.
  intros Hstrat Hlt Hhdr. unfold APIRequest._retry.
  rewrite normalise_retries.
  cbn [APIRequest.config APIRequest.with_numRetries].
  destruct (Z.ltb_spec (APIRequest.current_retries this)
              (APIRequest.numMaxRetries (APIRequest.config this))); [|lia].
  rewrite Hstrat, Hhdr, ToNumber_decimal. reflexivity.
Qed.

(** The token manager hands the header value itself to
    [Promise.delay], which counts milliseconds. *)
Lemma jwt_retry_after getRetryTimeout Date_parse jwt_sign
      (cfg : TokenManager.Config) (error : TokenManager.GrantError)
      (numRetries elapsed now : Z) (uuid : string) (S : N) :
  TokenManager.retryStrategy cfg = None ->
  numRetries < TokenManager.numMaxRetries cfg ->
  TokenManager.isJWTAuthErrorRetryable error = Js.Ret true ->
  TokenManager.retry_after error = Some (Js.decimal S) ->
  (forall exp, exists assertion, jwt_sign exp uuid = Js.Ret assertion) ->
  exists exp assertion,
    TokenManager.retryJWTGrant getRetryTimeout Date_parse jwt_sign
      cfg error numRetries elapsed now uuid
    = TokenManager.Delay (Js.Num (Z.of_N S)) exp uuid assertion (numRetries + 1).
Proof.
  intros Hstrat Hlt Hretry Hhdr Hsign. unfold TokenManager.retryJWTGrant.
  destruct (Z.ltb_spec numRetries (TokenManager.numMaxRetries cfg)); [|lia].
  rewrite Hretry. unfold TokenManager.choose_timeout. rewrite Hstrat, Hhdr.
  unfold TokenManager.retry_after in Hhdr.
  destruct (TokenManager.err_response error) as [r|]; [|discriminate].
  cbn in Hhdr. destruct (response_headers r) as [h|]; [|discriminate].
  match goal with
  | |- context [jwt_sign ?e uuid] => destruct (Hsign e) as [a Ha]; rewrite Ha
  end.
  eexists _, a. cbn [TokenManager.delay_ms]. rewrite ToNumber_decimal. reflexivity.
Qed.

End RetryAfter.

(** C2: the two retry loops disagree on [retry-after].  For a 429 answer
    with [retry-after: 5], no retry strategy and retries left, the request
    executor arms its timer with 5000 ms, while the JWT retry loop of the
    token manager delays the next attempt by [Promise.delay(5)], that is
    5 ms. *)
Theorem jwt_retry_after_is_not_scaled :
  forall getRetryTimeout Date_parse (elapsed now : Z) (uuid : string),
    let r := {| Http.statusCode := 429;
                Http.response_headers := Some {[ "retry-after" := "5" ]};
                Http.body := Http.BodyUndefined |} in
    let jwt_sign := fun (_ : Js.number) (_ : string) => Js.Ret "assertion" in
    (let cfg := {| TokenManager.numMaxRetries := 5;
                   TokenManager.retryIntervalMS := 2000;
                   TokenManager.retryStrategy := None;
                   TokenManager.expirationTime := 30 |} in
     let error := {| TokenManager.source := TokenManager.FromRequest;
                     TokenManager.authExpired := false;
                     TokenManager.err_statusCode := Some 429;
                     TokenManager.err_response := Some r;
                     TokenManager.maxRetriesExceeded := false |} in
     exists exp,
       TokenManager.retryJWTGrant getRetryTimeout Date_parse jwt_sign
         cfg error 0 elapsed now uuid
       = TokenManager.Delay (Js.Num 5) exp uuid "assertion" 1)
    /\ (let cfg := {| APIRequest.numMaxRetries := 5;
                      APIRequest.retryIntervalMS := 2000;
                      APIRequest.retryStrategy := None;
                      APIRequest.config_request :=
                        {| APIRequest.opt_method := "GET";
                           APIRequest.opt_url := "https://api.box.com/2.0/files/1";
                           APIRequest.opt_headers := None;
                           APIRequest.form := None;
                           APIRequest.formData := Js.VUndefined |} |} in
        exists this e,
          APIRequest.run getRetryTimeout (APIRequest.constructor cfg) true None
            [(now, now + elapsed, APIRequest.Responded r)]
          = Js.Ret (this, [APIRequest.Send true
                             (APIRequest.request_lib (APIRequest.config_request cfg));
                           APIRequest.Emit (Some e) None;
                           APIRequest.SetTimeout (Js.Num 5000)])).
Proof.
  intros gRT Date_parse elapsed now uuid r jwt_sign. split.
  - intros cfg error. eexists. reflexivity.
  - intros cfg. rewrite run_first. cbv zeta. eexists _, _. reflexivity.
Qed.

(** ** Parsing a grant response *)

Section ParseInt.

Ltac digit_step :=
  match goal with
  | |- context [Js.digit_of ?c] =>
      let v := eval vm_compute in (Js.digit_of c) in
      change (Js.digit_of c) with v; cbv iota beta
  end.

Lemma parse_digits_acc (d : Decimal.uint) :
  forall acc : positive,
    Js.parse_digits (NilEmpty.string_of_uint d) (Some (Z.pos acc))
    = Some (Z.pos (Pos.of_uint_acc d acc)).
Proof.
  induction d; intros acc;
    cbn [NilEmpty.string_of_uint Js.parse_digits Pos.of_uint_acc];
    try reflexivity;
    digit_step; rewrite <- IHd; f_equal; f_equal; lia.
Qed.

Lemma parse_digits_zero (d : Decimal.uint) :
  Js.parse_digits (NilEmpty.string_of_uint d) (Some 0)
  = Some (Z.of_N (Pos.of_uint d)).
Proof.
  induction d;
    cbn [NilEmpty.string_of_uint Js.parse_digits Pos.of_uint];
    try reflexivity;
    digit_step; cbn [Z.mul Z.add Z.of_N];
    first [exact IHd | apply parse_digits_acc].
Qed.

Lemma parse_digits_start (d : Decimal.uint) :
  d <> Decimal.Nil ->
  Js.parse_digits (NilEmpty.string_of_uint d) None
  = Some (Z.of_N (Pos.of_uint d)).
Proof.
  intros Hd. rewrite <- parse_digits_zero.
  destruct d; [congruence| ..]; reflexivity.
Qed.

Lemma to_uint_not_nil (p : positive) : Pos.to_uint p <> Decimal.Nil.
Proof.
  intros H. pose proof (DecimalPos.Unsigned.of_to p) as Hof.
  rewrite H in Hof. discriminate.
Qed.

Lemma skip_spaces_digits (d : Decimal.uint) :
  Js.skip_spaces (NilEmpty.string_of_uint d) = NilEmpty.string_of_uint d.
Proof. destruct d; reflexivity. Qed.

Lemma parseInt_string_uint (d : Decimal.uint) :
  d <> Decimal.Nil ->
  Js.parseInt_string (NilEmpty.string_of_uint d) = Js.Num (Z.of_N (Pos.of_uint d)).
Proof.
  intros Hd. unfold Js.parseInt_string. rewrite skip_spaces_digits.
  destruct d; [congruence| ..];
    match goal with
    | |- _ = Js.Num (Z.of_N (Pos.of_uint ?u)) =>
        transitivity (Js.of_option
                        (Js.parse_digits (NilEmpty.string_of_uint u) None));
        [reflexivity
        |rewrite (parse_digits_start u) by discriminate; reflexivity]
    end.
Qed.

Lemma NilZero_string_of_uint (d : Decimal.uint) :
  d <> Decimal.Nil -> NilZero.string_of_uint d = NilEmpty.string_of_uint d.
Proof. destruct d; [congruence| ..]; reflexivity. Qed.

(** [parseInt(n, 10)] of an integer below [10^21] in magnitude is that
    integer. *)
Lemma parseInt_Number_toString (z : Z) :
  Z.abs z < 10 ^ 21 ->
  Js.parseInt_string (Js.Number_toString (Js.Num z)) = Js.Num z.
Proof.
  intros Hz. unfold Js.Number_toString.
  destruct (Z.leb_spec (10 ^ 21) (Z.abs z)) as [Hge|_]; [lia|].
  destruct z as [|p|p]; cbn [Z.to_int NilZero.string_of_int].
  - reflexivity.
  - rewrite NilZero_string_of_uint by apply to_uint_not_nil.
    rewrite parseInt_string_uint by apply to_uint_not_nil.
    rewrite DecimalPos.Unsigned.of_to. reflexivity.
  - rewrite NilZero_string_of_uint by apply to_uint_not_nil.
    unfold Js.parseInt_string.
    change (Js.skip_spaces (String "-" ?s)) with (String "-" s).
    cbv iota beta.
    rewrite parse_digits_start by apply to_uint_not_nil.
    rewrite DecimalPos.Unsigned.of_to. reflexivity.
Qed.

Lemma parse_digits_some (s : string) :
  forall a : Z, exists n, Js.parse_digits s (Some a) = Some n.
Proof.
  induction s as [|c rest IH]; intros a; cbn [Js.parse_digits].
  - exists a. reflexivity.
  - destruct (Js.digit_of c) as [d|]; [apply IH|exists a; reflexivity].
Qed.

(** The exponent form starts with a digit, which [parseInt] reads. *)
Lemma parse_digits_exponent_form (p : positive) :
  exists n,
    Js.parse_digits (Js.exponent_form (Js.decimal (N.pos p))) None = Some n
    /\ Js.skip_spaces (Js.exponent_form (Js.decimal (N.pos p)))
       = Js.exponent_form (Js.decimal (N.pos p))
    /\ forall rest, Js.exponent_form (Js.decimal (N.pos p)) <> String "-" rest
                    /\ Js.exponent_form (Js.decimal (N.pos p)) <> String "+" rest.
Proof.
  unfold Js.decimal. cbn [N.to_uint].
  pose proof (to_uint_not_nil p) as Hnil.
  destruct (Pos.to_uint p) as [|u|u|u|u|u|u|u|u|u|u]; [congruence|..];
    cbn [NilEmpty.string_of_uint Js.exponent_form Js.parse_digits];
    digit_step;
    match goal with
    | |- context [Js.parse_digits ?s (Some ?a)] =>
        destruct (parse_digits_some s a) as [n Hn]; exists n
    end;
    (split; [exact Hn|]); (split; [reflexivity|]);
    intros rest; split; discriminate.
Qed.

(** [parseInt(n, 10)] of an integer is a number, never [NaN]. *)
Lemma parseInt_Number_toString_number (z : Z) :
  exists n, Js.parseInt_string (Js.Number_toString (Js.Num z)) = Js.Num n.
Proof.
  destruct (Z.lt_ge_cases (Z.abs z) (10 ^ 21)) as [Hlt|Hge].
  - exists z. apply parseInt_Number_toString. exact Hlt.
  - unfold Js.Number_toString.
    destruct (Z.leb_spec (10 ^ 21) (Z.abs z)) as [_|Hlt]; [|lia].
    destruct z as [|p|p].
    + cbn in Hge. lia.
    + change (Z.pos p <? 0) with false. cbv iota.
      change (Z.to_N (Z.abs (Z.pos p))) with (N.pos p).
      destruct (parse_digits_exponent_form p) as (n & Hn & Hskip & Hsign).
      exists n. unfold Js.parseInt_string.
      change ("" +:+ ?s) with s. rewrite Hskip.
      destruct (Js.exponent_form (Js.decimal (N.pos p))) as [|c rest] eqn:He.
      * cbn in Hn. discriminate Hn.
      * destruct (Ascii.eqb_spec c "-") as [->|Hm];
          [exfalso; exact (proj1 (Hsign rest) eq_refl)|].
        destruct (Ascii.eqb_spec c "+") as [->|Hp];
          [exfalso; exact (proj2 (Hsign rest) eq_refl)|].
        transitivity (Js.of_option (Js.parse_digits (String c rest) None));
          [|rewrite Hn; reflexivity].
        destruct c as [[|] [|] [|] [|] [|] [|] [|] [|]];
          try reflexivity; congruence.
    + change (Z.neg p <? 0) with true. cbv iota.
      change (Z.to_N (Z.abs (Z.neg p))) with (N.pos p).
      destruct (parse_digits_exponent_form p) as (n & Hn & _ & _).
      exists (- n). unfold Js.parseInt_string.
      change (Js.skip_spaces ("-" +:+ ?s)) with (String "-" s).
      cbv iota beta. rewrite Hn. reflexivity.
Qed.

End ParseInt.

Section GrantResponse.
Import Http TokenManager.

Lemma isValidCodeOrToken_nonempty (v : option Js.json) :
  isValidCodeOrToken v = nonempty_string v.
Proof.
  destruct v as [[| | |s| |]|]; try reflexivity.
  destruct s; reflexivity.
Qed.

(** On a JSON object [isValidTokenResponse] returns, and decides
    [token_fields_ok]. *)
Lemma isValidTokenResponse_object (grantType : string)
      (ps : list (string * Js.json)) :
  isValidTokenResponse grantType (BodyJson (Js.JObj ps))
  = Js.Ret (token_fields_ok grantType ps).
Proof.
  unfold isValidTokenResponse, token_fields_ok, requires_refresh_token.
  cbn [body_prop Js.bind]. rewrite !isValidCodeOrToken_nonempty.
  destruct (nonempty_string (Js.jget "access_token" ps)); cbn; [|reflexivity].
  destruct (is_number (Js.jget "expires_in" ps)); cbn; [|reflexivity].
  destruct (String.eqb grantType "authorization_code"
            || String.eqb grantType "refresh_token"); cbn; [|reflexivity].
  destruct (nonempty_string (Js.jget "refresh_token" ps)); reflexivity.
Qed.

End GrantResponse.

(** C4, as the specification states it, fails: a 200 answer to a
    client-credentials grant whose body is [{"access_token": "a1"}] has
    the fields the specification lists, is not binary and is not an
    [invalid_grant], and yet [getTokens] rejects it as malformed, because
    the code also requires a numeric [expires_in]. *)
Lemma getTokens_requires_expires_in :
  let ps := [("access_token", Js.JStr "a1")] in
  let response := {| Http.statusCode := 200; Http.response_headers := Some ∅;
                     Http.body := Http.BodyJson (Js.JObj ps) |} in
  TokenManager.spec_required_fields "client_credentials" ps = true
  /\ TokenManager.is_invalid_grant (Http.body response) = false
  /\ TokenManager.is_buffer (Http.body response) = false
  /\ TokenManager.getTokens "client_credentials" (inr response) 0
     = TokenManager.Rejected
         (TokenManager.buildResponseError response
            "Token format from response invalid")
  /\ ~ (exists tokenInfo,
          TokenManager.getTokens "client_credentials" (inr response) 0
          = TokenManager.Resolved tokenInfo).
Proof.
  intros ps response. repeat split; try reflexivity.
  intros [tokenInfo H]. discriminate H.
Qed.

(** C4, amended: when [getTokens] receives an HTTP 200 answer whose body
    is a JSON object that is not an [invalid_grant] error, then, if the
    body holds a non-empty string [access_token], a number [expires_in]
    (an integer of magnitude below 10^21) and, for the
    [authorization_code] and [refresh_token] grants, a non-empty string
    [refresh_token], the promise resolves to the TokenInfo whose
    [accessToken] and [refreshToken] are the body's, whose
    [accessTokenTTLMS] is [expires_in * 1000] and whose [acquiredAtMS] is
    the clock read by the handler; and if the body lacks any of these the
    promise rejects with the malformed-token-response error and no
    TokenInfo is made. *)
Theorem getTokens_parses_grant_response :
  forall (grant_type : string) (response : Http.RawResponse) (now : Z)
         (ps : list (string * Js.json)),
    Http.statusCode response = 200 ->
    Http.body response = Http.BodyJson (Js.JObj ps) ->
    TokenManager.is_invalid_grant (Http.body response) = false ->
    (forall (access_token : string) (expires_in : Z),
        TokenManager.token_fields_ok grant_type ps = true ->
        Js.jget "access_token" ps = Some (Js.JStr access_token) ->
        Js.jget "expires_in" ps = Some (Js.JNum expires_in) ->
        Z.abs expires_in < 10 ^ 21 ->
        TokenManager.getTokens grant_type (inr response) now
        = TokenManager.Resolved
            {| TokenManager.accessToken := Some (Js.JStr access_token);
               TokenManager.refreshToken := Js.jget "refresh_token" ps;
               TokenManager.accessTokenTTLMS := Some (Js.Num (expires_in * 1000));
               TokenManager.acquiredAtMS := Some (Js.Num now) |})
    /\ (TokenManager.token_fields_ok grant_type ps = false ->
        TokenManager.getTokens grant_type (inr response) now
        = TokenManager.Rejected
            (TokenManager.buildResponseError response
               "Token format from response invalid")).
Proof.
  intros grant_type response now ps Hstatus Hbody Hgrant.
  unfold TokenManager.getTokens, TokenManager.getTokens_then.
  rewrite Hgrant, Hstatus, Hbody. cbn [TokenManager.is_buffer TokenManager.OK].
  change (negb (200 =? 200) || false) with false. cbv iota.
  rewrite isValidTokenResponse_object.
  split.
  - intros access_token expires_in Hok Ha He Hlt. rewrite Hok.
    unfold TokenManager.getTokensFromGrantResponse.
    cbn [TokenManager.body_prop Js.bind]. rewrite Ha, He.
    unfold Js.parseInt. cbn [Js.json_toString].
    rewrite parseInt_Number_toString by exact Hlt. reflexivity.
  - intros Hbad. rewrite Hbad. reflexivity.
Qed.

(** C4 at the refresh-token scenario of the specification:
    [{access_token: "a1", refresh_token: "r1", expires_in: 3600}]. *)
Lemma getTokens_parses_grant_response_witness :
  let ps := [("access_token", Js.JStr "a1"); ("refresh_token", Js.JStr "r1");
             ("expires_in", Js.JNum 3600)] in
  let response := {| Http.statusCode := 200; Http.response_headers := Some ∅;
                     Http.body := Http.BodyJson (Js.JObj ps) |} in
  TokenManager.getTokens "refresh_token" (inr response) 1700000000000
  = TokenManager.Resolved
      {| TokenManager.accessToken := Some (Js.JStr "a1");
         TokenManager.refreshToken := Some (Js.JStr "r1");
         TokenManager.accessTokenTTLMS := Some (Js.Num 3600000);
         TokenManager.acquiredAtMS := Some (Js.Num 1700000000000) |}.
Proof.
  intros ps response.
  apply (proj1 (getTokens_parses_grant_response
                  "refresh_token" response 1700000000000 ps
                  eq_refl eq_refl eq_refl) "a1" 3600);
    reflexivity.
Defined.

(** ** Single-flight refresh *)

Section SingleFlight.
Import Session.

Lemma freshness_token (cfg : Session.Config) (s s' : Session.t) (now : Z) :
  _tokenInfo s' = _tokenInfo s -> freshness cfg s' now = freshness cfg s now.
Proof. unfold freshness. intros ->. reflexivity. Qed.

(** While a refresh is in flight every caller without a valid token is
    handed that refresh, and no grant call is issued. *)
Lemma calls_in_flight (cfg : Session.Config) (nows : list Z) :
  forall (s : Session.t) (promise : nat),
    _refreshPromise s = Some promise ->
    Forall (fun now => needs_refresh cfg s now = true) nows ->
    calls cfg s nows = (s, map (fun _ => Pending promise) nows).
Proof.
  induction nows as [|now rest IH]; intros s promise Hp Hall; [reflexivity|].
  inversion Hall as [|? ? Hnow Hrest]; subst.
  cbn [calls map]. unfold getAccessToken, needs_refresh in *.
  destruct (freshness cfg s now); try discriminate;
    unfold refresh; rewrite Hp; rewrite (IH s promise Hp Hrest); reflexivity.
Qed.

End SingleFlight.

(** C7: in a session with refresh capability, a burst of concurrent
    [getAccessToken] calls made while no valid token is cached and no
    refresh is under way issues exactly one grant call; every caller is
    handed the same refresh promise and receives what that promise
    settles to when the grant call completes; completion, with a token
    or with an error, clears the in-flight marker, and the next call
    without a valid token starts a new grant call. *)
Theorem single_flight_refresh :
  forall (cfg : Session.Config) (s : Session.t) (now : Z) (later : list Z)
         (result : TokenManager.GrantError + TokenManager.TokenInfo),
    Session._refreshPromise s = None ->
    Forall (fun t => Session.needs_refresh cfg s t = true) (now :: later) ->
    let promise := Session.grants s in
    let '(s1, replies) := Session.calls cfg s (now :: later) in
    replies = map (fun _ => Session.Pending promise) (now :: later)
    /\ Forall (fun reply =>
                Session.received promise result reply
                = Some (Session.delivered result)) replies
    /\ Session.grants s1 = S (Session.grants s)
    /\ Session._refreshPromise s1 = Some promise
    /\ Session._refreshPromise (Session.settle s1 result) = None
    /\ Session.grants (Session.settle s1 result) = S (Session.grants s)
    /\ (forall t,
          Session.needs_refresh cfg (Session.settle s1 result) t = true ->
          exists s2,
            Session.getAccessToken cfg (Session.settle s1 result) t
            = (s2, Session.Pending (S promise))
            /\ Session.grants s2 = S (S (Session.grants s))).
Proof.
  intros cfg s now later result Hidle Hall promise.
  inversion Hall as [|? ? Hnow Hlater]; subst.
  cbn [Session.calls]. unfold Session.getAccessToken at 1.
  unfold Session.needs_refresh in Hnow.
  set (s0 := {| Session._tokenInfo := Session._tokenInfo s;
                Session._refreshPromise := Some (Session.grants s);
                Session.grants := S (Session.grants s) |}).
  assert (Hstep : (let '(s', p) := Session.refresh s in (s', Session.Pending p))
                  = (s0, Session.Pending promise))
    by (unfold Session.refresh; rewrite Hidle; reflexivity).
  assert (Hlater' : Forall (fun t => Session.needs_refresh cfg s0 t = true) later).
  { eapply List.Forall_impl; [|exact Hlater]. intros t Ht. cbn beta in *.
    unfold Session.needs_refresh in *.
    rewrite (freshness_token cfg s s0 t eq_refl). exact Ht. }
  destruct (Session.freshness cfg s now); try discriminate;
    rewrite Hstep, (calls_in_flight cfg later s0 promise eq_refl Hlater');
    (split; [reflexivity|]);
    (split; [apply List.Forall_forall; intros reply Hin;
             change (In reply (map (fun _ => Session.Pending promise) (now :: later)))
               in Hin;
             apply in_map_iff in Hin; destruct Hin as (? & <- & _);
             cbn [Session.received]; rewrite Nat.eqb_refl; reflexivity|]);
    (split; [reflexivity|]); (split; [reflexivity|]);
    (split; [reflexivity|]); (split; [reflexivity|]);
    intros t Ht; unfold Session.getAccessToken, Session.needs_refresh in *;
    destruct (Session.freshness cfg (Session.settle s0 result) t);
    try discriminate; eexists; split; reflexivity.
Qed.

(** C7 at three concurrent callers of a session that holds no token. *)
Lemma single_flight_refresh_witness :
  let cfg := {| Session.expiredBufferMS := 180000; Session.staleBufferMS := 0 |} in
  let s := {| Session._tokenInfo := None; Session._refreshPromise := None;
              Session.grants := 0 |} in
  snd (Session.calls cfg s [10; 11; 12])
  = [Session.Pending 0%nat; Session.Pending 0%nat; Session.Pending 0%nat]
  /\ Session.grants (fst (Session.calls cfg s [10; 11; 12])) = 1%nat.
Proof.
  intros cfg s.
  pose proof (single_flight_refresh cfg s 10 [11; 12]
                (inl (TokenManager.thrown Js.TypeError)) eq_refl) as H.
  destruct (Session.calls cfg s [10; 11; 12]) as [s1 replies].
  destruct H as (Hr & _ & Hg & _).
  - repeat constructor.
  - split; [exact Hr | exact Hg].
Defined.

(** ** The configuration object *)

Section ConfigFacts.
Import Js MergeOptions Config.

(** Induction on a value and, for an object, on its properties. *)
Lemma value_nested_ind (P : value -> Prop) :
  P VUndefined -> P VNull -> (forall b, P (VBool b)) -> (forall z, P (VNum z)) ->
  (forall s, P (VStr s)) -> (forall name, P (VFun name)) ->
  (forall bytes, P (VBuffer bytes)) -> (forall id, P (VReadable id)) ->
  (forall frozen ps, Forall (fun kv => P (snd kv)) ps -> P (VObj frozen ps)) ->
  forall v, P v.
Proof.
  intros Hu Hn Hb Hz Hs Hf Hbuf Hr Hobj.
  fix IH 1.
  intros [| | b | z | s | name | bytes | id | frozen ps];
    [exact Hu | exact Hn | apply Hb | apply Hz | apply Hs | apply Hf
    | apply Hbuf | apply Hr | ].
  apply Hobj. induction ps as [|[k x] rest IHps]; constructor.
  - apply IH.
  - exact IHps.
Qed.

Lemma fresh_obj (frozen : bool) (ps : list (string * value)) :
  fresh (VObj frozen ps) = true <-> frozen = false /\ all_fresh ps.
Proof.
  cbn [fresh]. rewrite andb_true_iff, negb_true_iff.
  apply and_iff_compat_l. unfold all_fresh.
  induction ps as [|[k x] rest IH]; cbn.
  - split; [constructor | reflexivity].
  - rewrite andb_true_iff, IH. split.
    + intros [Hx Hrest]. constructor; assumption.
    + intros H. inversion H; subst. auto.
Qed.

Lemma deep_frozen_obj (frozen : bool) (ps : list (string * value)) :
  deep_frozen (VObj frozen ps) = true <-> frozen = true /\ all_frozen ps.
Proof.
  cbn [deep_frozen]. rewrite andb_true_iff.
  apply and_iff_compat_l. unfold all_frozen.
  induction ps as [|[k x] rest IH]; cbn.
  - split; [constructor | reflexivity].
  - rewrite andb_true_iff, IH. split.
    + intros [Hx Hrest]. constructor; assumption.
    + intros H. inversion H; subst. auto.
Qed.

Lemma all_fresh_get (k : string) (ps : list (string * value)) (v : value) :
  all_fresh ps -> get k ps = Some v -> fresh v = true.
Proof.
  induction 1 as [|[k' x] rest Hx Hrest IH]; cbn; [discriminate|].
  destruct (String.eqb k k'); [intros [= <-]; exact Hx | exact IH].
Qed.

Lemma all_fresh_prop (k : string) (ps : list (string * value)) :
  all_fresh ps -> fresh (prop k ps) = true.
Proof.
  intros H. unfold prop. destruct (get k ps) eqn:Hg; [|reflexivity].
  eapply all_fresh_get; eassumption.
Qed.

Lemma all_fresh_set (k : string) (v : value) (ps : list (string * value)) :
  fresh v = true -> all_fresh ps -> all_fresh (set k v ps).
Proof.
  intros Hv. induction 1 as [|[k' x] rest Hx Hrest IH]; cbn.
  - repeat constructor. exact Hv.
  - destruct (String.eqb k k'); constructor; assumption.
Qed.

Lemma all_fresh_delete (k : string) (ps : list (string * value)) :
  all_fresh ps -> all_fresh (delete k ps).
Proof.
  induction 1 as [|[k' x] rest Hx Hrest IH]; cbn; [constructor|].
  destruct (String.eqb k k'); [exact IH | constructor; assumption].
Qed.

Lemma all_fresh_assign (source target : list (string * value)) :
  all_fresh source -> all_fresh target -> all_fresh (assign_props target source).
Proof.
  unfold assign_props. intros Hs. revert target.
  induction Hs as [|[k x] rest Hx Hrest IH]; intros target Ht; cbn; [exact Ht|].
  apply IH. apply all_fresh_set; assumption.
Qed.

(** A clone holds no frozen object. *)
Lemma fresh_clone (v : value) : fresh (clone v) = true.
Proof.
  induction v as [| | | | | | | |frozen ps IH] using value_nested_ind;
    try reflexivity.
  cbn [clone]. apply fresh_obj. split; [reflexivity|].
  induction IH as [|[k x] rest Hx Hrest IHrest]; constructor; assumption.
Qed.

(** Merging into a fresh value gives a fresh value. *)
Lemma fresh_merge (source : value) :
  forall merged, fresh merged = true -> fresh (merge merged source) = true.
Proof.
  induction source as [| | | | | | | |frozen sps IH] using value_nested_ind;
    intros merged Hm; try reflexivity.
  destruct merged as [| | | | | | | |mfrozen mps];
    try (exact (fresh_clone (VObj frozen sps))).
  cbn [merge]. apply fresh_obj. split; [reflexivity|].
  apply fresh_obj in Hm. destruct Hm as [_ Hmps].
  revert mps Hmps.
  induction IH as [|[key sv] rest Hsv Hrest IHrest]; intros acc Hacc; [exact Hacc|].
  apply IHrest. apply all_fresh_set; [|exact Hacc].
  destruct (get key acc) as [mv|] eqn:Hg.
  - apply Hsv. eapply all_fresh_get; eassumption.
  - apply fresh_clone.
Qed.

Lemma fresh_merge_all (options : list value) :
  forall merged r,
    fresh merged = true -> merge_all merged options = Ret r -> fresh r = true.
Proof.
  induction options as [|option rest IH]; intros merged r Hm; cbn.
  - intros [= <-]. exact Hm.
  - destruct option; try discriminate.
    + apply IH. exact Hm.
    + apply IH. apply fresh_merge. exact Hm.
Qed.

Lemma fresh_mergeOptions (options : list value) (r : value) :
  mergeOptions options = Ret r -> fresh r = true.
Proof. apply fresh_merge_all. reflexivity. Qed.

Lemma fresh_member (o : value) (k : string) (v : value) :
  fresh o = true -> member o k = Ret v -> fresh v = true.
Proof.
  destruct o; cbn [member]; try discriminate; try (intros _ [= <-]; reflexivity).
  intros Ho [= <-]. apply fresh_obj in Ho. apply all_fresh_prop. tauto.
Qed.

Lemma fresh_assign_member (o : value) (k : string) (v o' : value) :
  fresh o = true -> fresh v = true -> assign_member o k v = Ret o' ->
  fresh o' = true.
Proof.
  destruct o as [| | | | | | | |[|] ps]; cbn [assign_member]; try discriminate;
    try (intros _ _ [= <-]; reflexivity).
  intros Ho Hv [= <-]. apply fresh_obj in Ho. apply fresh_obj.
  split; [reflexivity|]. apply all_fresh_set; tauto.
Qed.

Lemma fresh_delete_member (o : value) (k : string) :
  fresh o = true -> fresh (delete_member o k) = true.
Proof.
  destruct o as [| | | | | | | |[|] ps]; cbn [delete_member]; auto.
  intros Ho. apply fresh_obj in Ho. apply fresh_obj.
  split; [reflexivity|]. apply all_fresh_delete. tauto.
Qed.

Lemma all_fresh_indexed {A} (f : A -> value) (l : list A) :
  (forall x, fresh (f x) = true) -> all_fresh (indexed f l).
Proof.
  intros Hf. unfold indexed, all_fresh. apply List.Forall_forall.
  intros [k x] Hin. rewrite <- list_elem_of_In in Hin.
  apply elem_of_lookup_imap in Hin.
  destruct Hin as (i & c & [= -> ->] & _). apply Hf.
Qed.

Lemma all_fresh_own_enumerable (v : value) :
  fresh v = true -> all_fresh (own_enumerable v).
Proof.
  destruct v; cbn [own_enumerable]; intros Hv; try constructor.
  - apply all_fresh_indexed. reflexivity.
  - apply all_fresh_indexed. reflexivity.
  - apply fresh_obj in Hv. tauto.
Qed.

Lemma all_fresh_parsed (fields : list (string * option string)) :
  all_fresh (parsed_props fields).
Proof.
  unfold parsed_props, all_fresh. induction fields as [|[k [s|]] rest IH];
    cbn; constructor; auto.
Qed.

(** Freezing a value that holds no frozen object reaches every object
    of it. *)
Lemma deep_frozen_freeze (v : value) :
  fresh v = true -> deep_frozen (deepFreezeWithRequest v) = true.
Proof.
  induction v as [| | | | | | | |frozen ps IH] using value_nested_ind;
    try reflexivity.
  intros Hv. apply fresh_obj in Hv. destruct Hv as [_ Hps].
  cbn [deepFreezeWithRequest]. apply deep_frozen_obj. split; [reflexivity|].
  unfold all_frozen, all_fresh in *.
  induction IH as [|[k x] rest Hx Hrest IHrest]; [constructor|].
  inversion Hps as [|? ? Hfx Hfrest]; subst. cbn [snd] in *.
  constructor; [|apply IHrest; exact Hfrest].
  cbn [snd]. destruct x as [| | | | | | | |[|] xps]; try reflexivity.
  - discriminate Hfx.
  - apply Hx. exact Hfx.
Qed.

Lemma update_id (k : string) (f : value -> value) (ps : list (string * value)) :
  Forall (fun kv => f (snd kv) = snd kv) ps -> update k f ps = ps.
Proof.
  induction 1 as [|[k' x] rest Hx Hrest IH]; cbn; [reflexivity|].
  cbn [snd] in Hx. destruct (String.eqb k k'); congruence.
Qed.

(** No assignment and no deletion takes effect anywhere in a value whose
    objects are all frozen. *)
Lemma attempt_deep_frozen (path : list string) (m : mutation) :
  forall v, deep_frozen v = true -> attempt path m v = v.
Proof.
  induction path as [|name rest IH]; intros v Hv.
  - destruct v as [| | | | | | | |[|] ps]; try reflexivity.
    discriminate Hv.
  - destruct v as [| | | | | | | |frozen ps]; try reflexivity.
    cbn [attempt]. f_equal. apply update_id.
    apply deep_frozen_obj in Hv. destruct Hv as [_ Hps].
    eapply List.Forall_impl; [|exact Hps]. intros kv Hkv. apply IH. exact Hkv.
Qed.

Section WithEnvironment.

Variable sdkVersion nodeVersion : string.
Variable url_parse : string -> list (string * option string).

Lemma fresh_updateRequestAgent (params params' : value) :
  fresh params = true ->
  updateRequestAgent url_parse params = Ret params' ->
  fresh params' = true.
Proof.
  intros Hp. unfold updateRequestAgent.
  destruct (member params "proxy") as [proxy|] eqn:Hproxy; [|discriminate].
  pose proof (fresh_member _ _ _ Hp Hproxy) as Hfproxy. cbn [bind].
  destruct (member proxy "url") as [url|] eqn:Hurl; [|discriminate].
  cbn [bind]. destruct (truthy url); [|intros [= <-]; exact Hp].
  destruct (member params "request") as [request|] eqn:Hreq; [|discriminate].
  pose proof (fresh_member _ _ _ Hp Hreq) as Hfreq. cbn [bind].
  destruct (assign_member request "agentClass" (VFun "ProxyAgent"))
    as [request1|] eqn:Hr1; [|discriminate].
  pose proof (fresh_assign_member _ _ (VFun "ProxyAgent") _ Hfreq eq_refl Hr1)
    as Hf1. cbn [bind].
  destruct (member request1 "agentOptions") as [agentOptions|] eqn:Hao;
    [|discriminate].
  pose proof (fresh_member _ _ _ Hf1 Hao) as Hfao. cbn [bind].
  destruct url; try discriminate. cbn [bind].
  set (agentOptions' := VObj false _).
  assert (Hfao' : fresh agentOptions' = true).
  { apply fresh_obj. split; [reflexivity|].
    apply all_fresh_assign; [apply all_fresh_parsed|].
    apply all_fresh_assign; [apply all_fresh_own_enumerable; exact Hfao|].
    constructor. }
  destruct (assign_member request1 "agentOptions" agentOptions')
    as [request2|] eqn:Hr2; [|discriminate].
  pose proof (fresh_assign_member _ _ _ _ Hf1 Hfao' Hr2) as Hf2. cbn [bind].
  destruct (member proxy "username") as [username|]; [|discriminate].
  destruct (member proxy "password") as [password|]; [|discriminate].
  cbn [bind].
  destruct (truthy username && truthy password).
  - destruct (assign_member agentOptions' "auth" _) as [agentOptions''|] eqn:Ha;
      [|discriminate].
    pose proof (fresh_assign_member _ _ (VStr _) _ Hfao' eq_refl Ha) as Hfa. cbn [bind].
    destruct (assign_member request2 "agentOptions" agentOptions'')
      as [request3|] eqn:Hr3; [|discriminate].
    pose proof (fresh_assign_member _ _ _ _ Hf2 Hfa Hr3) as Hf3. cbn [bind].
    intros H. eapply fresh_assign_member; [exact Hp|exact Hf3|exact H].
  - cbn [bind]. intros H.
    eapply fresh_assign_member; [exact Hp|exact Hf2|exact H].
Qed.

(** A constructed [Config] is frozen throughout. *)
Lemma constructor_deep_frozen (params c : value) :
  constructor sdkVersion nodeVersion url_parse params = Ret c ->
  deep_frozen c = true.
Proof.
  unfold constructor.
  destruct (validateBasicParams params); [|discriminate]. cbn [bind].
  destruct (member params "appAuth") as [appAuth|]; [|discriminate]. cbn [bind].
  destruct (if type_tag_eqb (typeof appAuth) TObject then _ else _)
    as [params1|]; [|discriminate].
  cbn [bind].
  destruct (assert (negb (hasOwn params1 "extend")) _); [|discriminate].
  cbn [bind].
  destruct (assert (negb (hasOwn params1 "_params")) _); [|discriminate].
  cbn [bind].
  destruct (mergeOptions _) as [merged|] eqn:Hm; [|discriminate].
  pose proof (fresh_mergeOptions _ _ Hm) as Hfm. cbn [bind].
  destruct (updateRequestAgent url_parse merged) as [_params|] eqn:Hu;
    [|discriminate].
  pose proof (fresh_updateRequestAgent _ _ Hfm Hu) as Hfp. cbn [bind].
  intros [= <-].
  apply (deep_frozen_freeze
           (VObj false (assign_props [("_params", _params)]
                                     (own_enumerable _params)))).
  apply fresh_obj. split; [reflexivity|].
  apply all_fresh_assign; [apply all_fresh_own_enumerable; exact Hfp|].
  repeat constructor. exact Hfp.
Qed.

End WithEnvironment.

End ConfigFacts.

(** C8, as the specification states it, fails.  [extend] does not return
    a [Config] for every override: the merged parameters go through the
    constructor's validation, and an override that sets [clientID] to a
    number makes it throw.  Nor is the new [Config] the bare merge: an
    override that sets [proxy.url] makes the constructor put the proxy
    agent in [request.agentClass], where the merge has the agent of the
    original.  And the bytes of a [Buffer] held by a [Config] (here the
    private key) are left writable after construction. *)
Lemma extend_is_not_a_plain_merge :
  let url_parse := fun s : string => [("href", Some s)] in
  let construct := Config.constructor "3.0.0" "v18.0.0" url_parse in
  let extend := Config.extend "3.0.0" "v18.0.0" url_parse in
  let credentials := [("clientID", Js.VStr "id"); ("clientSecret", Js.VStr "secret")] in
  (exists c,
      construct (Js.VObj false credentials) = Js.Ret c
      /\ extend c (Js.VObj false [("clientID", Js.VNum 5)])
         = Js.Throw (Js.AssertionError
                       "clientID must be set via init() before using the SDK.")
      /\ (let p := Js.VObj false
                     [("proxy",
                       Js.VObj false [("url", Js.VStr "http://proxy.example:8080")])] in
          exists c' merged,
            extend c p = Js.Ret c'
            /\ MergeOptions.mergeOptions [Js.prop "_params" (Js.own_enumerable c); p]
               = Js.Ret merged
            /\ Js.prop "agentClass"
                 (Js.own_enumerable (Js.prop "request" (Js.own_enumerable merged)))
               = Js.VFun "https.Agent"
            /\ Js.prop "agentClass"
                 (Js.own_enumerable (Js.prop "request" (Js.own_enumerable c')))
               = Js.VFun "ProxyAgent"))
  /\ (exists c,
         construct
           (Js.VObj false
              (credentials
               ++ [("appAuth",
                    Js.VObj false
                      [("keyID", Js.VStr "k1");
                       ("privateKey", Js.VBuffer [45; 45; 45]);
                       ("passphrase", Js.VStr "pass")])]))
         = Js.Ret c
         /\ Config.poke ["appAuth"; "privateKey"] 0 0 c <> c).
Proof.
  intros url_parse construct extend credentials. split.
  - eexists. split; [vm_compute; reflexivity|].
    split; [vm_compute; reflexivity|].
    eexists _, _. split; [vm_compute; reflexivity|].
    split; [vm_compute; reflexivity|].
    split; vm_compute; reflexivity.
  - eexists. split; [vm_compute; reflexivity|].
    vm_compute. discriminate.
Qed.

(** C8, amended: every object of a constructed [Config] (the instance,
    its [_params] and all nested plain objects) is frozen, so that no
    assignment or deletion anywhere in it takes effect; the contents of
    [Buffer] and [Readable] values are not covered.  For such a [Config]
    [c] and override [p], [c.extend(p)] returns a [Config] exactly when
    the merge of [c]'s [_params] with [p] succeeds and the constructor
    accepts the merged parameters less the keys [extend] and [_params]:
    the result is then the [Config] the constructor builds from them,
    frozen like [c], and [c] is as it was. *)
Theorem config_frozen_and_extended_anew :
  forall (sdkVersion nodeVersion : string)
         (url_parse : string -> list (string * option string))
         (params c : Js.value),
    Config.constructor sdkVersion nodeVersion url_parse params = Js.Ret c ->
    Config.deep_frozen c = true
    /\ (forall path m, Config.attempt path m c = c)
    /\ (forall p c',
          Config.extend sdkVersion nodeVersion url_parse c p = Js.Ret c' <->
          exists newParams,
            MergeOptions.mergeOptions
              [Js.VObj false []; Js.prop "_params" (Js.own_enumerable c); p]
            = Js.Ret newParams
            /\ Config.constructor sdkVersion nodeVersion url_parse
                 (Js.delete_member (Js.delete_member newParams "extend") "_params")
               = Js.Ret c')
    /\ (forall p c',
          Config.extend sdkVersion nodeVersion url_parse c p = Js.Ret c' ->
          Config.deep_frozen c' = true
          /\ (forall path m, Config.attempt path m c' = c')
          /\ (forall path m, Config.attempt path m c = c)).
Proof.
  intros sdkVersion nodeVersion url_parse params c Hc.
  pose proof (constructor_deep_frozen _ _ _ _ _ Hc) as Hfrozen.
  assert (Hobj : exists ps, c = Js.VObj true ps).
  { destruct c as [| | | | | | | |[|] ps]; try discriminate Hfrozen;
      try (exists ps; reflexivity);
      revert Hc; unfold Config.constructor;
      repeat match goal with
             | |- context [Js.bind ?m _] =>
                 destruct m; cbn [Js.bind]; try discriminate
             end. }
  destruct Hobj as [ps ->].
  assert (Hext : forall p c',
             Config.extend sdkVersion nodeVersion url_parse (Js.VObj true ps) p
             = Js.Ret c' ->
             exists newParams,
               MergeOptions.mergeOptions
                 [Js.VObj false []; Js.prop "_params" ps; p] = Js.Ret newParams
               /\ Config.constructor sdkVersion nodeVersion url_parse
                    (Js.delete_member (Js.delete_member newParams "extend") "_params")
                  = Js.Ret c').
  { intros p c'. unfold Config.extend. cbn [Js.member Js.bind].
    destruct (MergeOptions.mergeOptions _) as [newParams|]; [|discriminate].
    cbn [Js.bind]. intros H. exists newParams. split; [reflexivity|exact H]. }
  split; [exact Hfrozen|].
  split; [intros path m; apply attempt_deep_frozen; exact Hfrozen|].
  split.
  - intros p c'. split; [apply Hext|].
    intros (newParams & Hm & Hn). unfold Config.extend.
    cbn [Js.member Js.bind Js.own_enumerable] in *. rewrite Hm. exact Hn.
  - intros p c' He. destruct (Hext p c' He) as (newParams & _ & Hn).
    pose proof (constructor_deep_frozen _ _ _ _ _ Hn) as Hfrozen'.
    split; [exact Hfrozen'|].
    split; intros path m; apply attempt_deep_frozen; assumption.
Qed.

(** C8 at the default configuration extended with the options of a
    request, as the request manager does. *)
Lemma config_frozen_and_extended_anew_witness :
  let url_parse := fun s : string => [("href", Some s)] in
  exists c,
    Config.constructor "3.0.0" "v18.0.0" url_parse
      (Js.VObj false [("clientID", Js.VStr "id"); ("clientSecret", Js.VStr "secret")])
    = Js.Ret c
    /\ Config.attempt ["request"; "headers"]
         (Config.Assign "Authorization" (Js.VStr "Bearer T0KEN")) c = c.
Proof.
  intros url_parse. eexists. split; [vm_compute; reflexivity|].
  match goal with
  | |- Config.attempt ?path ?m ?c = _ =>
      apply (proj1 (proj2 (config_frozen_and_extended_anew
                             "3.0.0" "v18.0.0" url_parse
                             (Js.VObj false [("clientID", Js.VStr "id");
                                             ("clientSecret", Js.VStr "secret")])
                             c ltac:(vm_compute; reflexivity))) path m)
  end.
Defined.

(** ** Scenarios of the specification, evaluated *)

Section Scenarios.
Import Http TokenManager.

(** A refresh-token grant answered
    [{access_token: "a1", refresh_token: "r1", expires_in: 3600}] at time
    [T]: the token is valid at [T + 1000] and no longer at
    [T + 3600001]. *)
Example scenario_refresh_grant :
  let T := 1700000000000 in
  let response :=
    {| statusCode := 200; response_headers := Some ∅;
       body := BodyJson (Js.JObj [("access_token", Js.JStr "a1");
                                  ("refresh_token", Js.JStr "r1");
                                  ("expires_in", Js.JNum 3600)]) |} in
  exists tokenInfo,
    getTokens "refresh_token" (inr response) T = Resolved tokenInfo
    /\ accessTokenTTLMS tokenInfo = Some (Js.Num 3600000)
    /\ acquiredAtMS tokenInfo = Some (Js.Num T)
    /\ isAccessTokenValid tokenInfo (Some (Js.Num 0)) (T + 1000) = true
    /\ isAccessTokenValid tokenInfo (Some (Js.Num 0)) (T + 3600001) = false.
Proof.
  intros T response. eexists. split; [vm_compute; reflexivity|].
  repeat split; reflexivity.
Qed.

(** A client-credentials grant answered 200 with the body [{}]. *)
Example scenario_empty_body :
  let response := {| statusCode := 200; response_headers := Some ∅;
                     body := BodyJson (Js.JObj []) |} in
  getTokens "client_credentials" (inr response) 0
  = Rejected (buildResponseError response "Token format from response invalid").
Proof. reflexivity. Qed.

(** A 200 answer without body escapes the validation as a [TypeError]:
    the promise rejects, though not with the malformed-response error. *)
Example scenario_absent_body :
  let response := {| statusCode := 200; response_headers := Some ∅;
                     body := BodyUndefined |} in
  getTokens "client_credentials" (inr response) 0
  = Rejected (thrown Js.TypeError).
Proof. reflexivity. Qed.

(** A multipart request is not retried, and its error is not flagged. *)
Example scenario_multipart :
  let cfg := {| APIRequest.numMaxRetries := 5; APIRequest.retryIntervalMS := 2000;
                APIRequest.retryStrategy := None;
                APIRequest.config_request :=
                  {| APIRequest.opt_method := "POST";
                     APIRequest.opt_url := "https://upload.box.com/api/2.0/files/content";
                     APIRequest.opt_headers := None; APIRequest.form := None;
                     APIRequest.formData :=
                       Js.VObj false [("file", Js.VReadable 1)] |} |} in
  let r := {| statusCode := 503; response_headers := None; body := BodyUndefined |} in
  exists this e,
    APIRequest.run (fun _ _ => 0) (APIRequest.constructor cfg) true None
      [(0, 1, APIRequest.Responded r)]
    = Js.Ret (this, [APIRequest.Send true
                       (APIRequest.request_lib (APIRequest.config_request cfg));
                     APIRequest.Emit (Some e) None;
                     APIRequest.Callback (Some e) None])
    /\ APIRequest.maxRetriesExceeded e = false.
Proof.
  intros cfg r. eexists _, _. split; [vm_compute; reflexivity|reflexivity].
Qed.

End Scenarios.

(* ===================================================================== *)
(** * Part III: further properties of the code *)
(* ===================================================================== *)

(** ** The life of a request in callback mode *)

Section CallbackMode.
Import Http APIRequest Lifecycle.

Variable getRetryTimeout : Z -> Z -> Z.

(** What one call of [_handleResponse] leaves in the trace: a
    ['response'] event, then either the timer or the callback. *)
Lemma handleResponse_shape (this : APIRequest.t) (req0 : RequestObject)
      (o : Outcome) (elapsed : Z) :
  this_request this = Some req0 ->
  exists this' effs,
    _handleResponse getRetryTimeout this o elapsed = Js.Ret (this', effs)
    /\ config this' = config this
    /\ _callback this' = _callback this
    /\ ((exists e d, effs = [Emit (Some e) None; SetTimeout d]
           /\ current_retries this < numMaxRetries (config this)
           /\ current_retries this' = current_retries this + 1)
        \/ (exists err resp cerr cresp,
               effs = [Emit err resp; Callback cerr cresp])).
Proof.
  intros Hreq. unfold _handleResponse. rewrite Hreq.
  set (this1 := with_request this (cleanSensitiveHeaders req0) false).
  destruct (classify o) as [[e|] response].
  - destruct (isRetryable this1 && negb (isJWT (config_request (config this1)))).
    + unfold _retry. rewrite normalise_retries.
      cbn [config with_numRetries].
      change (current_retries this1) with (current_retries this).
      change (config this1) with (config this).
      destruct (Z.ltb_spec (current_retries this) (numMaxRetries (config this)))
        as [Hlt|Hge].
      * destruct (retryStrategy (config this)) as [strategy|].
        -- destruct (strategy _); eexists _, _;
             (split; [reflexivity|]); (split; [reflexivity|]);
             (split; [reflexivity|]).
           ++ left. eexists _, _. split; [reflexivity|]. split; [exact Hlt|reflexivity].
           ++ right. eexists _, _, _, _. reflexivity.
           ++ right. eexists _, _, _, _. reflexivity.
        -- destruct (retry_after _); eexists _, _;
             (split; [reflexivity|]); (split; [reflexivity|]);
             (split; [reflexivity|]);
             left; eexists _, _; (split; [reflexivity|]);
             (split; [exact Hlt|reflexivity]).
      * eexists _, _. split; [reflexivity|]. split; [reflexivity|].
        split; [reflexivity|]. right. eexists _, _, _, _. reflexivity.
    + eexists _, _. split; [reflexivity|]. split; [reflexivity|].
      split; [reflexivity|]. right. eexists _, _, _, _. reflexivity.
  - eexists _, _. split; [reflexivity|]. split; [reflexivity|].
    split; [reflexivity|]. right. eexists _, _, _, _. reflexivity.
Qed.

(** A logical request is a run of retry rounds, then the round that
    calls back; a trace without the last round is one whose answers ran
    out while a timer was pending. *)
Lemma run_rounds (attempts : list (Z * Z * Outcome)) :
  forall (this : APIRequest.t) (cb : bool) (timer : option Z),
    cb || _callback this = true ->
    exists this' rounds tail,
      run getRetryTimeout this cb timer attempts
      = Js.Ret (this',
                flat_map (retry_round (request_lib (config_request (config this))))
                         rounds ++ tail)
      /\ (length rounds
          <= Z.to_nat (numMaxRetries (config this) - current_retries this))%nat
      /\ ((tail = [] /\ length attempts = length rounds)
          \/ ((exists err resp cerr cresp,
                  tail = [Send true (request_lib (config_request (config this)));
                          Emit err resp; Callback cerr cresp])
              /\ (length rounds < length attempts)%nat)).
Proof.
  induction attempts as [|[[t_exec t_answer] o] rest IH]; intros this cb timer Hcb.
  - exists this, [], []. split; [reflexivity|]. split; [cbn; lia|].
    left. split; reflexivity.
  - rewrite run_step by exact Hcb. cbv zeta.
    set (req := request_lib (config_request (config this))).
    set (this1 := with_request (with_callback this true) req false).
    destruct (handleResponse_shape this1 req o
                (elapsed_since (Some (default t_exec timer)) t_answer) eq_refl)
      as (this2 & effs & Hh & Hcfg & Hcb2 & [(e & d & -> & Hlt & Hinc)
                                            |(err & resp & cerr & cresp & ->)]).
    + rewrite Hh. cbn [Js.bind fst snd existsb is_timeout orb].
      destruct (IH this2 false (Some (default t_exec timer)))
        as (this3 & rounds & tail & Hrun & Hlen & Htail).
      { rewrite Hcb2. reflexivity. }
      rewrite Hrun. cbn [Js.bind fst snd].
      rewrite Hcfg in Hrun, Hlen, Htail |- *.
      change (config this1) with (config this) in *.
      change (current_retries this1) with (current_retries this) in *.
      fold req in Htail |- *.
      exists this3, ((e, d) :: rounds), tail.
      split; [reflexivity|]. split; [cbn [length]; lia|].
      destruct Htail as [[-> Hl]|[Hex Hl]].
      * left. split; [reflexivity|]. cbn [length]. lia.
      * right. split; [exact Hex|]. cbn [length]. lia.
    + rewrite Hh. cbn [Js.bind fst snd existsb is_timeout orb].
      exists this2, [], [Send true req; Emit err resp; Callback cerr cresp].
      split; [reflexivity|]. split; [cbn; lia|].
      right. split; [eexists _, _, _, _; reflexivity|]. cbn. lia.
Qed.

(** The error of a failed attempt as the code emits it refers to the
    request object in flight and to nothing else, when the transport
    hands over a bare error. *)
Lemma attached_requests (o : Outcome) (req : RequestObject) (e : Error)
      (response : option RawResponse) :
  (forall e0 r0, o = Failed e0 r0 -> err_response e0 = None) ->
  classify o = (Some e, response) ->
  forall q,
    In q (option_list (err_request (attach e req response))
          ++ option_list (option_map request (err_response (attach e req response)))) ->
    q = req.
Proof.
  intros Hbare Hc q Hq. destruct o as [e0 r0|r0]; cbn in Hc.
  - injection Hc as <- <-. pose proof (Hbare e0 r0 eq_refl) as Hresp.
    destruct r0; cbn in Hq; rewrite ?Hresp in Hq; cbn in Hq;
      intuition congruence.
  - destruct (isTemporaryError r0); [|discriminate].
    injection Hc as <- <-; cbn in Hq; intuition congruence.
Qed.

(** Whatever [_handleResponse] surfaces refers to redacted request
    objects, also under a retry strategy, as long as the errors the
    strategy makes up do. *)
Lemma handleResponse_redacts_strategy (this : APIRequest.t)
      (o : Outcome) (elapsed : Z) this' effs :
  (forall strategy opts e q,
      retryStrategy (config this) = Some strategy ->
      strategy opts = Fail e ->
      In q (surfaced_requests (Callback (Some e) None)) -> redacted q) ->
  (forall e r, o = Failed e r -> err_response e = None) ->
  _handleResponse getRetryTimeout this o elapsed = Js.Ret (this', effs) ->
  forall eff req, In eff effs -> In req (surfaced_requests eff) -> redacted req.
Proof.
  intros Hstrat Hbare. unfold _handleResponse.
  destruct (this_request this) as [req0|]; [|discriminate].
  pose proof (cleanSensitiveHeaders_redacted req0) as Hred.
  set (req := cleanSensitiveHeaders req0) in *.
  destruct (classify o) as [[e|] response] eqn:Hc.
  - pose proof (attached_requests o req e response Hbare Hc) as Hcl.
    assert (Hemit : forall q, In q (surfaced_requests
                                      (Emit (Some (attach e req response)) None)) ->
                              redacted q).
    { intros q Hq. cbn [surfaced_requests] in Hq. rewrite app_nil_r in Hq.
      rewrite (Hcl q Hq). exact Hred. }
    assert (Hcall : forall q, In q (surfaced_requests
                                      (Callback (Some (attach e req response)) None)) ->
                              redacted q) by exact Hemit.
    destruct (isRetryable _ && negb _).
    + unfold _retry. cbn [config with_numRetries with_request].
      destruct (_ <? _).
      * destruct (retryStrategy (config this)) as [strategy|] eqn:Hs.
        -- destruct (strategy _) eqn:Hres; intros [= <- <-] eff q Hin Hq;
             cbn in Hin; destruct Hin as [<-|[<-|[]]];
             try (apply Hemit; exact Hq); try (apply Hcall; exact Hq);
             try (cbn in Hq; contradiction).
           eapply Hstrat; [reflexivity|exact Hres|exact Hq].
        -- destruct (retry_after _); intros [= <- <-] eff q Hin Hq;
             cbn in Hin; destruct Hin as [<-|[<-|[]]];
             try (apply Hemit; exact Hq); cbn in Hq; contradiction.
      * intros [= <- <-] eff q Hin Hq.
        cbn in Hin; destruct Hin as [<-|[<-|[]]];
          [apply Hemit; exact Hq | apply Hcall; exact Hq].
    + intros [= <- <-] eff q Hin Hq.
      cbn in Hin; destruct Hin as [<-|[<-|[]]];
        [apply Hemit; exact Hq | apply Hcall; exact Hq].
  - intros [= <- <-] eff q Hin Hq.
    cbn in Hin. destruct Hin as [<-|[<-|[]]]; destruct response; cbn in Hq;
      try contradiction; destruct Hq as [<-|[]]; exact Hred.
Qed.

Lemma run_redacts (attempts : list (Z * Z * Outcome)) :
  forall (this : APIRequest.t) (cb : bool) (timer : option Z) this' trace,
    cb || _callback this = true ->
    (forall strategy opts e q,
        retryStrategy (config this) = Some strategy ->
        strategy opts = Fail e ->
        In q (surfaced_requests (Callback (Some e) None)) -> redacted q) ->
    Forall (fun a => forall e r, snd a = Failed e r -> err_response e = None)
           attempts ->
    run getRetryTimeout this cb timer attempts = Js.Ret (this', trace) ->
    forall eff req, In eff trace -> In req (surfaced_requests eff) -> redacted req.
Proof.
  induction attempts as [|[[t_exec t_answer] o] rest IH];
    intros this cb timer this' trace Hcb Hstrat Hbare.
  - intros [= <- <-] eff q [].
  - inversion Hbare as [|? ? Ho Hrest]; subst. cbn [snd] in Ho.
    rewrite run_step by exact Hcb. cbv zeta.
    set (req := request_lib (config_request (config this))).
    set (this1 := with_request (with_callback this true) req false).
    destruct (handleResponse_step getRetryTimeout this1 req o
                (elapsed_since (Some (default t_exec timer)) t_answer) eq_refl)
      as (this2 & effs & Hh & Hcfg & Hcb2 & _).
    rewrite Hh. cbn [Js.bind fst snd].
    pose proof (handleResponse_redacts_strategy this1 o _ this2 effs Hstrat Ho Hh)
      as Hone.
    destruct (existsb is_timeout effs).
    + destruct (run getRetryTimeout this2 false (Some (default t_exec timer)) rest)
        as [[this3 tl]|] eqn:Hrun; [|discriminate].
      cbn [Js.bind fst snd]. intros [= <- <-] eff q Hin Hq.
      cbn [app] in Hin. destruct Hin as [<-|Hin]; [cbn in Hq; contradiction|].
      apply in_app_or in Hin. destruct Hin as [Hin|Hin].
      * exact (Hone eff q Hin Hq).
      * refine (IH this2 false _ this3 tl _ _ Hrest Hrun eff q Hin Hq).
        -- rewrite Hcb2. reflexivity.
        -- rewrite Hcfg. exact Hstrat.
    + intros [= <- <-] eff q Hin Hq.
      cbn [app] in Hin. destruct Hin as [<-|Hin]; [cbn in Hq; contradiction|].
      exact (Hone eff q Hin Hq).
Qed.

End CallbackMode.

(** X1: a request executed with a callback leaves a trace made of retry
    rounds (the request sent, the error emitted as a ['response'] event,
    the timer armed), at most [numMaxRetries] of them, followed by one
    last round in which the request is sent, one ['response'] event is
    emitted and the callback is called: the callback is called once, as
    the last effect, and never while a timer is pending.  The last round
    is missing only from a trace whose answers ran out, one answer per
    retry round. *)
Theorem callback_exactly_once :
  forall getRetryTimeout cfg timer attempts,
    let req := APIRequest.request_lib (APIRequest.config_request cfg) in
    exists this' rounds tail,
      APIRequest.run getRetryTimeout (APIRequest.constructor cfg) true timer attempts
      = Js.Ret (this', flat_map (Lifecycle.retry_round req) rounds ++ tail)
      /\ (length rounds <= Z.to_nat (APIRequest.numMaxRetries cfg))%nat
      /\ ((tail = [] /\ length attempts = length rounds)
          \/ ((exists err resp cerr cresp,
                  tail = [APIRequest.Send true req; APIRequest.Emit err resp;
                          APIRequest.Callback cerr cresp])
              /\ (length rounds < length attempts)%nat)).
Proof.
  intros gRT cfg timer attempts req.
  destruct (run_rounds gRT attempts (APIRequest.constructor cfg) true timer eq_refl)
    as (this' & rounds & tail & Hrun & Hlen & Htail).
  exists this', rounds, tail. split; [exact Hrun|]. split; [|exact Htail].
  cbn in Hlen. rewrite Z.sub_0_r in Hlen. exact Hlen.
Qed.

(** X2: in callback mode every request object that can be reached from
    an emitted event or from the arguments of the callback, over all the
    attempts of a request, has its [Authorization] and [BoxApi] headers
    overwritten with the marker.  It holds under any retry strategy that
    does not itself return an error carrying an unredacted request, for
    transport errors that carry no response of their own. *)
Theorem callback_mode_surfaces_redacted_requests :
  forall getRetryTimeout cfg timer attempts this' trace,
    (forall strategy opts e q,
        APIRequest.retryStrategy cfg = Some strategy ->
        strategy opts = APIRequest.Fail e ->
        In q (APIRequest.surfaced_requests (APIRequest.Callback (Some e) None)) ->
        APIRequest.redacted q) ->
    Forall (fun a => forall e r, snd a = APIRequest.Failed e r ->
                                 APIRequest.err_response e = None) attempts ->
    APIRequest.run getRetryTimeout (APIRequest.constructor cfg) true timer attempts
    = Js.Ret (this', trace) ->
    forall eff req,
      In eff trace -> In req (APIRequest.surfaced_requests eff) ->
      APIRequest.redacted req.
Proof.
  intros gRT cfg timer attempts this' trace Hstrat Hbare Hrun.
  exact (run_redacts gRT attempts (APIRequest.constructor cfg) true timer this' trace
           eq_refl Hstrat Hbare Hrun).
Qed.

(** X2 at a request that carries a bearer token, is answered 429 with a
    [retry-after] header and then 200. *)
Lemma callback_mode_surfaces_redacted_requests_witness :
  let cfg := {| APIRequest.numMaxRetries := 5; APIRequest.retryIntervalMS := 2000;
                APIRequest.retryStrategy := None;
                APIRequest.config_request :=
                  {| APIRequest.opt_method := "GET";
                     APIRequest.opt_url := "https://api.box.com/2.0/files/1";
                     APIRequest.opt_headers :=
                       Some (<["Authorization" := "Bearer T0KEN"]> ∅);
                     APIRequest.form := None;
                     APIRequest.formData := Js.VUndefined |} |} in
  let busy := {| Http.statusCode := 429;
                 Http.response_headers := Some (<["retry-after" := "1"]> ∅);
                 Http.body := Http.BodyUndefined |} in
  let ok := {| Http.statusCode := 200; Http.response_headers := None;
               Http.body := Http.BodyUndefined |} in
  exists this' trace,
    APIRequest.run (fun _ _ => 0) (APIRequest.constructor cfg) true None
      [(0, 1, APIRequest.Responded busy); (1001, 1002, APIRequest.Responded ok)]
    = Js.Ret (this', trace)
    /\ length trace = 6%nat
    /\ forall eff req,
        In eff trace -> In req (APIRequest.surfaced_requests eff) ->
        APIRequest.redacted req.
Proof.
  intros cfg busy ok. eexists _, _.
  split; [vm_compute; reflexivity|]. split; [reflexivity|].
  eapply (callback_mode_surfaces_redacted_requests (fun _ _ => 0) cfg None
            [(0, 1, APIRequest.Responded busy); (1001, 1002, APIRequest.Responded ok)]).
  - intros strategy opts e q Hs. discriminate Hs.
  - repeat constructor; intros e r H; discriminate H.
  - vm_compute. reflexivity.
Defined.

(** X3: a request that cannot be retried, because it has truthy
    [formData] (a multipart upload) or because it is a JWT-bearer grant,
    hands its first error to the callback at once, whatever
    [numMaxRetries] and the retry strategy are: no timer is armed, the
    strategy is not consulted, and the error is not flagged
    [maxRetriesExceeded]. *)
Theorem unretryable_request_fails_at_once :
  forall getRetryTimeout cfg timer t_exec t_answer o rest e response,
    APIRequest.isRequestRetryable (APIRequest.config_request cfg) = false
    \/ APIRequest.isJWT (APIRequest.config_request cfg) = true ->
    APIRequest.classify o = (Some e, response) ->
    let req := APIRequest.request_lib (APIRequest.config_request cfg) in
    let e' := APIRequest.attach e (APIRequest.cleanSensitiveHeaders req) response in
    (exists this',
        APIRequest.run getRetryTimeout (APIRequest.constructor cfg) true timer
          ((t_exec, t_answer, o) :: rest)
        = Js.Ret (this', [APIRequest.Send true req;
                          APIRequest.Emit (Some e') None;
                          APIRequest.Callback (Some e') None]))
    /\ APIRequest.maxRetriesExceeded e' = APIRequest.maxRetriesExceeded e.
Proof.
  intros gRT cfg timer t_exec t_answer o rest e response Hno Hcl req e'.
  split; [|reflexivity].
  rewrite run_first. cbv zeta. unfold APIRequest._handleResponse.
  cbn [APIRequest.this_request APIRequest.with_request APIRequest.with_callback
         APIRequest.constructor APIRequest.config APIRequest.isRetryable].
  rewrite Hcl.
  assert (Hcond : APIRequest.isRequestRetryable (APIRequest.config_request cfg)
                  && negb (APIRequest.isJWT (APIRequest.config_request cfg)) = false).
  { destruct Hno as [-> | ->]; [reflexivity|apply andb_false_r]. }
  rewrite Hcond. cbn. eexists. reflexivity.
Qed.

(** X3 at a JWT-bearer grant answered 500 with [numMaxRetries = 5]. *)
Lemma unretryable_request_fails_at_once_witness :
  let cfg := {| APIRequest.numMaxRetries := 5; APIRequest.retryIntervalMS := 2000;
                APIRequest.retryStrategy := None;
                APIRequest.config_request :=
                  {| APIRequest.opt_method := "POST";
                     APIRequest.opt_url := "https://api.box.com/oauth2/token";
                     APIRequest.opt_headers := None;
                     APIRequest.form :=
                       Some [("grant_type",
                              Js.VStr "urn:ietf:params:oauth:grant-type:jwt-bearer");
                             ("assertion", Js.VStr "e30.e30.")];
                     APIRequest.formData := Js.VUndefined |} |} in
  let r := {| Http.statusCode := 500; Http.response_headers := None;
              Http.body := Http.BodyUndefined |} in
  let req := APIRequest.request_lib (APIRequest.config_request cfg) in
  let e' := APIRequest.attach (APIRequest.createErrorForResponse r)
              (APIRequest.cleanSensitiveHeaders req) (Some r) in
  exists this',
    APIRequest.run (fun _ _ => 0) (APIRequest.constructor cfg) true None
      [(0, 1, APIRequest.Responded r)]
    = Js.Ret (this', [APIRequest.Send true req;
                      APIRequest.Emit (Some e') None;
                      APIRequest.Callback (Some e') None]).
Proof.
  intros cfg r req e'.
  exact (proj1 (unretryable_request_fails_at_once (fun _ _ => 0) cfg None 0 1
                  (APIRequest.Responded r) []
                  (APIRequest.createErrorForResponse r) (Some r)
                  (or_intror eq_refl) eq_refl)).
Defined.

(** X4: in callback mode a response whose status is not temporary, a
    client error such as 401 or 404 included, is no error for the
    executor: it is emitted as a plain ['response'] event and handed to
    the callback as the result, with a null error, at the first attempt;
    the response refers to the redacted request object. *)
Theorem permanent_status_is_handed_over_as_response :
  forall getRetryTimeout cfg timer t_exec t_answer rest (r : Http.RawResponse),
    ~ (500 <= Http.statusCode r <= 599 /\ Http.statusCode r <> 507) ->
    Http.statusCode r <> 408 ->
    Http.statusCode r <> 429 ->
    let req := APIRequest.request_lib (APIRequest.config_request cfg) in
    let response := {| Http.request := APIRequest.cleanSensitiveHeaders req;
                       Http.raw := r |} in
    exists this',
      APIRequest.run getRetryTimeout (APIRequest.constructor cfg) true timer
        ((t_exec, t_answer, APIRequest.Responded r) :: rest)
      = Js.Ret (this', [APIRequest.Send true req;
                        APIRequest.Emit None (Some response);
                        APIRequest.Callback None (Some response)]).
Proof.
  intros gRT cfg timer t_exec t_answer rest r H5 H408 H429 req response.
  assert (Htemp : APIRequest.isTemporaryError r = false).
  { destruct (APIRequest.isTemporaryError r) eqn:Ht; [|reflexivity].
    apply isTemporaryError_iff in Ht. tauto. }
  rewrite run_first. cbv zeta. unfold APIRequest._handleResponse.
  cbn [APIRequest.this_request APIRequest.with_request APIRequest.with_callback
         APIRequest.constructor APIRequest.config APIRequest.isRetryable
         APIRequest.classify].
  rewrite Htemp. cbn. eexists. reflexivity.
Qed.

(** X4 at a request answered 404. *)
Lemma permanent_status_is_handed_over_as_response_witness :
  let cfg := {| APIRequest.numMaxRetries := 5; APIRequest.retryIntervalMS := 2000;
                APIRequest.retryStrategy := None;
                APIRequest.config_request :=
                  {| APIRequest.opt_method := "GET";
                     APIRequest.opt_url := "https://api.box.com/2.0/files/1";
                     APIRequest.opt_headers := None; APIRequest.form := None;
                     APIRequest.formData := Js.VUndefined |} |} in
  let r := {| Http.statusCode := 404; Http.response_headers := None;
              Http.body := Http.BodyUndefined |} in
  let req := APIRequest.request_lib (APIRequest.config_request cfg) in
  let response := {| Http.request := APIRequest.cleanSensitiveHeaders req;
                     Http.raw := r |} in
  exists this',
    APIRequest.run (fun _ _ => 0) (APIRequest.constructor cfg) true None
      [(0, 1, APIRequest.Responded r)]
    = Js.Ret (this', [APIRequest.Send true req;
                      APIRequest.Emit None (Some response);
                      APIRequest.Callback None (Some response)]).
Proof.
  intros cfg r req response.
  apply (permanent_status_is_handed_over_as_response (fun _ _ => 0) cfg None 0 1 [] r);
    cbn; lia.
Defined.

(** ** What the redaction changes *)

Section Masking.
Import Http APIRequest.

Lemma cleanHeader_lookup (name : string) (h : gmap string string) (k : string) :
  cleanHeader name h !! k
  = if String.eqb k name && Js.truthy_str (h !! name)
    then Some REMOVED_HEADER_MESSAGE else h !! k.
Proof.
  unfold cleanHeader.
  destruct (String.eqb_spec k name) as [->|Hne]; cbn [andb].
  - destruct (Js.truthy_str (h !! name)) eqn:Ht; [|reflexivity].
    apply lookup_insert_eq.
  - destruct (Js.truthy_str (h !! name)); [|reflexivity].
    apply lookup_insert_ne. congruence.
Qed.

Lemma clean_headers_lookup (h : gmap string string) (k : string) :
  cleanHeader "Authorization" (cleanHeader "BoxApi" h) !! k
  = if (String.eqb k "Authorization" || String.eqb k "BoxApi")
       && Js.truthy_str (h !! k)
    then Some REMOVED_HEADER_MESSAGE else h !! k.
Proof.
  rewrite cleanHeader_lookup.
  rewrite (cleanHeader_lookup "BoxApi" h "Authorization"). cbn [String.eqb Ascii.eqb
    Bool.eqb andb].
  rewrite (cleanHeader_lookup "BoxApi" h k).
  destruct (String.eqb_spec k "Authorization") as [->|Ha]; cbn [orb andb].
  - destruct (Js.truthy_str (h !! "Authorization")); reflexivity.
  - destruct (String.eqb_spec k "BoxApi") as [->|Hb]; reflexivity.
Qed.

Lemma clean_headers_idempotent (h : gmap string string) :
  cleanHeader "Authorization"
    (cleanHeader "BoxApi" (cleanHeader "Authorization" (cleanHeader "BoxApi" h)))
  = cleanHeader "Authorization" (cleanHeader "BoxApi" h).
Proof.
  apply map_eq. intros k. rewrite (clean_headers_lookup (cleanHeader _ _)).
  rewrite !clean_headers_lookup.
  destruct (String.eqb k "Authorization" || String.eqb k "BoxApi"); cbn [andb];
    [|reflexivity].
  destruct (Js.truthy_str (h !! k)) eqn:Ht; [reflexivity|].
  rewrite Ht. reflexivity.
Qed.

End Masking.

(** X5: [cleanSensitiveHeaders] changes nothing but the values of the
    headers named exactly [Authorization] and [BoxApi], and those only
    when they are set to a non-empty string: it keeps the method and the
    URI, adds and removes no header, leaves every other header (a
    lower-case [authorization] too) and an empty sensitive header as
    they are, and does nothing to a request without headers.  Applying
    it twice is the same as applying it once. *)
Theorem cleanSensitiveHeaders_masks_two_names :
  forall r : Http.RequestObject,
    APIRequest.cleanSensitiveHeaders (APIRequest.cleanSensitiveHeaders r)
    = APIRequest.cleanSensitiveHeaders r
    /\ Http.method (APIRequest.cleanSensitiveHeaders r) = Http.method r
    /\ Http.uri (APIRequest.cleanSensitiveHeaders r) = Http.uri r
    /\ match Http.headers r with
       | None => APIRequest.cleanSensitiveHeaders r = r
       | Some h =>
           exists h',
             Http.headers (APIRequest.cleanSensitiveHeaders r) = Some h'
             /\ forall name,
                 h' !! name
                 = if (String.eqb name "Authorization" || String.eqb name "BoxApi")
                      && Js.truthy_str (h !! name)
                   then Some APIRequest.REMOVED_HEADER_MESSAGE
                   else h !! name
       end.
Proof.
  intros [m u [h|]]; unfold APIRequest.cleanSensitiveHeaders; cbn.
  - split; [rewrite clean_headers_idempotent; reflexivity|].
    split; [reflexivity|]. split; [reflexivity|].
    eexists. split; [reflexivity|]. intros name. apply clean_headers_lookup.
  - repeat split; reflexivity.
Qed.

(** X6: a retry strategy decides alone.  On the first failure of a
    retryable request with retries allowed, the strategy is called with
    the error as emitted, [numRetryAttempts = 1], the configured
    [numMaxRetries] and [retryIntervalMS], and the time elapsed since
    the shared request timer was started (by this request when no
    earlier one had started it); a number it returns is the delay of the
    timer, whatever [retry-after] header the response carries; an error
    it returns is handed to the callback in place of the failure; any
    other result hands the failure to the callback, not flagged
    [maxRetriesExceeded].  The retry is counted in each case. *)
Theorem retry_strategy_decides :
  forall getRetryTimeout cfg timer t_exec t_answer o e response strategy,
    APIRequest.isRequestRetryable (APIRequest.config_request cfg) = true ->
    APIRequest.isJWT (APIRequest.config_request cfg) = false ->
    APIRequest.retryStrategy cfg = Some strategy ->
    0 < APIRequest.numMaxRetries cfg ->
    APIRequest.classify o = (Some e, response) ->
    let req := APIRequest.request_lib (APIRequest.config_request cfg) in
    let e' := APIRequest.attach e (APIRequest.cleanSensitiveHeaders req) response in
    let retryOptions :=
      {| APIRequest.error := e';
         APIRequest.numRetryAttempts := 1;
         APIRequest.opt_numMaxRetries := APIRequest.numMaxRetries cfg;
         APIRequest.opt_retryIntervalMS := APIRequest.retryIntervalMS cfg;
         APIRequest.totalElapsedTimeMS := t_answer - default t_exec timer |} in
    exists this',
      APIRequest.run getRetryTimeout (APIRequest.constructor cfg) true timer
        [(t_exec, t_answer, o)]
      = Js.Ret (this',
                [APIRequest.Send true req;
                 APIRequest.Emit (Some e') None;
                 match strategy retryOptions with
                 | APIRequest.Wait ms => APIRequest.SetTimeout (Js.Num ms)
                 | APIRequest.Fail e2 => APIRequest.Callback (Some e2) None
                 | APIRequest.Other => APIRequest.Callback (Some e') None
                 end])
      /\ APIRequest.numRetries this' = Some 1
      /\ APIRequest.maxRetriesExceeded e' = APIRequest.maxRetriesExceeded e.
Proof.
  intros gRT cfg timer t_exec t_answer o e response strategy
         Hretry Hjwt Hstrat Hmax Hcl req e' retryOptions.
  rewrite run_first. cbv zeta. unfold APIRequest._handleResponse.
  cbn [APIRequest.this_request APIRequest.with_request APIRequest.with_callback
         APIRequest.constructor APIRequest.config APIRequest.isRetryable].
  rewrite Hcl, Hretry, Hjwt. cbn [andb negb].
  unfold APIRequest._retry.
  cbn [APIRequest.numRetries APIRequest.with_request APIRequest.with_callback
         APIRequest.with_numRetries APIRequest.config APIRequest.constructor].
  rewrite Hstrat.
  destruct (Z.ltb_spec 0 (APIRequest.numMaxRetries cfg)) as [_|]; [|lia].
  change (0 + 1) with 1.
  change (APIRequest.elapsed_since (Some (default t_exec timer)) t_answer)
    with (t_answer - default t_exec timer).
  fold req. fold e'. fold retryOptions.
  destruct (strategy retryOptions); cbn; eexists; repeat split; reflexivity.
Qed.

(** X6 at a strategy that waits 250 ms, for a request answered 429 with
    [retry-after: 7], an earlier request having started the timer at
    time 10. *)
Lemma retry_strategy_decides_witness :
  let cfg := {| APIRequest.numMaxRetries := 5; APIRequest.retryIntervalMS := 2000;
                APIRequest.retryStrategy := Some (fun _ => APIRequest.Wait 250);
                APIRequest.config_request :=
                  {| APIRequest.opt_method := "GET";
                     APIRequest.opt_url := "https://api.box.com/2.0/files/1";
                     APIRequest.opt_headers := None; APIRequest.form := None;
                     APIRequest.formData := Js.VUndefined |} |} in
  let r := {| Http.statusCode := 429;
              Http.response_headers := Some (<["retry-after" := "7"]> ∅);
              Http.body := Http.BodyUndefined |} in
  let req := APIRequest.request_lib (APIRequest.config_request cfg) in
  let e' := APIRequest.attach (APIRequest.createErrorForResponse r)
              (APIRequest.cleanSensitiveHeaders req) (Some r) in
  exists this',
    APIRequest.run (fun _ _ => 0) (APIRequest.constructor cfg) true (Some 10)
      [(100, 130, APIRequest.Responded r)]
    = Js.Ret (this', [APIRequest.Send true req;
                      APIRequest.Emit (Some e') None;
                      APIRequest.SetTimeout (Js.Num 250)])
    /\ APIRequest.numRetries this' = Some 1.
Proof.
  intros cfg r req e'.
  destruct (retry_strategy_decides (fun _ _ => 0) cfg (Some 10) 100 130
              (APIRequest.Responded r) (APIRequest.createErrorForResponse r)
              (Some r) (fun _ => APIRequest.Wait 250)
              eq_refl eq_refl eq_refl eq_refl eq_refl)
    as (this' & Hrun & Hn & _).
  exists this'. split; [exact Hrun|exact Hn].
Defined.

(** ** What a granted token is *)

Section GrantedTokens.
Import Http TokenManager.

(** A body on which [isValidTokenResponse] answers true is a JSON
    object. *)
Lemma isValidTokenResponse_true (grantType : string) (b : Body) :
  is_buffer b = false ->
  isValidTokenResponse grantType b = Js.Ret true ->
  exists ps, b = BodyJson (Js.JObj ps) /\ token_fields_ok grantType ps = true.
Proof.
  intros Hbuf H. destruct b as [|bytes|j]; try discriminate.
  destruct j as [|x|z|s|items|ps]; try discriminate.
  exists ps. split; [reflexivity|].
  rewrite isValidTokenResponse_object in H. congruence.
Qed.

(** What [getTokens] resolves to, and from what. *)
Lemma getTokens_resolved_inv (grant_type : string)
      (answer : GrantError + RawResponse) (now : Z) (tokenInfo : TokenInfo) :
  getTokens grant_type answer now = Resolved tokenInfo ->
  exists response ps access_token expires_in,
    answer = inr response
    /\ statusCode response = 200
    /\ body response = BodyJson (Js.JObj ps)
    /\ is_invalid_grant (body response) = false
    /\ token_fields_ok grant_type ps = true
    /\ Js.jget "access_token" ps = Some (Js.JStr access_token)
    /\ access_token <> ""
    /\ Js.jget "expires_in" ps = Some (Js.JNum expires_in)
    /\ tokenInfo = {| accessToken := Some (Js.JStr access_token);
                      refreshToken := Js.jget "refresh_token" ps;
                      accessTokenTTLMS :=
                        Some (Js.mul (Js.parseInt (Some (Js.JNum expires_in)))
                                     (Js.Num 1000));
                      acquiredAtMS := Some (Js.Num now) |}.
Proof.
  destruct answer as [e|response]; [discriminate|].
  unfold getTokens, getTokens_then.
  destruct (is_invalid_grant (body response)) eqn:Hgrant; [discriminate|].
  destruct (Z.eqb_spec (statusCode response) OK) as [Hstatus|]; [|discriminate].
  destruct (is_buffer (body response)) eqn:Hbuf; [discriminate|].
  cbn [negb orb].
  destruct (isValidTokenResponse grant_type (body response)) as [[|]|] eqn:Hvalid;
    try discriminate.
  destruct (isValidTokenResponse_true _ _ Hbuf Hvalid) as (ps & Hbody & Hok).
  rewrite Hbody. unfold getTokensFromGrantResponse. cbn [body_prop Js.bind].
  pose proof Hok as Hfields. unfold token_fields_ok in Hfields.
  apply andb_prop in Hfields. destruct Hfields as [Hfields _].
  apply andb_prop in Hfields. destruct Hfields as [Ha He].
  destruct (Js.jget "access_token" ps) as [[| | |a| |]|] eqn:Hget; try discriminate.
  destruct (Js.jget "expires_in" ps) as [[| |z| | |]|] eqn:Hexp; try discriminate.
  intros [= <-]. exists response, ps, a, z.
  repeat (split; [first [reflexivity | assumption]|]).
  split.
  { intros ->. discriminate Ha. }
  split; [exact Hexp|]. reflexivity.
Qed.

(** The TTL that [getTokensFromGrantResponse] computes from a number
    [expires_in]. *)
Lemma parsed_ttl (expires_in : Z) :
  (Z.abs expires_in < 10 ^ 21 ->
   Js.mul (Js.parseInt (Some (Js.JNum expires_in))) (Js.Num 1000)
   = Js.Num (expires_in * 1000))
  /\ exists ttl,
      Js.mul (Js.parseInt (Some (Js.JNum expires_in))) (Js.Num 1000) = Js.Num ttl.
Proof.
  unfold Js.parseInt. cbn [Js.json_toString]. split.
  - intros Hlt. rewrite parseInt_Number_toString by exact Hlt. reflexivity.
  - destruct (parseInt_Number_toString_number expires_in) as [n ->].
    eexists. reflexivity.
Qed.

End GrantedTokens.

(** X7: whatever the token endpoint answers, a TokenInfo comes out of
    [getTokens] only from an HTTP 200 answer whose body is a JSON object
    that is not an [invalid_grant] error; its [accessToken] is then the
    body's non-empty string [access_token], its [accessTokenTTLMS] is
    the body's number [expires_in] times 1000 when [expires_in] is below
    10^21 in magnitude, and a number (never [NaN]) for every finite
    [expires_in], its
    [acquiredAtMS] the clock read by the handler, and for the
    [authorization_code] and [refresh_token] grants its [refreshToken]
    is a non-empty string.  A rejection of the request itself is passed
    on unchanged.  The bound is sharp: [String(1e21)] is ["1e+21"], of
    which [parseInt] reads the 1, so that [expires_in = 10^21] yields a
    TTL of 1000. *)
Theorem getTokens_resolves_only_wellformed_tokens :
  (forall grant_type answer now tokenInfo,
      TokenManager.getTokens grant_type answer now = TokenManager.Resolved tokenInfo ->
      exists response ps access_token expires_in,
        answer = inr response
        /\ Http.statusCode response = 200
        /\ Http.body response = Http.BodyJson (Js.JObj ps)
        /\ TokenManager.is_invalid_grant (Http.body response) = false
        /\ TokenManager.accessToken tokenInfo = Some (Js.JStr access_token)
        /\ access_token <> ""
        /\ Js.jget "access_token" ps = Some (Js.JStr access_token)
        /\ Js.jget "expires_in" ps = Some (Js.JNum expires_in)
        /\ (Z.abs expires_in < 10 ^ 21 ->
            TokenManager.accessTokenTTLMS tokenInfo
            = Some (Js.Num (expires_in * 1000)))
        /\ (Z.abs expires_in < 10 ^ 308 ->
            exists ttl, TokenManager.accessTokenTTLMS tokenInfo = Some (Js.Num ttl))
        /\ TokenManager.acquiredAtMS tokenInfo = Some (Js.Num now)
        /\ TokenManager.refreshToken tokenInfo = Js.jget "refresh_token" ps
        /\ (TokenManager.requires_refresh_token grant_type = true ->
            exists refresh_token,
              TokenManager.refreshToken tokenInfo = Some (Js.JStr refresh_token)
              /\ refresh_token <> ""))
  /\ (forall grant_type e now,
         TokenManager.getTokens grant_type (inl e) now = TokenManager.Rejected e)
  /\ (forall now,
         TokenManager.getTokens "client_credentials"
           (inr {| Http.statusCode := 200; Http.response_headers := Some ∅;
                   Http.body :=
                     Http.BodyJson
                       (Js.JObj [("access_token", Js.JStr "a1");
                                 ("expires_in", Js.JNum (10 ^ 21))]) |})
           now
         = TokenManager.Resolved
             {| TokenManager.accessToken := Some (Js.JStr "a1");
                TokenManager.refreshToken := None;
                TokenManager.accessTokenTTLMS := Some (Js.Num 1000);
                TokenManager.acquiredAtMS := Some (Js.Num now) |}).
Proof.
  split; [|split; [reflexivity|intros now; vm_compute; reflexivity]].
  intros grant_type answer now tokenInfo H.
  destruct (getTokens_resolved_inv _ _ _ _ H)
    as (response & ps & a & z & -> & Hs & Hb & Hg & Hok & Ha & Hne & He & ->).
  exists response, ps, a, z. cbn [TokenManager.accessToken
    TokenManager.accessTokenTTLMS TokenManager.acquiredAtMS
    TokenManager.refreshToken].
  destruct (parsed_ttl z) as [Hsmall [ttl Httl]].
  repeat (split; [first [reflexivity | assumption]|]).
  split; [intros Hlt; rewrite (Hsmall Hlt); reflexivity|].
  split; [intros _; exists ttl; rewrite Httl; reflexivity|].
  repeat (split; [first [reflexivity | assumption]|]).
  intros Hreq. unfold TokenManager.token_fields_ok in Hok. rewrite Hreq in Hok.
  apply andb_prop in Hok. destruct Hok as [_ Hr]. cbn in Hr.
  destruct (Js.jget "refresh_token" ps) as [[| | |r| |]|]; try discriminate.
  exists r. split; [reflexivity|]. intros ->. discriminate Hr.
Qed.

(** X8: a token granted at time [now] with [expires_in = e] seconds,
    [e] below 10^21 in magnitude, is valid, for a buffer of [b]
    milliseconds (none counting as 0), at exactly the times before
    [now + 1000 e - b]: the parsing of [getTokens] and the check of
    [isAccessTokenValid] agree on the unit. *)
Theorem granted_token_validity_window :
  forall grant_type answer now tokenInfo,
    TokenManager.getTokens grant_type answer now = TokenManager.Resolved tokenInfo ->
    exists response ps expires_in,
      answer = inr response
      /\ Http.body response = Http.BodyJson (Js.JObj ps)
      /\ Js.jget "expires_in" ps = Some (Js.JNum expires_in)
      /\ (Z.abs expires_in < 10 ^ 21 ->
          forall (bufferMS : option Z) (t : Z),
            TokenManager.isAccessTokenValid tokenInfo (option_map Js.Num bufferMS) t
            = true
            <-> t < now + 1000 * expires_in - default 0 bufferMS).
Proof.
  intros grant_type answer now tokenInfo H.
  destruct (getTokens_resolved_inv _ _ _ _ H)
    as (response & ps & a & z & -> & Hs & Hb & Hg & Hok & Ha & Hne & He & ->).
  exists response, ps, z.
  split; [reflexivity|]. split; [exact Hb|]. split; [exact He|].
  intros Hlt bufferMS t. unfold TokenManager.isAccessTokenValid.
  cbn [TokenManager.acquiredAtMS TokenManager.accessTokenTTLMS].
  rewrite (proj1 (parsed_ttl z) Hlt).
  destruct bufferMS as [b|]; cbn.
  - destruct (Z.eqb_spec b 0) as [->|Hb0]; cbn; rewrite Z.ltb_lt; lia.
  - rewrite Z.ltb_lt; lia.
Qed.

(** X8 at the refresh-token scenario: granted at [T] with
    [expires_in = 3600], the token is valid one millisecond before
    [T + 3600000]. *)
Lemma granted_token_validity_window_witness :
  let tokenInfo :=
    {| TokenManager.accessToken := Some (Js.JStr "a1");
       TokenManager.refreshToken := Some (Js.JStr "r1");
       TokenManager.accessTokenTTLMS := Some (Js.Num 3600000);
       TokenManager.acquiredAtMS := Some (Js.Num 1700000000000) |} in
  TokenManager.isAccessTokenValid tokenInfo (option_map Js.Num None) 1700003599999
  = true.
Proof.
  intros tokenInfo.
  destruct (granted_token_validity_window "refresh_token"
              (inr {| Http.statusCode := 200; Http.response_headers := Some ∅;
                      Http.body :=
                        Http.BodyJson
                          (Js.JObj [("access_token", Js.JStr "a1");
                                    ("refresh_token", Js.JStr "r1");
                                    ("expires_in", Js.JNum 3600)]) |})
              1700000000000 tokenInfo eq_refl)
    as (response & ps & expires_in & Hr & Hb & He & Hw).
  injection Hr as <-. injection Hb as <-. injection He as <-.
  apply (Hw ltac:(cbn; lia) None). cbn. lia.
Defined.

(** X9: validity only shrinks with time and with the buffer.  A token
    that [isAccessTokenValid] accepts at time [t] with buffer [b] is
    accepted at every earlier time and with every smaller buffer; so a
    token found invalid stays invalid, and a larger buffer never makes
    a token valid. *)
Theorem isAccessTokenValid_antitone :
  forall tokenInfo (b b' t t' : Z),
    TokenManager.isAccessTokenValid tokenInfo (Some (Js.Num b)) t = true ->
    t' <= t -> b' <= b ->
    TokenManager.isAccessTokenValid tokenInfo (Some (Js.Num b')) t' = true.
Proof.
  intros tokenInfo b b' t t' H Ht Hb.
  unfold TokenManager.isAccessTokenValid in *.
  destruct (TokenManager.acquiredAtMS tokenInfo) as [[acquired|]|];
    destruct (TokenManager.accessTokenTTLMS tokenInfo) as [[ttl|]|];
    try discriminate;
    try (destruct (b =? 0); discriminate).
  destruct (Z.eqb_spec b 0) as [->|Hb0]; destruct (Z.eqb_spec b' 0) as [->|Hb0'];
    cbn in *; rewrite Z.ltb_lt in *; lia.
Qed.

(** X9 at a token acquired at 0 with a TTL of 3600000 ms: valid at
    3000000 with a buffer of 180000, hence at 2000000 without buffer. *)
Lemma isAccessTokenValid_antitone_witness :
  TokenManager.isAccessTokenValid
    {| TokenManager.accessToken := Some (Js.JStr "a1");
       TokenManager.refreshToken := None;
       TokenManager.accessTokenTTLMS := Some (Js.Num 3600000);
       TokenManager.acquiredAtMS := Some (Js.Num 0) |}
    (Some (Js.Num 0)) 2000000 = true.
Proof.
  apply (isAccessTokenValid_antitone _ 180000 0 3000000 2000000);
    [reflexivity | lia | lia].
Defined.

(** ** The retries of a JWT grant *)

Section JWTChain.
Import Http TokenManager JWTGrant.

Variable getRetryTimeout : Z -> Z -> Z.
Variable Date_parse : string -> Js.number.
Variable jwt_sign : Js.number -> string -> Js.result string.

(** [retryJWTGrant] goes on only within the budget, and counts one
    retry. *)
Lemma retryJWTGrant_delay (cfg : Config) (err : GrantError)
      (numRetries elapsed now : Z) (uuid : string) ms exp jwtid assertion n' :
  retryJWTGrant getRetryTimeout Date_parse jwt_sign cfg err numRetries elapsed now uuid
  = Delay ms exp jwtid assertion n' ->
  numRetries < numMaxRetries cfg /\ n' = numRetries + 1.
Proof.
  unfold retryJWTGrant.
  destruct (Z.ltb_spec numRetries (numMaxRetries cfg)) as [Hlt|Hge].
  - destruct (isJWTAuthErrorRetryable err) as [[|]|]; try discriminate.
    + destruct (choose_timeout _ _ _ _ _) as [e|t]; try discriminate.
      destruct (err_response err) as [r|]; try discriminate.
      destruct (response_headers r) as [h|]; try discriminate.
      destruct (jwt_sign _ _); try discriminate.
      intros [= _ _ _ _ <-]. split; [exact Hlt|reflexivity].
    + destruct (_ <=? _); discriminate.
  - destruct (_ <=? _); discriminate.
Qed.

(** [retryJWTGrant] when the budget is spent: the error is flagged and
    thrown, and nothing else is looked at. *)
Lemma retryJWTGrant_spent (cfg : Config) (err : GrantError)
      (numRetries elapsed now : Z) (uuid : string) :
  numMaxRetries cfg <= numRetries ->
  retryJWTGrant getRetryTimeout Date_parse jwt_sign cfg err numRetries elapsed now uuid
  = Throws (set_maxRetriesExceeded err).
Proof.
  intros Hge. unfold retryJWTGrant.
  destruct (Z.ltb_spec numRetries (numMaxRetries cfg)); [lia|].
  destruct (Z.leb_spec (numMaxRetries cfg) numRetries); [reflexivity|lia].
Qed.

Lemma chain_bound (cfg : Config) (answers : list Answer) :
  forall numRetries,
    let r := chain getRetryTimeout Date_parse jwt_sign cfg numRetries answers in
    (length (fst r) <= Z.to_nat (numMaxRetries cfg - numRetries))%nat
    /\ (snd r = None -> length answers = length (fst r))
    /\ (forall i step, nth_error (fst r) i = Some step ->
                       count step = Some (numRetries + Z.of_nat i + 1)).
Proof.
  induction answers as [|a rest IH]; intros numRetries; cbn [chain].
  - cbn. split; [lia|]. split; [reflexivity|]. intros [|i] step H; discriminate H.
  - destruct (getTokens JWT (answer a) (now a)) as [tokenInfo|err].
    + cbn. split; [lia|]. split; [discriminate|].
      intros [|i] step H; discriminate H.
    + destruct (retryJWTGrant _ _ _ cfg err numRetries (elapsed a) (now a) (uuid a))
        as [e|ms exp jwtid assertion n'] eqn:Hstep.
      * cbn. split; [lia|]. split; [discriminate|].
        intros [|i] step H; discriminate H.
      * apply retryJWTGrant_delay in Hstep. destruct Hstep as [Hlt ->].
        specialize (IH (numRetries + 1)). cbv zeta in IH.
        destruct (chain _ _ _ cfg (numRetries + 1) rest) as [retries settled].
        cbn [fst snd] in IH |- *. destruct IH as (Hlen & Hnone & Hcount).
        split; [cbn [length]; lia|].
        split; [intros H; cbn [length]; rewrite (Hnone H); reflexivity|].
        intros [|i] step H; cbn in H.
        -- injection H as <-. cbn. f_equal. lia.
        -- rewrite (Hcount i step H). f_equal. lia.
Qed.

(** A retryable error with a response that has headers is retried
    while the budget lasts. *)
Lemma retryable_retried (cfg : Config) (a : Answer) (err : GrantError)
      (r : RawResponse) (h : gmap string string) (numRetries : Z) :
  retryStrategy cfg = None ->
  (forall exp uuid, exists assertion, jwt_sign exp uuid = Js.Ret assertion) ->
  isJWTAuthErrorRetryable err = Js.Ret true ->
  err_response err = Some r ->
  response_headers r = Some h ->
  numRetries < numMaxRetries cfg ->
  exists ms exp assertion,
    retryJWTGrant getRetryTimeout Date_parse jwt_sign cfg err
      numRetries (elapsed a) (now a) (uuid a)
    = Delay ms exp (uuid a) assertion (numRetries + 1).
Proof.
  intros Hstrat Hsign Hretry Hr Hh Hlt.
  unfold retryJWTGrant. rewrite Hretry.
  destruct (Z.ltb_spec numRetries (numMaxRetries cfg)); [|lia].
  unfold choose_timeout. rewrite Hstrat, Hr, Hh.
  destruct (retry_after _);
    match goal with
    | |- context [jwt_sign ?e ?u] => destruct (Hsign e u) as [x Hx]; rewrite Hx
    end; eexists _, _, _; reflexivity.
Qed.

(** A grant whose requests all fail with a retryable error retries as
    long as the budget lasts, and then rejects with the error of the
    last answer, flagged. *)
Lemma chain_exhausted (cfg : Config) (front : list Answer) :
  forall (numRetries : Z) (a : Answer) (err : GrantError),
    retryStrategy cfg = None ->
    (forall exp uuid, exists assertion, jwt_sign exp uuid = Js.Ret assertion) ->
    Z.of_nat (length front) = numMaxRetries cfg - numRetries ->
    Forall (fun x => exists e r h,
                getTokens JWT (answer x) (now x) = Rejected e
                /\ isJWTAuthErrorRetryable e = Js.Ret true
                /\ err_response e = Some r
                /\ response_headers r = Some h) front ->
    getTokens JWT (answer a) (now a) = Rejected err ->
    exists retries,
      chain getRetryTimeout Date_parse jwt_sign cfg numRetries (front ++ [a])
      = (retries, Some (Rejected (set_maxRetriesExceeded err)))
      /\ length retries = length front.
Proof.
  induction front as [|x front IH];
    intros numRetries a err Hstrat Hsign Hlen Hall Hlast.
  - cbn [app chain]. rewrite Hlast.
    rewrite retryJWTGrant_spent by (cbn in Hlen; lia).
    exists []. split; reflexivity.
  - inversion Hall as [|? ? (e & r & h & Hx & Hretry & Hr & Hh) Hrest]; subst.
    cbn [app chain]. rewrite Hx.
    destruct (retryable_retried cfg x e r h numRetries Hstrat Hsign Hretry Hr Hh)
      as (ms & exp & assertion & ->); [cbn [length] in Hlen; lia|].
    destruct (IH (numRetries + 1) a err Hstrat Hsign) as (retries & -> & Hl);
      [cbn [length] in Hlen; lia | exact Hrest | exact Hlast |].
    eexists. split; [reflexivity|]. cbn [length]. rewrite Hl. reflexivity.
Qed.

(** What the token manager gets for a request that is told to come
    back: the executor of a JWT grant request does not retry, so that
    [makeRequest] rejects with the executor's status error when the
    status is temporary, and resolves with the response otherwise, of
    which [getTokens] makes an unexpected-response error. *)
Lemma busy_comes_back (ecfg : APIRequest.Config) (a : Answer)
      (response : RawResponse) :
  APIRequest.isJWT (APIRequest.config_request ecfg) = true ->
  GrantTransport.busy getRetryTimeout ecfg a response ->
  exists err h,
    getTokens JWT (answer a) (now a) = Rejected err
    /\ isJWTAuthErrorRetryable err = Js.Ret true
    /\ err_response err = Some response
    /\ response_headers response = Some h
    /\ err_statusCode err = Some (statusCode response)
    /\ authExpired err = false
    /\ maxRetriesExceeded err = false
    /\ source err = if APIRequest.isTemporaryError response
                    then FromRequest else UnexpectedResponseError.
Proof.
  intros Hjwt ((timer & t_exec & t_answer & Hmake) & Hstatus & Hgrant & Hhead).
  destruct (response_headers response) as [h|] eqn:Hh; [|congruence].
  assert (Hretry : status_retryable (Some (statusCode response)) = true).
  { cbn. apply orb_true_iff. rewrite Z.eqb_eq, Z.leb_le. exact Hstatus. }
  unfold GrantTransport.makeRequest in Hmake. rewrite run_first in Hmake.
  cbv zeta in Hmake. unfold APIRequest._handleResponse in Hmake.
  cbn [APIRequest.this_request APIRequest.with_request APIRequest.with_callback
         APIRequest.constructor APIRequest.config APIRequest.isRetryable
         APIRequest.classify] in Hmake.
  rewrite Hjwt, andb_false_r in Hmake.
  destruct (APIRequest.isTemporaryError response) eqn:Htemp;
    cbn in Hmake; injection Hmake as Hanswer; rewrite <- Hanswer.
  - eexists _, h. split; [reflexivity|].
    split; [unfold isJWTAuthErrorRetryable; cbn -[status_retryable];
            rewrite Hretry; reflexivity|].
    repeat (split; [reflexivity|]). reflexivity.
  - exists (buildUnexpectedResponseError response), h.
    split.
    { unfold getTokens, getTokens_then. rewrite Hgrant. unfold OK.
      destruct (Z.eqb_spec (statusCode response) 200) as [H200|_]; [lia|].
      reflexivity. }
    split; [unfold isJWTAuthErrorRetryable; cbn -[status_retryable];
            rewrite Hretry; reflexivity|].
    repeat (split; [reflexivity|]). reflexivity.
Qed.

End JWTChain.

(** X10: the retries of a JWT grant stay within the budget.  Once
    [getTokensJWTGrant] has signed its first assertion, it signs anew
    and retries at most [numMaxRetries] times, whatever the endpoint
    answers and whatever the retry strategy is; the retries are counted
    1, 2, 3, ...; and the promise is left pending only when a request
    got no answer, so that [numMaxRetries + 1] answers always settle
    it. *)
Theorem jwt_grant_retries_within_budget :
  forall getRetryTimeout Date_parse jwt_sign cfg appAuth now uuid answers,
    match JWTGrant.getTokensJWTGrant getRetryTimeout Date_parse jwt_sign
            cfg appAuth now uuid answers with
    | JWTGrant.Requested exp jwtid assertion retries settled =>
        (length retries <= Z.to_nat (TokenManager.numMaxRetries cfg))%nat
        /\ (settled = None -> length answers = length retries)
        /\ (forall i step, nth_error retries i = Some step ->
                           JWTGrant.count step = Some (Z.of_nat i + 1))
    | _ => True
    end.
Proof.
  intros gRT Dp sign cfg appAuth now uuid answers.
  unfold JWTGrant.getTokensJWTGrant.
  destruct (Js.member appAuth "keyID") as [keyID|]; [|exact I].
  destruct (negb (Js.truthy keyID)); [exact I|].
  destruct (sign _ _); [|exact I].
  pose proof (chain_bound gRT Dp sign cfg answers 0) as H. cbv zeta in H.
  destruct (JWTGrant.chain gRT Dp sign cfg 0 answers) as [retries settled].
  cbn [fst snd] in H. rewrite Z.sub_0_r in H. exact H.
Qed.

(** X11: with the built-in policy, a JWT grant whose every request,
    made through [makeRequest] and the request executor, is answered 429
    or with a status of 500 and above is retried [numMaxRetries] times
    and then rejected with the error of the last answer, flagged
    [maxRetriesExceeded]; with [numMaxRetries = 0] the first such answer
    rejects it.  That error carries the response and its status; it is
    the executor's status error, passed on by [makeRequest], when the
    executor takes the status for temporary (429, 500..599 but 507), and
    the unexpected-response error of [getTokens] otherwise (507). *)
Theorem jwt_grant_exhausts_its_budget :
  forall getRetryTimeout Date_parse jwt_sign cfg ecfg appAuth now uuid
         front last response keyID assertion,
    Js.member appAuth "keyID" = Js.Ret keyID ->
    Js.truthy keyID = true ->
    TokenManager.retryStrategy cfg = None ->
    (forall exp uuid, exists assertion, jwt_sign exp uuid = Js.Ret assertion) ->
    jwt_sign (Js.add (Js.Num (now / 1000))
                     (Js.Num (TokenManager.expirationTime cfg))) uuid
    = Js.Ret assertion ->
    Z.of_nat (length front) = TokenManager.numMaxRetries cfg ->
    APIRequest.isJWT (APIRequest.config_request ecfg) = true ->
    Forall (fun x => exists r, GrantTransport.busy getRetryTimeout ecfg x r) front ->
    GrantTransport.busy getRetryTimeout ecfg last response ->
    exists retries err,
      JWTGrant.getTokensJWTGrant getRetryTimeout Date_parse jwt_sign
        cfg appAuth now uuid (front ++ [last])
      = JWTGrant.Requested
          (Js.add (Js.Num (now / 1000)) (Js.Num (TokenManager.expirationTime cfg)))
          uuid assertion retries
          (Some (TokenManager.Rejected (TokenManager.set_maxRetriesExceeded err)))
      /\ length retries = length front
      /\ TokenManager.err_statusCode err = Some (Http.statusCode response)
      /\ TokenManager.err_response err = Some response
      /\ TokenManager.authExpired err = false
      /\ TokenManager.source err
         = if APIRequest.isTemporaryError response
           then TokenManager.FromRequest
           else TokenManager.UnexpectedResponseError.
Proof.
  intros gRT Dp sign cfg ecfg appAuth now uuid front last response keyID assertion
         Hkey Htruthy Hstrat Hsign Hfirst Hlen Hjwt Hall Hbusy.
  unfold JWTGrant.getTokensJWTGrant. rewrite Hkey, Htruthy. cbn [negb].
  rewrite Hfirst.
  destruct (busy_comes_back gRT ecfg last response Hjwt Hbusy)
    as (err & h & Hlast & _ & Hresp & _ & Hcode & Hauth & _ & Hsource).
  destruct (chain_exhausted gRT Dp sign cfg front 0 last err Hstrat Hsign)
    as (retries & -> & Hl); [lia | | exact Hlast |].
  { eapply Forall_impl; [exact Hall|]. cbv beta.
    intros x [r Hx].
    destruct (busy_comes_back gRT ecfg x r Hjwt Hx)
      as (e & hx & He & Hretry & Hr & Hh & _).
    exists e, r, hx. auto. }
  exists retries, err. split; [reflexivity|]. auto.
Qed.

(** X11 at [numMaxRetries = 1]: a 503 and then a 429, each handed over
    by the executor as its status error. *)
Lemma jwt_grant_exhausts_its_budget_witness :
  let cfg := {| TokenManager.numMaxRetries := 1;
                TokenManager.retryIntervalMS := 2000;
                TokenManager.retryStrategy := None;
                TokenManager.expirationTime := 30 |} in
  let ecfg := {| APIRequest.numMaxRetries := 1; APIRequest.retryIntervalMS := 2000;
                 APIRequest.retryStrategy := None;
                 APIRequest.config_request :=
                   {| APIRequest.opt_method := "POST";
                      APIRequest.opt_url := "https://api.box.com/oauth2/token";
                      APIRequest.opt_headers := None;
                      APIRequest.form :=
                        Some [("grant_type",
                               Js.VStr "urn:ietf:params:oauth:grant-type:jwt-bearer");
                              ("assertion", Js.VStr "signed u0")];
                      APIRequest.formData := Js.VUndefined |} |} in
  let status c := {| Http.statusCode := c; Http.response_headers := Some ∅;
                     Http.body := Http.BodyUndefined |} in
  let rejected c :=
    inl {| TokenManager.source := TokenManager.FromRequest;
           TokenManager.authExpired := false;
           TokenManager.err_statusCode := Some c;
           TokenManager.err_response := Some (status c);
           TokenManager.maxRetriesExceeded := false |} in
  let sign := fun (_ : Js.number) (jwtid : string) => Js.Ret ("signed " +:+ jwtid) in
  exists retries,
    JWTGrant.getTokensJWTGrant (fun _ _ => 2000) (fun _ => Js.NaN) sign
      cfg (Js.VObj true [("keyID", Js.VStr "k1")]) 1700000000000 "u0"
      [ {| JWTGrant.answer := rejected 503; JWTGrant.now := 1700000000100;
           JWTGrant.elapsed := 100; JWTGrant.uuid := "u1" |};
        {| JWTGrant.answer := rejected 429; JWTGrant.now := 1700000000300;
           JWTGrant.elapsed := 100; JWTGrant.uuid := "u2" |} ]
    = JWTGrant.Requested (Js.Num 1700000030) "u0" "signed u0" retries
        (Some (TokenManager.Rejected
                 {| TokenManager.source := TokenManager.FromRequest;
                    TokenManager.authExpired := false;
                    TokenManager.err_statusCode := Some 429;
                    TokenManager.err_response := Some (status 429);
                    TokenManager.maxRetriesExceeded := true |}))
    /\ length retries = 1%nat.
Proof.
  intros cfg ecfg status rejected sign.
  destruct (jwt_grant_exhausts_its_budget (fun _ _ => 2000) (fun _ => Js.NaN) sign
              cfg ecfg (Js.VObj true [("keyID", Js.VStr "k1")]) 1700000000000 "u0"
              [ {| JWTGrant.answer := rejected 503; JWTGrant.now := 1700000000100;
                   JWTGrant.elapsed := 100; JWTGrant.uuid := "u1" |} ]
              {| JWTGrant.answer := rejected 429; JWTGrant.now := 1700000000300;
                 JWTGrant.elapsed := 100; JWTGrant.uuid := "u2" |}
              (status 429) (Js.VStr "k1") "signed u0")
    as (retries & err & Hrun & Hlen & Hcode & Hresp & Hauth & Hsource).
  - reflexivity.
  - reflexivity.
  - reflexivity.
  - intros exp uuid. eexists. reflexivity.
  - reflexivity.
  - reflexivity.
  - reflexivity.
  - repeat constructor. exists (status 503).
    split; [exists None, 0, 1; reflexivity|].
    repeat split; [right; cbn; lia | discriminate].
  - split; [exists None, 0, 1; reflexivity|].
    repeat split; [left; reflexivity | discriminate].
  - exists retries. split; [|exact Hlen].
    etransitivity; [exact Hrun|]. do 3 f_equal.
    destruct err as [src auth code resp flag]. cbn in Hcode, Hresp, Hauth, Hsource.
    subst. reflexivity.
Defined.

(** X12: when the failed answer carries a non-empty [date] header, the
    retry of a JWT grant does not depend on the local clock: the
    expiry claim of the new assertion is computed from the server's
    date, so the same step is taken whatever [Date.now()] reads. *)
Theorem jwt_retry_uses_server_date :
  forall getRetryTimeout Date_parse jwt_sign cfg err numRetries elapsed
         (now now' : Z) uuid r h d,
    TokenManager.err_response err = Some r ->
    Http.response_headers r = Some h ->
    h !! "date" = Some d ->
    d <> "" ->
    TokenManager.retryJWTGrant getRetryTimeout Date_parse jwt_sign cfg err
      numRetries elapsed now uuid
    = TokenManager.retryJWTGrant getRetryTimeout Date_parse jwt_sign cfg err
        numRetries elapsed now' uuid.
Proof.
  intros gRT Dp sign cfg err n elapsed now now' uuid r h d Hr Hh Hd Hne.
  unfold TokenManager.retryJWTGrant. rewrite Hr, Hh, Hd.
  destruct (String.eqb_spec d "") as [->|_]; [congruence|]. reflexivity.
Qed.

(** X12 at a 503 answer dated by the server, handled at two different
    local times. *)
Lemma jwt_retry_uses_server_date_witness :
  let cfg := {| TokenManager.numMaxRetries := 5;
                TokenManager.retryIntervalMS := 2000;
                TokenManager.retryStrategy := None;
                TokenManager.expirationTime := 30 |} in
  let r := {| Http.statusCode := 503;
              Http.response_headers :=
                Some (<["date" := "Sun, 01 Nov 2026 00:00:00 GMT"]> ∅);
              Http.body := Http.BodyUndefined |} in
  let sign := fun (_ : Js.number) (jwtid : string) => Js.Ret ("signed " +:+ jwtid) in
  let parse := fun (_ : string) => Js.Num 1793491200000 in
  TokenManager.retryJWTGrant (fun _ _ => 2000) parse sign cfg
    (TokenManager.buildUnexpectedResponseError r) 0 100 1700000000000 "u1"
  = TokenManager.retryJWTGrant (fun _ _ => 2000) parse sign cfg
      (TokenManager.buildUnexpectedResponseError r) 0 100 42 "u1".
Proof.
  intros cfg r sign parse.
  apply (jwt_retry_uses_server_date (fun _ _ => 2000) parse sign cfg
           (TokenManager.buildUnexpectedResponseError r) 0 100 1700000000000 42 "u1"
           r (<["date" := "Sun, 01 Nov 2026 00:00:00 GMT"]> ∅)
           "Sun, 01 Nov 2026 00:00:00 GMT");
    [reflexivity | reflexivity | reflexivity | discriminate].
Defined.

(** X13: the step of a JWT retry under the built-in backoff.  For a
    retryable error without [retry-after] header, dated by the server,
    with retries left and no retry strategy, [retryJWTGrant] counts the
    retry, takes [s], the backoff [getRetryTimeout(numRetries + 1,
    retryIntervalMS)] divided by 1000 and rounded up, signs an
    assertion that expires at the server's time in seconds plus
    [expirationTime] plus [s], under the fresh [jwtid], and hands the
    number [s] to [Promise.delay]. *)
Theorem jwt_retry_backoff_step :
  forall getRetryTimeout Date_parse jwt_sign cfg err numRetries elapsed now
         uuid r h d (ms : Z) assertion,
    TokenManager.isJWTAuthErrorRetryable err = Js.Ret true ->
    numRetries < TokenManager.numMaxRetries cfg ->
    TokenManager.retryStrategy cfg = None ->
    TokenManager.err_response err = Some r ->
    Http.response_headers r = Some h ->
    h !! "retry-after" = None ->
    h !! "date" = Some d ->
    d <> "" ->
    Date_parse d = Js.Num ms ->
    let s := Js.ceil_divZ
               (getRetryTimeout (numRetries + 1) (TokenManager.retryIntervalMS cfg))
               1000 in
    let exp := Js.Num (ms / 1000 + TokenManager.expirationTime cfg + s) in
    jwt_sign exp uuid = Js.Ret assertion ->
    TokenManager.retryJWTGrant getRetryTimeout Date_parse jwt_sign cfg err
      numRetries elapsed now uuid
    = TokenManager.Delay (Js.Num s) exp uuid assertion (numRetries + 1).
Proof.
  intros gRT Dp sign cfg err n elapsed now uuid r h d ms assertion
         Hretry Hlt Hstrat Hr Hh Hafter Hd Hne Hparse s exp Hsign.
  unfold TokenManager.retryJWTGrant. rewrite Hretry.
  destruct (Z.ltb_spec n (TokenManager.numMaxRetries cfg)); [|lia].
  unfold TokenManager.choose_timeout, TokenManager.retry_after.
  rewrite Hstrat, Hr. cbn [mbind option_bind]. rewrite Hh. cbn [mbind option_bind].
  rewrite Hafter, Hd.
  destruct (String.eqb_spec d "") as [->|_]; [congruence|]. cbn [negb].
  rewrite Hparse. cbn [Js.floor_div Js.add TokenManager.plus_timeout
                         TokenManager.delay_ms].
  fold s. fold exp. rewrite Hsign. reflexivity.
Qed.

(** X13 at a backoff of 2000 ms: the delay handed over is 2. *)
Lemma jwt_retry_backoff_step_witness :
  let cfg := {| TokenManager.numMaxRetries := 5;
                TokenManager.retryIntervalMS := 2000;
                TokenManager.retryStrategy := None;
                TokenManager.expirationTime := 30 |} in
  let r := {| Http.statusCode := 503;
              Http.response_headers :=
                Some (<["date" := "Sun, 01 Nov 2026 00:00:00 GMT"]> ∅);
              Http.body := Http.BodyUndefined |} in
  let sign := fun (_ : Js.number) (jwtid : string) => Js.Ret ("signed " +:+ jwtid) in
  let parse := fun (_ : string) => Js.Num 1793491200000 in
  TokenManager.retryJWTGrant (fun _ _ => 2000) parse sign cfg
    (TokenManager.buildUnexpectedResponseError r) 0 100 1700000000000 "u1"
  = TokenManager.Delay (Js.Num 2) (Js.Num 1793491232) "u1" "signed u1" 1.
Proof.
  intros cfg r sign parse.
  apply (jwt_retry_backoff_step (fun _ _ => 2000) parse sign cfg
           (TokenManager.buildUnexpectedResponseError r) 0 100 1700000000000 "u1"
           r (<["date" := "Sun, 01 Nov 2026 00:00:00 GMT"]> ∅)
           "Sun, 01 Nov 2026 00:00:00 GMT" 1793491200000 "signed u1");
    try reflexivity; discriminate.
Defined.

(** ** Property lists *)

Section PropertyLists.
Import Js.

Lemma get_set_eq (k : string) (v : value) (ps : list (string * value)) :
  get k (set k v ps) = Some v.
Proof.
  induction ps as [|[k' v'] rest IH]; cbn.
  - rewrite String.eqb_refl. reflexivity.
  - destruct (String.eqb k k') eqn:Hk; cbn; rewrite Hk; [reflexivity|exact IH].
Qed.

Lemma get_set_ne (k k' : string) (v : value) (ps : list (string * value)) :
  k <> k' -> get k (set k' v ps) = get k ps.
Proof.
  intros Hne. induction ps as [|[k0 v0] rest IH]; cbn.
  - destruct (String.eqb_spec k k'); [contradiction|reflexivity].
  - destruct (String.eqb_spec k' k0) as [->|Hk0]; cbn.
    + destruct (String.eqb_spec k k0); [contradiction|reflexivity].
    + destruct (String.eqb k k0); [reflexivity|exact IH].
Qed.

Lemma get_delete_ne (k k' : string) (ps : list (string * value)) :
  k <> k' -> get k (delete k' ps) = get k ps.
Proof.
  intros Hne. induction ps as [|[k0 v0] rest IH]; cbn; [reflexivity|].
  destruct (String.eqb_spec k' k0) as [->|Hk0]; cbn.
  - destruct (String.eqb_spec k k0); [contradiction|exact IH].
  - destruct (String.eqb k k0); [reflexivity|exact IH].
Qed.

Lemma get_delete_eq (k : string) (ps : list (string * value)) :
  get k (delete k ps) = None.
Proof.
  induction ps as [|[k0 v0] rest IH]; cbn; [reflexivity|].
  destruct (String.eqb k k0) eqn:Hk; cbn; [exact IH|]. rewrite Hk. exact IH.
Qed.

End PropertyLists.

(** ** The requests of the token manager *)

(** X14: every grant request goes by POST to [apiRootURL/oauth2/token]
    and carries the credentials of the application: whatever form the
    caller hands over, [getTokens] sends it with [client_id] and
    [client_secret] set to the configured values, overriding fields of
    these names, and with every other field untouched; the headers hold
    [X-Forwarded-For] exactly when the options have a truthy [ip], and
    nothing else. *)
Theorem grant_request_carries_client_credentials :
  forall config formParams options,
    let p := TokenRequests.getTokens config formParams options in
    TokenRequests.method p = "POST"
    /\ TokenRequests.url p
       = (TokenRequests.apiRootURL config +:+ "/oauth2") +:+ "/token"
    /\ Js.get "client_id" (TokenRequests.form p)
       = Some (TokenRequests.clientID config)
    /\ Js.get "client_secret" (TokenRequests.form p)
       = Some (TokenRequests.clientSecret config)
    /\ (forall k, k <> "client_id" -> k <> "client_secret" ->
                  Js.get k (TokenRequests.form p) = Js.get k formParams)
    /\ TokenRequests.headers p
       = Some (let ip := TokenRequests.field
                           (if Js.truthy options then options else Js.VObj false [])
                           "ip" in
               if Js.truthy ip then [("X-Forwarded-For", ip)] else []).
Proof.
  intros config formParams options p. subst p. unfold TokenRequests.getTokens; cbn.
  split; [reflexivity|]. split; [reflexivity|].
  split; [rewrite get_set_ne by discriminate; apply get_set_eq|].
  split; [apply get_set_eq|].
  split; [|reflexivity].
  intros k H1 H2. rewrite !get_set_ne by assumption. reflexivity.
Qed.

(** X15: the authorization-code and refresh-token grants make a request
    exactly when they are given a non-empty string.  Any other argument
    (an empty string, [undefined], a number, an object...) rejects the
    promise at once, with the messages ["Invalid authorization code."]
    and ["Invalid refresh token."], and nothing is sent; a non-empty
    string is sent as [code], or [refresh_token], with the grant type
    and the credentials of the application. *)
Theorem code_and_refresh_grants_check_their_argument :
  forall config (v options : Js.value),
    ((forall s, v = Js.VStr s -> s = "") ->
     TokenRequests.getTokensAuthorizationCodeGrant config v options
     = TokenRequests.RejectedAtOnce "Invalid authorization code."
     /\ TokenRequests.getTokensRefreshGrant config v options
        = TokenRequests.RejectedAtOnce "Invalid refresh token.")
    /\ (forall s, v = Js.VStr s -> s <> "" ->
        (exists p,
            TokenRequests.getTokensAuthorizationCodeGrant config v options
            = TokenRequests.Request p
            /\ TokenRequests.form p
               = [("grant_type", Js.VStr "authorization_code"); ("code", v);
                  ("client_id", TokenRequests.clientID config);
                  ("client_secret", TokenRequests.clientSecret config)])
        /\ (exists p,
               TokenRequests.getTokensRefreshGrant config v options
               = TokenRequests.Request p
               /\ TokenRequests.form p
                  = [("grant_type", Js.VStr "refresh_token"); ("refresh_token", v);
                     ("client_id", TokenRequests.clientID config);
                     ("client_secret", TokenRequests.clientSecret config)])).
Proof.
  intros config v options. split.
  - intros Hempty.
    assert (Hinvalid : TokenRequests.isValidCodeOrToken v = false).
    { destruct v; try reflexivity. rewrite (Hempty s eq_refl). reflexivity. }
    unfold TokenRequests.getTokensAuthorizationCodeGrant,
      TokenRequests.getTokensRefreshGrant.
    rewrite Hinvalid. split; reflexivity.
  - intros s -> Hne.
    assert (Hvalid : TokenRequests.isValidCodeOrToken (Js.VStr s) = true).
    { destruct s; [congruence|]. cbn. apply Z.ltb_lt. lia. }
    unfold TokenRequests.getTokensAuthorizationCodeGrant,
      TokenRequests.getTokensRefreshGrant.
    rewrite Hvalid. split; eexists; split; reflexivity.
Qed.

(** ** The token manager and the request executor *)

Section GrantsAndExecutor.
Import Js.

Lemma set_keeps_grant_type (k : string) (v g : value) (ps : list (string * value)) :
  k <> "grant_type" ->
  get "grant_type" ps = Some g ->
  get "grant_type" (set k v ps) = Some g.
Proof. intros Hne H. rewrite get_set_ne by congruence. exact H. Qed.

Lemma getTokens_grant_type (config : TokenRequests.Config)
      (formParams : list (string * value)) (options g : value) :
  get "grant_type" formParams = Some g ->
  get "grant_type" (TokenRequests.form (TokenRequests.getTokens config formParams options))
  = Some g.
Proof.
  intros H. unfold TokenRequests.getTokens; cbn [TokenRequests.form].
  rewrite !get_set_ne by discriminate. exact H.
Qed.

Lemma isJWT_grant_type (o : APIRequest.RequestOptions)
      (form : list (string * value)) (g : string) :
  APIRequest.form o = Some form ->
  get "grant_type" form = Some (VStr g) ->
  APIRequest.isJWT o = String.eqb g "urn:ietf:params:oauth:grant-type:jwt-bearer".
Proof. intros Hf Hg. unfold APIRequest.isJWT. rewrite Hf, Hg. reflexivity. Qed.

End GrantsAndExecutor.

(** X16: which grants the request executor retries.  The form that
    [getTokens] sends for a JWT grant, first or retried, makes the
    executor see a JWT request, which it does not retry (the retries are
    those of [retryJWTGrant]); the forms of the authorization-code,
    refresh-token, client-credentials and token-exchange grants do not,
    whatever their arguments are, so those requests go through the retry
    loop of the executor. *)
Theorem executor_leaves_jwt_retries_to_token_manager :
  forall config options (o : APIRequest.RequestOptions),
    (forall assertion,
        APIRequest.form o
        = Some (TokenRequests.form (TokenRequests.jwt_request config assertion options)) ->
        APIRequest.isJWT o = true)
    /\ (forall code p,
           TokenRequests.getTokensAuthorizationCodeGrant config code options
           = TokenRequests.Request p ->
           APIRequest.form o = Some (TokenRequests.form p) ->
           APIRequest.isJWT o = false)
    /\ (forall token p,
           TokenRequests.getTokensRefreshGrant config token options
           = TokenRequests.Request p ->
           APIRequest.form o = Some (TokenRequests.form p) ->
           APIRequest.isJWT o = false)
    /\ (forall p,
           TokenRequests.getTokensClientCredentialsGrant config options
           = TokenRequests.Request p ->
           APIRequest.form o = Some (TokenRequests.form p) ->
           APIRequest.isJWT o = false)
    /\ (forall sign_actor accessToken scopes resource exchangeOptions uuid p,
           TokenRequests.exchangeToken sign_actor config accessToken scopes
             resource exchangeOptions uuid
           = TokenRequests.Request p ->
           APIRequest.form o = Some (TokenRequests.form p) ->
           APIRequest.isJWT o = false).
Proof.
  intros config options o.
  split; [|split; [|split; [|split]]].
  - intros assertion Hf.
    rewrite (isJWT_grant_type o _ TokenRequests.JWT Hf); [reflexivity|].
    apply getTokens_grant_type. reflexivity.
  - intros code p Hp Hf. unfold TokenRequests.getTokensAuthorizationCodeGrant in Hp.
    destruct (negb _); [discriminate|]. injection Hp as <-.
    rewrite (isJWT_grant_type o _ TokenRequests.AUTHORIZATION_CODE Hf); [reflexivity|].
    apply getTokens_grant_type. reflexivity.
  - intros token p Hp Hf. unfold TokenRequests.getTokensRefreshGrant in Hp.
    destruct (negb _); [discriminate|]. injection Hp as <-.
    rewrite (isJWT_grant_type o _ TokenRequests.REFRESH_TOKEN Hf); [reflexivity|].
    apply getTokens_grant_type. reflexivity.
  - intros p Hp Hf. unfold TokenRequests.getTokensClientCredentialsGrant in Hp.
    injection Hp as <-.
    rewrite (isJWT_grant_type o _ TokenRequests.CLIENT_CREDENTIALS Hf); [reflexivity|].
    apply getTokens_grant_type. reflexivity.
  - intros sign_actor accessToken scopes resource exchangeOptions uuid p Hp Hf.
    unfold TokenRequests.exchangeToken in Hp.
    match type of Hp with
    | match ?signed with _ => _ end = _ =>
        assert (Hsigned : forall ps, signed = inr ps ->
                  Js.get "grant_type" ps = Some (Js.VStr TokenRequests.TOKEN_EXCHANGE));
        [|destruct signed as [e|ps]; [discriminate|]]
    end.
    { intros ps.
      set (base := [("grant_type", Js.VStr TokenRequests.TOKEN_EXCHANGE);
                    ("subject_token_type", _); ("subject_token", _); ("scope", _)]).
      assert (H0 : Js.get "grant_type" base
                   = Some (Js.VStr TokenRequests.TOKEN_EXCHANGE)) by reflexivity.
      set (withResource := if Js.truthy resource then _ else base).
      assert (H1 : Js.get "grant_type" withResource
                   = Some (Js.VStr TokenRequests.TOKEN_EXCHANGE)).
      { subst withResource. destruct (Js.truthy resource); [|exact H0].
        apply set_keeps_grant_type; [discriminate|exact H0]. }
      set (withLink := match exchangeOptions with
                       | Some {| TokenRequests.sharedLink := Some url |} => _
                       | _ => withResource
                       end).
      assert (H2 : Js.get "grant_type" withLink
                   = Some (Js.VStr TokenRequests.TOKEN_EXCHANGE)).
      { subst withLink. destruct exchangeOptions as [[t a [url|]]|]; try exact H1.
        apply set_keeps_grant_type; [discriminate|exact H1]. }
      destruct exchangeOptions as [[t [a|] l]|].
      - destruct (sign_actor _ _ _); [|discriminate]. intros [= <-].
        apply set_keeps_grant_type; [discriminate|].
        apply set_keeps_grant_type; [discriminate|exact H2].
      - intros [= <-]. exact H2.
      - intros [= <-]. exact H2. }
    injection Hp as <-.
    rewrite (isJWT_grant_type o _ TokenRequests.TOKEN_EXCHANGE Hf); [reflexivity|].
    apply getTokens_grant_type. apply Hsigned. reflexivity.
Qed.

(** ** Lookups in merged and frozen objects *)

Section Lookups.
Import Js MergeOptions Config Values.

Lemma get_notin (k : string) (ps : list (string * value)) :
  ~ In k (map fst ps) -> get k ps = None.
Proof.
  induction ps as [|[k' v] rest IH]; cbn; [reflexivity|].
  intros Hnot. destruct (String.eqb_spec k k') as [->|_]; [tauto|].
  apply IH. tauto.
Qed.

Lemma get_in (k : string) (ps : list (string * value)) (v : value) :
  get k ps = Some v -> In k (map fst ps).
Proof.
  induction ps as [|[k' v'] rest IH]; cbn; [discriminate|].
  destruct (String.eqb_spec k k') as [->|_]; [tauto|]. intros H. right. auto.
Qed.

Lemma keys_set (k : string) (v : value) (ps : list (string * value)) :
  map fst (set k v ps)
  = if existsb (String.eqb k) (map fst ps) then map fst ps else map fst ps ++ [k].
Proof.
  induction ps as [|[k' v'] rest IH]; cbn; [reflexivity|].
  destruct (String.eqb k k'); cbn; [reflexivity|].
  rewrite IH. destruct (existsb _ _); reflexivity.
Qed.

Lemma NoDup_set (k : string) (v : value) (ps : list (string * value)) :
  List.NoDup (map fst ps) -> List.NoDup (map fst (set k v ps)).
Proof.
  intros H. rewrite keys_set.
  destruct (existsb (String.eqb k) (map fst ps)) eqn:He; [exact H|].
  apply List.NoDup_app; [exact H|repeat constructor; intros []|].
  intros x Hx [->|[]].
  assert (existsb (String.eqb x) (map fst ps) = true); [|congruence].
  apply existsb_exists. exists x. split; [exact Hx|apply String.eqb_refl].
Qed.

Lemma NoDup_delete (k : string) (ps : list (string * value)) :
  List.NoDup (map fst ps) -> List.NoDup (map fst (delete k ps)).
Proof.
  induction ps as [|[k' v'] rest IH]; cbn; [auto|].
  intros H. inversion H as [|? ? Hnot Hrest]; subst.
  destruct (String.eqb k k'); [auto|]. cbn. constructor; [|auto].
  intros Hin. apply Hnot. clear - Hin.
  induction rest as [|[k0 v0] rest IH]; cbn in *; [exact Hin|].
  destruct (String.eqb k k0); cbn in *; tauto.
Qed.

Lemma NoDup_assign (source target : list (string * value)) :
  List.NoDup (map fst target) -> List.NoDup (map fst (assign_props target source)).
Proof.
  unfold assign_props. revert target.
  induction source as [|[k v] rest IH]; intros target H; cbn; [exact H|].
  apply IH. apply NoDup_set. exact H.
Qed.

Lemma get_assign (source target : list (string * value)) (k : string) :
  List.NoDup (map fst source) ->
  get k (assign_props target source)
  = match get k source with
    | Some v => Some v
    | None => get k target
    end.
Proof.
  unfold assign_props. revert target.
  induction source as [|[k' v] rest IH]; intros target H; cbn; [reflexivity|].
  inversion H as [|? ? Hnot Hrest]; subst. rewrite (IH _ Hrest).
  destruct (String.eqb_spec k k') as [->|Hne].
  - rewrite (get_notin _ _ Hnot). apply get_set_eq.
  - destruct (get k rest); [reflexivity|]. apply get_set_ne. exact Hne.
Qed.

(** *** [clone] *)

Lemma clone_atomic (v : value) : atomic v -> clone v = v.
Proof. destruct v; try reflexivity. intros H. exfalso. eapply H. reflexivity. Qed.

Lemma merge_atomic (merged v : value) : atomic v -> merge merged v = v.
Proof. destruct v; try reflexivity. intros H. exfalso. eapply H. reflexivity. Qed.

Lemma get_clone (k : string) (frozen : bool) (ps : list (string * value)) :
  get k (own_enumerable (clone (VObj frozen ps))) = option_map clone (get k ps).
Proof.
  cbn [clone own_enumerable].
  induction ps as [|[k' v] rest IH]; cbn; [reflexivity|].
  destruct (String.eqb k k'); [reflexivity|exact IH].
Qed.

Lemma keys_clone (frozen : bool) (ps : list (string * value)) :
  map fst (own_enumerable (clone (VObj frozen ps))) = map fst ps.
Proof.
  cbn [clone own_enumerable].
  induction ps as [|[k' v] rest IH]; cbn; [reflexivity|]. f_equal. exact IH.
Qed.

(** A clone of a value without frozen object is the value. *)
Lemma clone_fresh (v : value) : fresh v = true -> clone v = v.
Proof.
  induction v as [| | | | | | | |frozen ps IH] using value_nested_ind;
    try reflexivity.
  intros Hv. apply fresh_obj in Hv. destruct Hv as [-> Hps].
  cbn [clone]. f_equal. unfold all_fresh in Hps.
  induction IH as [|[k x] rest Hx Hrest IHrest]; [reflexivity|].
  inversion Hps as [|? ? Hfx Hfrest]; subst. cbn [snd] in *.
  rewrite (Hx Hfx). f_equal. apply IHrest. exact Hfrest.
Qed.

(** *** [merge] *)

(** The property [k] of a merge of two objects: the source's, merged
    into the target's when both have it; else the target's. *)
Lemma get_merge (k : string) (fm fs : bool) (mps sps : list (string * value)) :
  List.NoDup (map fst sps) ->
  get k (own_enumerable (merge (VObj fm mps) (VObj fs sps)))
  = match get k sps with
    | Some sv => Some match get k mps with
                      | Some mv => merge mv sv
                      | None => clone sv
                      end
    | None => get k mps
    end.
Proof.
  cbn [merge own_enumerable]. revert mps.
  induction sps as [|[key sv] rest IH]; intros acc Hnd; [reflexivity|].
  inversion Hnd as [|? ? Hnot Hrest]; subst.
  cbn [get]. rewrite (IH _ Hrest).
  destruct (String.eqb_spec k key) as [->|Hne].
  - rewrite (get_notin _ _ Hnot). apply get_set_eq.
  - rewrite (get_set_ne k key) by exact Hne. reflexivity.
Qed.

(** A key the source does not have is left alone, repeated keys or
    not. *)
Lemma get_merge_absent (k : string) (fm fs : bool) (mps sps : list (string * value)) :
  get k sps = None ->
  get k (own_enumerable (merge (VObj fm mps) (VObj fs sps))) = get k mps.
Proof.
  cbn [merge own_enumerable]. revert mps.
  induction sps as [|[key sv] rest IH]; intros acc; [reflexivity|].
  cbn [get]. destruct (String.eqb_spec k key) as [->|Hne]; [discriminate|].
  intros Hrest. rewrite (IH _ Hrest). apply get_set_ne. exact Hne.
Qed.

Lemma NoDup_merge (fm fs : bool) (mps sps : list (string * value)) :
  List.NoDup (map fst mps) ->
  List.NoDup (map fst (own_enumerable (merge (VObj fm mps) (VObj fs sps)))).
Proof.
  cbn [merge own_enumerable]. revert mps.
  induction sps as [|[key sv] rest IH]; intros acc Hnd; [exact Hnd|].
  apply IH. apply NoDup_set. exact Hnd.
Qed.

Lemma merge_objects (fm fs : bool) (mps sps : list (string * value)) :
  merge (VObj fm mps) (VObj fs sps)
  = VObj false (own_enumerable (merge (VObj fm mps) (VObj fs sps))).
Proof. reflexivity. Qed.

(** *** [deepFreezeWithRequest] *)

Lemma get_freeze (k : string) (frozen : bool) (ps : list (string * value)) :
  get k (own_enumerable (deepFreezeWithRequest (VObj frozen ps)))
  = option_map frozen_prop (get k ps).
Proof.
  cbn [deepFreezeWithRequest own_enumerable].
  induction ps as [|[k' v] rest IH]; cbn; [reflexivity|].
  destruct (String.eqb k k'); [reflexivity|exact IH].
Qed.

Lemma freeze_object (frozen : bool) (ps : list (string * value)) :
  deepFreezeWithRequest (VObj frozen ps)
  = VObj true (own_enumerable (deepFreezeWithRequest (VObj frozen ps))).
Proof. reflexivity. Qed.

Lemma frozen_prop_atomic (v : value) : atomic v -> frozen_prop v = v.
Proof. destruct v; try reflexivity. intros H. exfalso. eapply H. reflexivity. Qed.

Lemma frozen_prop_fresh (v : value) :
  fresh v = true -> frozen_prop v = deepFreezeWithRequest v.
Proof. destruct v as [| | | | | | | |[|] ps]; try reflexivity. discriminate. Qed.

Lemma truthy_clone (v : value) : truthy (clone v) = truthy v.
Proof. destruct v; reflexivity. Qed.

Lemma truthy_merge (merged v : value) : truthy (merge merged v) = truthy v.
Proof. destruct v; try reflexivity. destruct merged; reflexivity. Qed.

Lemma truthy_frozen_prop (v : value) : truthy (frozen_prop v) = truthy v.
Proof. destruct v as [| | | | | | | |[|] ps]; reflexivity. Qed.

End Lookups.

(** ** The content of a configuration object *)

Section ConfigContent.
Import Js MergeOptions Config Values.

Variable sdkVersion nodeVersion : string.
Variable url_parse : string -> list (string * option string).

Local Abbreviation defaults := (Config.defaults sdkVersion nodeVersion).
Local Abbreviation constructor := (Config.constructor sdkVersion nodeVersion url_parse).
Local Abbreviation extend := (Config.extend sdkVersion nodeVersion url_parse).

Lemma validateBasicParams_object (params : value) :
  validateBasicParams params = Ret tt ->
  exists frozen ps s1 s2,
    params = VObj frozen ps
    /\ get "clientID" ps = Some (VStr s1)
    /\ get "clientSecret" ps = Some (VStr s2).
Proof.
  unfold validateBasicParams.
  destruct params as [| | | | | | | |frozen ps]; try discriminate.
  cbn [member bind]. unfold prop.
  destruct (get "clientID" ps) as [[| | | |s1| | | |]|] eqn:H1; try discriminate.
  cbn [bind typeof type_tag_eqb assert].
  destruct (get "clientSecret" ps) as [[| | | |s2| | | |]|] eqn:H2; try discriminate.
  intros _. exists frozen, ps, s1, s2. auto.
Qed.

Lemma merge_into_empty_defaults :
  merge (VObj false []) (VObj false defaults) = VObj false defaults.
Proof. reflexivity. Qed.

Lemma NoDup_defaults : List.NoDup (map fst defaults).
Proof.
  cbn. repeat (constructor; [cbn; intuition discriminate|]). constructor.
Qed.

(** [updateRequestAgent] writes to the [request] property only. *)
Lemma updateRequestAgent_other (ps : list (string * value)) (P : value) :
  updateRequestAgent url_parse (VObj false ps) = Ret P ->
  exists ps',
    P = VObj false ps'
    /\ (forall k, k <> "request" -> get k ps' = get k ps)
    /\ (List.NoDup (map fst ps) -> List.NoDup (map fst ps')).
Proof.
  unfold updateRequestAgent. cbn [member bind].
  destruct (member (prop "proxy" ps) "url") as [url|]; [|discriminate].
  cbn [bind]. destruct (truthy url).
  - destruct (assign_member (prop "request" ps) "agentClass" _) as [r1|];
      [|discriminate].
    cbn [bind]. destruct (member r1 "agentOptions") as [ao|]; [|discriminate].
    cbn [bind]. destruct url; try discriminate. cbn [bind].
    destruct (assign_member r1 "agentOptions" _) as [r2|]; [|discriminate].
    cbn [bind]. destruct (member (prop "proxy" ps) "username"); [|discriminate].
    cbn [bind]. destruct (member (prop "proxy" ps) "password"); [|discriminate].
    cbn [bind].
    destruct (truthy _ && truthy _).
    + destruct (assign_member (VObj false _) "auth" _) as [ao'|]; [|discriminate].
      cbn [bind]. destruct (assign_member r2 "agentOptions" ao') as [r3|];
        [|discriminate].
      cbn [bind assign_member]. intros [= <-]. eexists. split; [reflexivity|].
      split; [intros k Hk; apply get_set_ne; exact Hk | apply NoDup_set].
    + cbn [bind assign_member]. intros [= <-]. eexists. split; [reflexivity|].
      split; [intros k Hk; apply get_set_ne; exact Hk | apply NoDup_set].
  - intros [= <-]. exists ps. auto.
Qed.

(** What [new Config(params)] is made of: the parameters as validated,
    with [appAuth] completed; their merge into the defaults, with the
    request agent updated; the instance that holds the merge as
    [_params] and its properties as its own. *)
Lemma constructor_content (params c : value) :
  constructor params = Ret c ->
  exists frozen ps f1 ps1 P cps,
    params = VObj frozen ps
    /\ (forall k, k <> "appAuth" -> get k ps1 = get k ps)
    /\ (type_tag_eqb (typeof (prop "appAuth" ps)) TObject = false -> ps1 = ps)
    /\ (List.NoDup (map fst ps) -> List.NoDup (map fst ps1))
    /\ get "extend" ps1 = None
    /\ get "_params" ps1 = None
    /\ (forall k, k <> "request" ->
                  get k P
                  = get k (own_enumerable (merge (VObj false defaults) (VObj f1 ps1))))
    /\ List.NoDup (map fst P)
    /\ updateRequestAgent url_parse (merge (VObj false defaults) (VObj f1 ps1))
       = Ret (VObj false P)
    /\ c = VObj true cps
    /\ get "_params" cps = Some (deepFreezeWithRequest (VObj false P))
    /\ (forall k, k <> "_params" -> get k cps = option_map frozen_prop (get k P))
    /\ (if type_tag_eqb (typeof (prop "appAuth" ps)) TObject then
          let* _ := validateAppAuthParams (prop "appAuth" ps) in
          let* merged :=
            mergeOptions [VObj false []; VObj false appAuthDefaults;
                          prop "appAuth" ps] in
          assign_member (VObj frozen ps) "appAuth" merged
        else Ret (VObj frozen ps))
       = Ret (VObj f1 ps1).
Proof.
  unfold Config.constructor.
  destruct (validateBasicParams params) as [[]|] eqn:Hbasic; [|discriminate].
  destruct (validateBasicParams_object params Hbasic)
    as (frozen & ps & s1 & s2 & -> & _ & _).
  cbn [bind member].
  set (appAuth := prop "appAuth" ps).
  destruct (if type_tag_eqb (typeof appAuth) TObject then _ else _)
    as [params1|] eqn:Hparams1; [|discriminate].
  assert (H1 : exists f1 ps1,
             params1 = VObj f1 ps1
             /\ (forall k, k <> "appAuth" -> get k ps1 = get k ps)
             /\ (type_tag_eqb (typeof appAuth) TObject = false -> ps1 = ps)
             /\ (List.NoDup (map fst ps) -> List.NoDup (map fst ps1))).
  { destruct (type_tag_eqb (typeof appAuth) TObject).
    - destruct (validateAppAuthParams appAuth); [|discriminate].
      cbn [bind] in Hparams1.
      destruct (mergeOptions _) as [m|]; [|discriminate].
      cbn [bind] in Hparams1. destruct frozen; [discriminate|].
      cbn [assign_member] in Hparams1. injection Hparams1 as <-.
      eexists _, _. split; [reflexivity|].
      split; [intros k Hk; apply get_set_ne; exact Hk|].
      split; [discriminate|apply NoDup_set].
    - injection Hparams1 as <-. exists frozen, ps. auto. }
  destruct H1 as (f1 & ps1 & -> & Hsame & Hnone & Hnd1).
  revert Hparams1. cbn [bind hasOwn]. unfold hasOwnProperty. intros Hparams1.
  destruct (get "extend" ps1) eqn:Hext; [discriminate|].
  destruct (get "_params" ps1) eqn:Hpar; [discriminate|].
  cbn [negb assert bind].
  unfold mergeOptions. cbn [merge_all]. rewrite merge_into_empty_defaults.
  cbn [bind].
  destruct (updateRequestAgent url_parse _) as [P|] eqn:Hu; [|discriminate].
  rewrite merge_objects in Hu.
  destruct (updateRequestAgent_other _ _ Hu) as (Pps & -> & Hother & HndP).
  rewrite <- merge_objects in Hu.
  cbn [bind own_enumerable]. intros [= <-].
  assert (HndP' : List.NoDup (map fst Pps)).
  { apply HndP. apply NoDup_merge. apply NoDup_defaults. }
  assert (Hno : get "_params" Pps = None).
  { rewrite Hother by discriminate. rewrite get_merge_absent by exact Hpar.
    reflexivity. }
  exists frozen, ps, f1, ps1, Pps,
    (own_enumerable
       (deepFreezeWithRequest
          (VObj false (assign_props [("_params", VObj false Pps)] Pps)))).
  split; [reflexivity|]. split; [exact Hsame|]. split; [exact Hnone|].
  split; [exact Hnd1|]. split; [exact Hext|]. split; [exact Hpar|].
  split; [exact Hother|]. split; [exact HndP'|]. split; [exact Hu|].
  split; [reflexivity|].
  split; [|split; [|exact Hparams1]].
  - rewrite get_freeze, get_assign by exact HndP'. rewrite Hno. reflexivity.
  - intros k Hk. rewrite get_freeze, get_assign by exact HndP'.
    destruct (get k Pps) as [v|]; [reflexivity|].
    cbn [get]. destruct (String.eqb_spec k "_params"); [contradiction|reflexivity].
Qed.

End ConfigContent.

Section ConfigSettings.
Import Js MergeOptions Config Values.

Variable sdkVersion nodeVersion : string.
Variable url_parse : string -> list (string * option string).

Local Abbreviation defaults := (Config.defaults sdkVersion nodeVersion).
Local Abbreviation constructor := (Config.constructor sdkVersion nodeVersion url_parse).
Local Abbreviation extend := (Config.extend sdkVersion nodeVersion url_parse).

Lemma all_fresh_defaults : all_fresh defaults.
Proof. repeat constructor. Qed.

Lemma member_object (frozen : bool) (ps : list (string * value)) (k : string)
      (v : value) :
  get k ps = Some v -> member (VObj frozen ps) k = Ret v.
Proof. intros H. cbn [member]. unfold prop. rewrite H. reflexivity. Qed.

(** A setting given as a value that is not a plain object is the
    setting of the configuration. *)
Lemma constructor_given (params c : value) (frozen : bool)
      (ps : list (string * value)) (k : string) (v : value) :
  constructor params = Ret c ->
  params = VObj frozen ps ->
  List.NoDup (map fst ps) ->
  get k ps = Some v ->
  atomic v ->
  k <> "request" -> k <> "appAuth" ->
  member c k = Ret v.
Proof.
  intros Hc -> Hnd Hget Hv Hreq Happ.
  destruct (constructor_content _ _ _ _ _ Hc)
    as (frozen' & ps' & f1 & ps1 & P & cps & [= <- <-] & Hsame & _ & Hnd1
        & _ & Hpar & HP & _ & _ & -> & _ & Hcps & _).
  assert (Hk : k <> "_params").
  { intros ->. rewrite (Hsame "_params") in Hpar by discriminate. congruence. }
  apply member_object. rewrite (Hcps k Hk), (HP k Hreq).
  rewrite get_merge by (apply Hnd1; exact Hnd).
  rewrite (Hsame k Happ), Hget.
  destruct (get k defaults); cbn [option_map];
    rewrite ?merge_atomic, ?clone_atomic by exact Hv;
    rewrite frozen_prop_atomic by exact Hv; reflexivity.
Qed.

(** A setting that is not given has its default value, frozen. *)
Lemma constructor_default (params c : value) (frozen : bool)
      (ps : list (string * value)) (k : string) :
  constructor params = Ret c ->
  params = VObj frozen ps ->
  get k ps = None ->
  k <> "request" -> k <> "_params" ->
  member c k = Ret (deepFreezeWithRequest (prop k defaults)).
Proof.
  intros Hc -> Hget Hreq Hpar.
  destruct (constructor_content _ _ _ _ _ Hc)
    as (frozen' & ps' & f1 & ps1 & P & cps & [= <- <-] & Hsame & Hnone & _
        & _ & _ & HP & _ & _ & -> & _ & Hcps & _).
  assert (Hget1 : get k ps1 = None).
  { destruct (String.eqb_spec k "appAuth") as [->|Hne].
    - rewrite Hnone; [exact Hget|]. unfold prop. rewrite Hget. reflexivity.
    - rewrite (Hsame k Hne). exact Hget. }
  cbn [member]. unfold prop. rewrite (Hcps k Hpar), (HP k Hreq).
  rewrite get_merge_absent by exact Hget1.
  destruct (get k defaults) as [d|] eqn:Hd; [|reflexivity].
  cbn [option_map]. rewrite frozen_prop_fresh; [reflexivity|].
  eapply all_fresh_get; [apply all_fresh_defaults|exact Hd].
Qed.

(** The instance has the properties of its [_params]. *)
Lemma constructor_mirror (params c : value) :
  constructor params = Ret c ->
  exists cps _params,
    c = VObj true cps
    /\ get "_params" cps = Some _params
    /\ forall k, k <> "_params" -> member c k = member _params k.
Proof.
  intros Hc.
  destruct (constructor_content _ _ _ _ _ Hc)
    as (frozen & ps & f1 & ps1 & P & cps & _ & _ & _ & _
        & _ & _ & _ & _ & _ & -> & Hparams & Hcps & _).
  exists cps, (deepFreezeWithRequest (VObj false P)).
  split; [reflexivity|]. split; [exact Hparams|].
  intros k Hk. rewrite freeze_object. cbn [member]. unfold prop.
  rewrite (Hcps k Hk), get_freeze. reflexivity.
Qed.

(** The parameters [extend] hands to the constructor. *)
Lemma extend_content (this params c' : value) :
  extend this params = Ret c' ->
  exists _params m0 nps,
    member this "_params" = Ret _params
    /\ (_params = VUndefined /\ m0 = []
        \/ exists f ps, _params = VObj f ps
                        /\ m0 = own_enumerable (merge (VObj false []) (VObj f ps)))
    /\ List.NoDup (map fst m0)
    /\ (params = VUndefined /\ nps = delete "_params" (delete "extend" m0)
        \/ exists f ps,
            params = VObj f ps
            /\ nps = delete "_params"
                       (delete "extend"
                          (own_enumerable (merge (VObj false m0) (VObj f ps)))))
    /\ List.NoDup (map fst nps)
    /\ constructor (VObj false nps) = Ret c'.
Proof.
  unfold Config.extend.
  destruct (member this "_params") as [_params|]; [|discriminate].
  cbn [bind]. unfold mergeOptions. cbn [merge_all].
  assert (H0 : forall m0,
             List.NoDup (map fst m0) ->
             (let* newParams := merge_all (VObj false m0) [params] in
              constructor (delete_member (delete_member newParams "extend") "_params"))
             = Ret c' ->
             exists nps,
               (params = VUndefined /\ nps = delete "_params" (delete "extend" m0)
                \/ exists f ps,
                    params = VObj f ps
                    /\ nps = delete "_params"
                               (delete "extend"
                                  (own_enumerable (merge (VObj false m0) (VObj f ps)))))
               /\ List.NoDup (map fst nps)
               /\ constructor (VObj false nps) = Ret c').
  { intros m0 Hnd. cbn [merge_all].
    destruct params as [| | | | | | | |f ps]; try discriminate; cbn [bind].
    - cbn [delete_member]. intros H. eexists. split; [left; split; reflexivity|].
      split; [apply NoDup_delete, NoDup_delete; exact Hnd | exact H].
    - rewrite merge_objects. cbn [delete_member]. intros H. eexists.
      split; [right; eexists _, _; split; reflexivity|].
      split; [|exact H].
      apply NoDup_delete, NoDup_delete, NoDup_merge. exact Hnd. }
  destruct _params as [| | | | | | | |f ps]; try discriminate.
  - intros H. destruct (H0 [] (List.NoDup_nil _) H) as (nps & Hn & Hnd & Hc).
    exists VUndefined, [], nps. split; [reflexivity|].
    split; [left; split; reflexivity|]. split; [constructor|]. auto.
  - rewrite merge_objects. intros H.
    destruct (H0 _ (NoDup_merge false f [] ps (List.NoDup_nil _)) H)
      as (nps & Hn & Hnd & Hc).
    eexists (VObj f ps), _, nps. split; [reflexivity|].
    split; [right; eexists _, _; split; reflexivity|].
    split; [apply NoDup_merge; constructor|]. auto.
Qed.

End ConfigSettings.

Section ExtendedSettings.
Import Js MergeOptions Config Values.

Variable sdkVersion nodeVersion : string.
Variable url_parse : string -> list (string * option string).

Local Abbreviation defaults := (Config.defaults sdkVersion nodeVersion).
Local Abbreviation constructor := (Config.constructor sdkVersion nodeVersion url_parse).
Local Abbreviation extend := (Config.extend sdkVersion nodeVersion url_parse).

Lemma keys_freeze (frozen : bool) (ps : list (string * value)) :
  map fst (own_enumerable (deepFreezeWithRequest (VObj frozen ps))) = map fst ps.
Proof.
  cbn [deepFreezeWithRequest own_enumerable].
  induction ps as [|[k v] rest IH]; cbn; [reflexivity|]. f_equal. exact IH.
Qed.

Lemma get_set_present (k k' : string) (v : value) (ps : list (string * value)) :
  get k ps <> None -> get k (set k' v ps) <> None.
Proof.
  intros H. destruct (String.eqb_spec k k') as [->|Hne].
  - rewrite get_set_eq. discriminate.
  - rewrite get_set_ne by exact Hne. exact H.
Qed.

(** A merge keeps the keys of its target. *)
Lemma get_merge_present (k : string) (fm fs : bool)
      (mps sps : list (string * value)) :
  get k mps <> None ->
  get k (own_enumerable (merge (VObj fm mps) (VObj fs sps))) <> None.
Proof.
  cbn [merge own_enumerable]. revert mps.
  induction sps as [|[key sv] rest IH]; intros acc H; [exact H|].
  apply IH. apply get_set_present. exact H.
Qed.


(** A setting of a configuration that is not a plain object, and that
    the overrides do not name, is the setting of the extended
    configuration. *)
Lemma extend_kept (params c c' : value) (f : bool) (pps : list (string * value))
      (k : string) (v : value) :
  constructor params = Ret c ->
  extend c (VObj f pps) = Ret c' ->
  get k pps = None ->
  member c k = Ret v ->
  atomic v ->
  k <> "request" -> k <> "appAuth" -> k <> "extend" -> k <> "_params" ->
  member c' k = Ret v.
Proof.
  intros Hc He Hget Hmem Hv Hreq Happ Hext Hpar.
  destruct (constructor_content _ _ _ _ _ Hc)
    as (frozen & ps & f1 & ps1 & P & cps & _ & _ & _ & _
        & _ & _ & HP & HndP & _ & -> & Hparams & Hcps & _).
  cbn [member] in Hmem. unfold prop in Hmem. rewrite (Hcps k Hpar) in Hmem.
  destruct (extend_content _ _ _ _ _ _ He)
    as (_params & m0 & nps & Hmp & Hm0 & _
        & [[Hp _]|(f' & ps' & [= <- <-] & ->)] & Hndn & Hc'); [discriminate|].
  assert (Hp' : _params = deepFreezeWithRequest (VObj false P)).
  { cbn [member] in Hmp. unfold prop in Hmp. rewrite Hparams in Hmp.
    cbv beta iota in Hmp. congruence. }
  subst _params.
  destruct Hm0 as [[Hu _]|(f0 & ps0 & Hobj & ->)]; [discriminate Hu|].
  rewrite freeze_object in Hobj.
  assert (Hf0 : f0 = true
                /\ ps0 = own_enumerable (deepFreezeWithRequest (VObj false P)))
    by (split; congruence).
  destruct Hf0 as [-> ->]. clear Hobj.
  assert (Hnps : get k (delete "_params"
                          (delete "extend"
                             (own_enumerable
                                (merge
                                   (VObj false
                                      (own_enumerable
                                         (merge (VObj false [])
                                            (VObj true
                                               (own_enumerable
                                                  (deepFreezeWithRequest
                                                     (VObj false P)))))))
                                   (VObj f pps)))))
                 = option_map clone (option_map frozen_prop (get k P))).
  { rewrite !get_delete_ne by assumption.
    rewrite get_merge_absent by exact Hget.
    rewrite get_merge by (rewrite keys_freeze; exact HndP).
    rewrite get_freeze. cbn [get]. destruct (get k P); reflexivity. }
  destruct (get k P) as [x|] eqn:HkP; cbn [option_map] in Hmem, Hnps.
  - injection Hmem as Hx. rewrite Hx in Hnps.
    rewrite clone_atomic in Hnps by exact Hv.
    apply (constructor_given _ _ _ _ _ false _ k v Hc' eq_refl Hndn);
      assumption.
  - injection Hmem as <-.
    rewrite (constructor_default _ _ _ _ _ false _ k Hc' eq_refl Hnps Hreq Hpar).
    unfold prop. destruct (get k defaults) as [d|] eqn:Hd; [|reflexivity].
    exfalso. rewrite (HP k Hreq) in HkP. revert HkP.
    apply get_merge_present. rewrite Hd. discriminate.
Qed.

End ExtendedSettings.

(** X17: the settings of a configuration.  When [new Config(params)]
    returns, every top-level setting other than [request], [appAuth]
    and [_params], and other than the names an object inherits
    ([extend], [constructor], [toString]...), reads as follows: one
    that the parameters give as anything but a plain object (a string, a
    number, a boolean, [null], a function, a [Buffer]...) is that value;
    one that the parameters do not have is its default, frozen, and
    [undefined] when there is no default. *)
Theorem config_settings_are_given_or_default :
  forall sdkVersion nodeVersion url_parse params c frozen ps,
    Config.constructor sdkVersion nodeVersion url_parse params = Js.Ret c ->
    params = Js.VObj frozen ps ->
    List.NoDup (map fst ps) ->
    forall k, k <> "request" -> k <> "appAuth" -> k <> "_params" ->
      ~ List.In k Values.inherited ->
      (forall v, Js.get k ps = Some v -> Values.atomic v ->
                 Js.member c k = Js.Ret v)
      /\ (Js.get k ps = None ->
          Js.member c k
          = Js.Ret (Config.deepFreezeWithRequest
                      (Js.prop k (Config.defaults sdkVersion nodeVersion)))).
Proof.
  intros sdk node url_parse params c frozen ps Hc Hp Hnd k Hreq Happ Hpar _.
  split.
  - intros v Hget Hv.
    exact (constructor_given sdk node url_parse params c frozen ps k v
             Hc Hp Hnd Hget Hv Hreq Happ).
  - intros Hget.
    exact (constructor_default sdk node url_parse params c frozen ps k
             Hc Hp Hget Hreq Hpar).
Qed.

(** X17 at the parameters [{clientID, clientSecret, numMaxRetries: 0}]:
    the retry budget is the given 0, the retry interval the default
    2000. *)
Lemma config_settings_are_given_or_default_witness :
  let url_parse := fun s : string => [("href", Some s)] in
  let params := Js.VObj false [("clientID", Js.VStr "id");
                               ("clientSecret", Js.VStr "secret");
                               ("numMaxRetries", Js.VNum 0)] in
  exists c,
    Config.constructor "3.0.0" "v18.0.0" url_parse params = Js.Ret c
    /\ Js.member c "numMaxRetries" = Js.Ret (Js.VNum 0)
    /\ Js.member c "retryIntervalMS" = Js.Ret (Js.VNum 2000).
Proof.
  intros url_parse params.
  destruct (Config.constructor "3.0.0" "v18.0.0" url_parse params) as [c|] eqn:Hc;
    [|vm_compute in Hc; discriminate Hc].
  exists c. split; [reflexivity|].
  assert (Hnd : List.NoDup (map fst [("clientID", Js.VStr "id");
                                     ("clientSecret", Js.VStr "secret");
                                     ("numMaxRetries", Js.VNum 0)])).
  { cbn. repeat (constructor; [cbn; intuition discriminate|]). constructor. }
  split.
  - apply (proj1 (config_settings_are_given_or_default
                    "3.0.0" "v18.0.0" url_parse params c false _ Hc eq_refl Hnd
                    "numMaxRetries" ltac:(discriminate) ltac:(discriminate)
                    ltac:(discriminate) ltac:(clear; cbn; intuition discriminate))
             (Js.VNum 0) eq_refl).
    intros f q. discriminate.
  - apply (proj2 (config_settings_are_given_or_default
                    "3.0.0" "v18.0.0" url_parse params c false _ Hc eq_refl Hnd
                    "retryIntervalMS" ltac:(discriminate) ltac:(discriminate)
                    ltac:(discriminate) ltac:(clear; cbn; intuition discriminate))
             eq_refl).
Defined.

(** X18: a configuration object shows its merged parameters.  The
    instance that [new Config(params)] returns holds the merged
    parameters as [_params], and each other property of the instance,
    the names an object inherits ([extend], [constructor],
    [toString]...) apart, reads the same as that property of [_params]:
    what [extend] starts from is what the instance shows. *)
Theorem config_shows_its_params :
  forall sdkVersion nodeVersion url_parse params c,
    Config.constructor sdkVersion nodeVersion url_parse params = Js.Ret c ->
    exists _params,
      Js.member c "_params" = Js.Ret _params
      /\ forall k, k <> "_params" -> ~ List.In k Values.inherited ->
                   Js.member c k = Js.member _params k.
Proof.
  intros sdk node url_parse params c Hc.
  destruct (constructor_mirror sdk node url_parse params c Hc)
    as (cps & _params & -> & Hget & Hall).
  exists _params. split; [apply member_object; exact Hget|].
  intros k Hk _. exact (Hall k Hk).
Qed.

(** X18 at the parameters [{clientID, clientSecret}]. *)
Lemma config_shows_its_params_witness :
  let url_parse := fun s : string => [("href", Some s)] in
  let params := Js.VObj false [("clientID", Js.VStr "id");
                               ("clientSecret", Js.VStr "secret")] in
  exists c _params,
    Config.constructor "3.0.0" "v18.0.0" url_parse params = Js.Ret c
    /\ Js.member c "_params" = Js.Ret _params
    /\ Js.member c "apiRootURL" = Js.member _params "apiRootURL".
Proof.
  intros url_parse params.
  destruct (Config.constructor "3.0.0" "v18.0.0" url_parse params) as [c|] eqn:Hc;
    [|vm_compute in Hc; discriminate Hc].
  destruct (config_shows_its_params "3.0.0" "v18.0.0" url_parse params c Hc)
    as (_params & Hp & Hall).
  exists c, _params. split; [reflexivity|]. split; [exact Hp|].
  apply Hall; [intros H; discriminate H|clear; cbn; intuition discriminate].
Defined.



(** ** Well-formed objects *)

Section WellFormed.
Import Js MergeOptions Config Values.

Lemma distinct_NoDup (keys : list string) :
  distinct keys = true <-> List.NoDup keys.
Proof.
  induction keys as [|k rest IH]; cbn.
  - split; [constructor|reflexivity].
  - rewrite andb_true_iff, negb_true_iff, IH. split.
    + intros [Hnot Hrest]. constructor; [|exact Hrest].
      intros Hin. assert (existsb (String.eqb k) rest = true); [|congruence].
      apply existsb_exists. exists k. split; [exact Hin|apply String.eqb_refl].
    + intros H. inversion H as [|? ? Hnot Hrest]; subst. split; [|exact Hrest].
      destruct (existsb (String.eqb k) rest) eqn:He; [|reflexivity].
      apply existsb_exists in He. destruct He as (x & Hin & Hx).
      apply String.eqb_eq in Hx. subst x. contradiction.
Qed.

Lemma wf_obj (frozen : bool) (ps : list (string * value)) :
  wf (VObj frozen ps) = true <-> List.NoDup (map fst ps) /\ all_wf ps.
Proof.
  cbn [wf]. rewrite andb_true_iff, distinct_NoDup.
  apply and_iff_compat_l. unfold all_wf.
  induction ps as [|[k x] rest IH]; cbn.
  - split; [constructor | reflexivity].
  - rewrite andb_true_iff, IH. split.
    + intros [Hx Hrest]. constructor; assumption.
    + intros H. inversion H; subst. auto.
Qed.

Lemma wf_atomic (v : value) : atomic v -> wf v = true.
Proof. destruct v; try reflexivity. intros H. exfalso. eapply H. reflexivity. Qed.

Lemma all_wf_get (k : string) (ps : list (string * value)) (v : value) :
  all_wf ps -> get k ps = Some v -> wf v = true.
Proof.
  induction 1 as [|[k' x] rest Hx Hrest IH]; cbn; [discriminate|].
  destruct (String.eqb k k'); [intros [= <-]; exact Hx | exact IH].
Qed.

Lemma all_wf_prop (k : string) (ps : list (string * value)) :
  all_wf ps -> wf (prop k ps) = true.
Proof.
  intros H. unfold prop. destruct (get k ps) eqn:Hg; [|reflexivity].
  eapply all_wf_get; eassumption.
Qed.

Lemma all_wf_set (k : string) (v : value) (ps : list (string * value)) :
  wf v = true -> all_wf ps -> all_wf (set k v ps).
Proof.
  intros Hv. induction 1 as [|[k' x] rest Hx Hrest IH]; cbn.
  - repeat constructor. exact Hv.
  - destruct (String.eqb k k'); constructor; assumption.
Qed.

Lemma all_wf_delete (k : string) (ps : list (string * value)) :
  all_wf ps -> all_wf (delete k ps).
Proof.
  induction 1 as [|[k' x] rest Hx Hrest IH]; cbn; [constructor|].
  destruct (String.eqb k k'); [exact IH | constructor; assumption].
Qed.

Lemma all_wf_assign (source target : list (string * value)) :
  all_wf source -> all_wf target -> all_wf (assign_props target source).
Proof.
  unfold assign_props. intros Hs. revert target.
  induction Hs as [|[k x] rest Hx Hrest IH]; intros target Ht; cbn; [exact Ht|].
  apply IH. apply all_wf_set; assumption.
Qed.

Lemma wf_clone (v : value) : wf v = true -> wf (clone v) = true.
Proof.
  induction v as [| | | | | | | |frozen ps IH] using value_nested_ind;
    try reflexivity.
  intros Hv. apply wf_obj in Hv. destruct Hv as [Hnd Hps].
  rewrite <- (keys_clone frozen ps) in Hnd.
  cbn [clone] in *. apply wf_obj. split; [exact Hnd|]. clear Hnd.
  unfold all_wf in *.
  induction IH as [|[k x] rest Hx Hrest IHrest]; [constructor|].
  inversion Hps as [|? ? Hwx Hwrest]; subst.
  constructor; [apply Hx; exact Hwx|apply IHrest; exact Hwrest].
Qed.

Lemma wf_merge (source : value) :
  forall merged,
    wf merged = true -> wf source = true -> wf (merge merged source) = true.
Proof.
  induction source as [| | | | | | | |frozen sps IH] using value_nested_ind;
    intros merged Hm Hs; try reflexivity.
  destruct merged as [| | | | | | | |mfrozen mps];
    try (exact (wf_clone (VObj frozen sps) Hs)).
  rewrite merge_objects. apply wf_obj.
  apply wf_obj in Hm. destruct Hm as [Hnd Hmps].
  split; [apply NoDup_merge; exact Hnd|].
  apply wf_obj in Hs. destruct Hs as [_ Hsps].
  cbn [merge own_enumerable]. clear Hnd. revert mps Hmps. unfold all_wf in Hsps.
  induction IH as [|[key sv] rest Hsv Hrest IHrest]; intros acc Hacc; [exact Hacc|].
  inversion Hsps as [|? ? Hwsv Hwrest]; subst. cbn [snd] in *.
  apply (IHrest Hwrest). apply all_wf_set; [|exact Hacc].
  destruct (get key acc) as [mv|] eqn:Hg.
  - apply Hsv; [exact (all_wf_get key acc mv Hacc Hg)|exact Hwsv].
  - apply wf_clone. exact Hwsv.
Qed.

Lemma wf_merge_all (options : list value) :
  forall merged r,
    wf merged = true -> Forall (fun o => wf o = true) options ->
    merge_all merged options = Ret r -> wf r = true.
Proof.
  induction options as [|option rest IH]; intros merged r Hm Hall; cbn.
  - intros [= <-]. exact Hm.
  - inversion Hall as [|? ? Ho Hrest]; subst.
    destruct option; try discriminate.
    + apply IH; assumption.
    + apply IH; [|assumption]. apply wf_merge; assumption.
Qed.

Lemma wf_member (o : value) (k : string) (v : value) :
  wf o = true -> member o k = Ret v -> wf v = true.
Proof.
  destruct o; cbn [member]; try discriminate; try (intros _ [= <-]; reflexivity).
  intros Ho [= <-]. apply wf_obj in Ho. apply all_wf_prop. tauto.
Qed.

Lemma wf_assign_member (o : value) (k : string) (v o' : value) :
  wf o = true -> wf v = true -> assign_member o k v = Ret o' -> wf o' = true.
Proof.
  destruct o as [| | | | | | | |[|] ps]; cbn [assign_member]; try discriminate;
    try (intros _ _ [= <-]; reflexivity).
  intros Ho Hv [= <-]. apply wf_obj in Ho. apply wf_obj.
  split; [apply NoDup_set; tauto|apply all_wf_set; tauto].
Qed.

Lemma wf_delete_member (o : value) (k : string) :
  wf o = true -> wf (delete_member o k) = true.
Proof.
  destruct o as [| | | | | | | |[|] ps]; cbn [delete_member]; auto.
  intros Ho. apply wf_obj in Ho. apply wf_obj.
  split; [apply NoDup_delete; tauto|apply all_wf_delete; tauto].
Qed.

Lemma all_wf_own_enumerable (v : value) :
  wf v = true -> all_wf (own_enumerable v).
Proof.
  destruct v; cbn [own_enumerable]; intros Hv; try constructor.
  - unfold indexed, all_wf. apply List.Forall_forall.
    intros [k x] Hin. rewrite <- list_elem_of_In in Hin.
    apply elem_of_lookup_imap in Hin.
    destruct Hin as (i & c & [= -> ->] & _). reflexivity.
  - unfold indexed, all_wf. apply List.Forall_forall.
    intros [k x] Hin. rewrite <- list_elem_of_In in Hin.
    apply elem_of_lookup_imap in Hin.
    destruct Hin as (i & c & [= -> ->] & _). reflexivity.
  - apply wf_obj in Hv. tauto.
Qed.

Lemma all_wf_parsed (fields : list (string * option string)) :
  all_wf (parsed_props fields).
Proof.
  unfold parsed_props, all_wf. induction fields as [|[k [s|]] rest IH];
    cbn; constructor; auto.
Qed.

Lemma wf_freeze (v : value) : wf v = true -> wf (deepFreezeWithRequest v) = true.
Proof.
  induction v as [| | | | | | | |frozen ps IH] using value_nested_ind;
    try reflexivity.
  intros Hv. apply wf_obj in Hv. destruct Hv as [Hnd Hps].
  rewrite freeze_object. apply wf_obj. rewrite keys_freeze.
  split; [exact Hnd|]. clear Hnd.
  cbn [deepFreezeWithRequest own_enumerable]. unfold all_wf in *.
  induction IH as [|[k x] rest Hx Hrest IHrest]; [constructor|].
  inversion Hps as [|? ? Hwx Hwrest]; subst. cbn [snd] in *.
  constructor; [|apply IHrest; exact Hwrest].
  cbn [snd]. destruct x as [| | | | | | | |[|] xps]; try reflexivity.
  - exact Hwx.
  - apply Hx. exact Hwx.
Qed.

Lemma wf_frozen_prop (v : value) : wf v = true -> wf (frozen_prop v) = true.
Proof.
  intros Hv. destruct v as [| | | | | | | |[|] ps]; try reflexivity.
  - exact Hv.
  - apply wf_freeze. exact Hv.
Qed.

End WellFormed.

(** ** What a merge carries over *)

Section Carrying.
Import Js MergeOptions Config Values.

Lemma carries_refl (v : value) : carries v v.
Proof. destruct v; try reflexivity. cbn. eexists _, _. split; [reflexivity|auto]. Qed.

Lemma carries_trans (a b c : value) : carries a b -> carries b c -> carries a c.
Proof.
  destruct a as [| | | | | | | |fa pa]; cbn [carries];
    try (intros ->; cbn [carries]; auto).
  intros (fb & pb & -> & Hab). cbn [carries].
  intros (fc & pc & -> & Hbc). exists fc, pc. split; [reflexivity|].
  intros k x Hget Hx. apply Hbc; [|exact Hx]. apply Hab; assumption.
Qed.

Lemma carries_clone (v : value) : carries v (clone v).
Proof.
  destruct v as [| | | | | | | |f ps]; try reflexivity.
  cbn [carries]. exists false, (own_enumerable (clone (VObj f ps))).
  split; [reflexivity|]. intros k x Hget Hx.
  rewrite get_clone, Hget. cbn. rewrite clone_atomic by exact Hx. reflexivity.
Qed.

Lemma carries_merge (merged v : value) :
  wf v = true -> carries v (merge merged v).
Proof.
  intros Hv. destruct v as [| | | | | | | |f ps]; try reflexivity.
  destruct merged as [| | | | | | | |fm mps];
    try (exact (carries_clone (VObj f ps))).
  apply wf_obj in Hv. destruct Hv as [Hnd _].
  cbn [carries]. exists false, (own_enumerable (merge (VObj fm mps) (VObj f ps))).
  split; [reflexivity|]. intros k x Hget Hx.
  rewrite get_merge by exact Hnd. rewrite Hget.
  destruct (get k mps); rewrite ?merge_atomic, ?clone_atomic by exact Hx;
    reflexivity.
Qed.

Lemma carries_frozen_prop (v : value) : carries v (frozen_prop v).
Proof.
  destruct v as [| | | | | | | |[|] ps]; try reflexivity.
  - apply carries_refl.
  - cbn [carries frozen_prop].
    exists true, (own_enumerable (deepFreezeWithRequest (VObj false ps))).
    split; [reflexivity|]. intros k x Hget Hx.
    rewrite get_freeze, Hget. cbn. rewrite frozen_prop_atomic by exact Hx.
    reflexivity.
Qed.

Lemma carries_truthy (v v' : value) : carries v v' -> truthy v' = truthy v.
Proof.
  destruct v; cbn [carries]; try (intros ->; reflexivity).
  intros (f & ps & -> & _). reflexivity.
Qed.

Lemma carries_atomic (v v' : value) : carries v v' -> atomic v -> v' = v.
Proof.
  destruct v; cbn [carries]; try (intros ->; reflexivity).
  intros _ H. exfalso. eapply H. reflexivity.
Qed.

(** The property [k] of an object [source] after [source] has been
    merged into a value, or cloned. *)
Lemma merged_field (target : option value) (fs : bool)
      (sps : list (string * value)) (k : string) (v : value) :
  (forall mv, target = Some mv -> wf mv = true) ->
  wf (VObj fs sps) = true ->
  get k sps = Some v ->
  exists xps v1,
    match target with
    | Some mv => merge mv (VObj fs sps)
    | None => clone (VObj fs sps)
    end = VObj false xps
    /\ wf (VObj false xps) = true
    /\ get k xps = Some v1
    /\ carries v v1.
Proof.
  intros Hmv Hs Hget.
  assert (Hclone : exists xps v1,
             clone (VObj fs sps) = VObj false xps
             /\ wf (VObj false xps) = true
             /\ get k xps = Some v1 /\ carries v v1).
  { exists (own_enumerable (clone (VObj fs sps))), (clone v).
    split; [reflexivity|].
    split; [exact (wf_clone _ Hs)|].
    split; [rewrite get_clone, Hget; reflexivity|apply carries_clone]. }
  destruct target as [mv|]; [|exact Hclone].
  destruct mv as [| | | | | | | |fm mps]; try exact Hclone.
  pose proof (Hmv _ eq_refl) as Hwm.
  pose proof Hs as Hs'. apply wf_obj in Hs'. destruct Hs' as [Hnd Hall].
  exists (own_enumerable (merge (VObj fm mps) (VObj fs sps))),
    match get k mps with
    | Some mk => merge mk v
    | None => clone v
    end.
  split; [reflexivity|].
  split; [exact (wf_merge _ _ Hwm Hs)|].
  split; [rewrite get_merge by exact Hnd; rewrite Hget; reflexivity|].
  destruct (get k mps); [|apply carries_clone].
  apply carries_merge. eapply all_wf_get; eassumption.
Qed.

End Carrying.

Section WellFormedConfig.
Import Js MergeOptions Config Values.

Variable sdkVersion nodeVersion : string.
Variable url_parse : string -> list (string * option string).

Local Abbreviation defaults := (Config.defaults sdkVersion nodeVersion).
Local Abbreviation constructor := (Config.constructor sdkVersion nodeVersion url_parse).
Local Abbreviation extend := (Config.extend sdkVersion nodeVersion url_parse).

Lemma wf_defaults : wf (VObj false defaults) = true.
Proof. reflexivity. Qed.

Lemma wf_updateRequestAgent (params params' : value) :
  wf params = true ->
  updateRequestAgent url_parse params = Ret params' ->
  wf params' = true.
Proof.
  intros Hp. unfold updateRequestAgent.
  destruct (member params "proxy") as [proxy|] eqn:Hproxy; [|discriminate].
  cbn [bind].
  destruct (member proxy "url") as [url|] eqn:Hurl; [|discriminate].
  cbn [bind]. destruct (truthy url); [|intros [= <-]; exact Hp].
  destruct (member params "request") as [request|] eqn:Hreq; [|discriminate].
  pose proof (wf_member _ _ _ Hp Hreq) as Hfreq. cbn [bind].
  destruct (assign_member request "agentClass" (VFun "ProxyAgent"))
    as [request1|] eqn:Hr1; [|discriminate].
  pose proof (wf_assign_member _ _ (VFun "ProxyAgent") _ Hfreq eq_refl Hr1)
    as Hf1. cbn [bind].
  destruct (member request1 "agentOptions") as [agentOptions|] eqn:Hao;
    [|discriminate].
  pose proof (wf_member _ _ _ Hf1 Hao) as Hfao. cbn [bind].
  destruct url; try discriminate. cbn [bind].
  set (agentOptions' := VObj false _).
  assert (Hfao' : wf agentOptions' = true).
  { apply wf_obj. split.
    - apply NoDup_assign, NoDup_assign. constructor.
    - apply all_wf_assign; [apply all_wf_parsed|].
      apply all_wf_assign; [apply all_wf_own_enumerable; exact Hfao|].
      constructor. }
  destruct (assign_member request1 "agentOptions" agentOptions')
    as [request2|] eqn:Hr2; [|discriminate].
  pose proof (wf_assign_member _ _ _ _ Hf1 Hfao' Hr2) as Hf2. cbn [bind].
  destruct (member proxy "username") as [username|]; [|discriminate].
  destruct (member proxy "password") as [password|]; [|discriminate].
  cbn [bind].
  destruct (truthy username && truthy password).
  - destruct (assign_member agentOptions' "auth" _) as [agentOptions''|] eqn:Ha;
      [|discriminate].
    pose proof (wf_assign_member _ _ (VStr _) _ Hfao' eq_refl Ha) as Hfa. cbn [bind].
    destruct (assign_member request2 "agentOptions" agentOptions'')
      as [request3|] eqn:Hr3; [|discriminate].
    pose proof (wf_assign_member _ _ _ _ Hf2 Hfa Hr3) as Hf3. cbn [bind].
    intros H. eapply wf_assign_member; [exact Hp|exact Hf3|exact H].
  - cbn [bind]. intros H.
    eapply wf_assign_member; [exact Hp|exact Hf2|exact H].
Qed.

(** A configuration made from well-formed parameters is well-formed. *)
Lemma wf_constructor (params c : value) :
  wf params = true ->
  constructor params = Ret c ->
  wf c = true.
Proof.
  intros Hp. unfold Config.constructor.
  destruct (validateBasicParams params); [|discriminate]. cbn [bind].
  destruct (member params "appAuth") as [appAuth|] eqn:Happ; [|discriminate].
  pose proof (wf_member _ _ _ Hp Happ) as Hwa. cbn [bind].
  destruct (if type_tag_eqb (typeof appAuth) TObject then _ else _)
    as [params1|] eqn:Hparams1; [|discriminate].
  assert (Hp1 : wf params1 = true).
  { destruct (type_tag_eqb (typeof appAuth) TObject).
    - destruct (validateAppAuthParams appAuth); [|discriminate].
      cbn [bind] in Hparams1.
      destruct (mergeOptions _) as [m|] eqn:Hm; [|discriminate].
      cbn [bind] in Hparams1.
      eapply wf_assign_member; [exact Hp| |exact Hparams1].
      refine (wf_merge_all _ (VObj false []) m eq_refl _ Hm).
      repeat constructor. exact Hwa.
    - injection Hparams1 as <-. exact Hp. }
  clear Hparams1. cbn [bind].
  destruct (assert (negb (hasOwn params1 "extend")) _);
    [|intros H; discriminate H].
  cbn [bind].
  destruct (assert (negb (hasOwn params1 "_params")) _);
    [|intros H; discriminate H].
  cbn [bind].
  destruct (mergeOptions _) as [merged|] eqn:Hm; [|intros H; discriminate H].
  assert (Hwm : wf merged = true).
  { refine (wf_merge_all _ (VObj false []) merged eq_refl _ Hm).
    repeat constructor. exact Hp1. }
  cbn [bind].
  destruct (updateRequestAgent url_parse merged) as [_params|] eqn:Hu;
    [|intros H; discriminate H].
  pose proof (wf_updateRequestAgent _ _ Hwm Hu) as Hwp. cbn [bind].
  intros [= <-].
  apply (wf_freeze
           (VObj false (assign_props [("_params", _params)]
                                     (own_enumerable _params)))).
  apply wf_obj. split.
  - apply NoDup_assign. repeat constructor. intros [].
  - apply all_wf_assign; [apply all_wf_own_enumerable; exact Hwp|].
    repeat constructor. exact Hwp.
Qed.

(** [updateRequestAgent] leaves alone the properties of [request] other
    than [agentClass] and [agentOptions]. *)
Lemma updateRequestAgent_request (ps ps' : list (string * value))
      (f : bool) (rps : list (string * value)) :
  updateRequestAgent url_parse (VObj false ps) = Ret (VObj false ps') ->
  get "request" ps = Some (VObj f rps) ->
  exists rps',
    get "request" ps' = Some (VObj f rps')
    /\ forall k, k <> "agentClass" -> k <> "agentOptions" ->
                 get k rps' = get k rps.
Proof.
  intros Hu Hreq. unfold updateRequestAgent in Hu. cbn [member bind] in Hu.
  destruct (member (prop "proxy" ps) "url") as [url|]; [|discriminate].
  cbn [bind] in Hu. destruct (truthy url).
  - unfold prop in Hu at 1. rewrite Hreq in Hu.
    destruct f; [discriminate|]. cbn [assign_member bind member] in Hu.
    destruct url; try discriminate. cbn [bind] in Hu.
    destruct (member (prop "proxy" ps) "username"); [|discriminate].
    cbn [bind] in Hu. destruct (member (prop "proxy" ps) "password");
      [|discriminate].
    cbn [bind] in Hu.
    destruct (truthy _ && truthy _); cbn [assign_member bind] in Hu;
      injection Hu as <-; rewrite get_set_eq; eexists;
      (split; [reflexivity|]); intros k Hc Ho;
      rewrite !get_set_ne by assumption; reflexivity.
  - injection Hu as <-. exists rps. split; [exact Hreq|reflexivity].
Qed.

End WellFormedConfig.

(** ** The configuration of a request *)

Section RequestConfig.
Import Js MergeOptions Config Values.

Variable sdkVersion nodeVersion : string.
Variable url_parse : string -> list (string * option string).

Local Abbreviation defaults := (Config.defaults sdkVersion nodeVersion).
Local Abbreviation constructor := (Config.constructor sdkVersion nodeVersion url_parse).
Local Abbreviation requestConfig :=
  (APIRequestManager.requestConfig sdkVersion nodeVersion url_parse).

(** An object merged into a value, or cloned, is an object that carries
    each of its properties. *)
Lemma merged_object (target : option value) (fs : bool)
      (sps : list (string * value)) :
  (forall mv, target = Some mv -> wf mv = true) ->
  wf (VObj fs sps) = true ->
  exists xps,
    match target with
    | Some mv => merge mv (VObj fs sps)
    | None => clone (VObj fs sps)
    end = VObj false xps
    /\ wf (VObj false xps) = true
    /\ forall k v, get k sps = Some v ->
                   exists v1, get k xps = Some v1 /\ carries v v1.
Proof.
  intros Hmv Hs.
  assert (Hclone : exists xps,
             clone (VObj fs sps) = VObj false xps
             /\ wf (VObj false xps) = true
             /\ forall k v, get k sps = Some v ->
                            exists v1, get k xps = Some v1 /\ carries v v1).
  { exists (own_enumerable (clone (VObj fs sps))).
    split; [reflexivity|]. split; [exact (wf_clone _ Hs)|].
    intros k v Hget. exists (clone v).
    split; [rewrite get_clone, Hget; reflexivity|apply carries_clone]. }
  destruct target as [mv|]; [|exact Hclone].
  destruct mv as [| | | | | | | |fm mps]; try exact Hclone.
  pose proof (Hmv _ eq_refl) as Hwm.
  pose proof Hs as Hs'. apply wf_obj in Hs'. destruct Hs' as [Hnd Hall].
  exists (own_enumerable (merge (VObj fm mps) (VObj fs sps))).
  split; [reflexivity|]. split; [exact (wf_merge _ _ Hwm Hs)|].
  intros k v Hget. rewrite get_merge by exact Hnd. rewrite Hget.
  eexists. split; [reflexivity|].
  destruct (get k mps); [|apply carries_clone].
  apply carries_merge. exact (all_wf_get k sps v Hall Hget).
Qed.

(** The [request] object of the configuration that [makeRequest] builds
    carries every option of the request, the agent apart. *)
Lemma requestConfig_request (params c options c' : value) (fo : bool)
      (ops : list (string * value)) :
  constructor params = Ret c ->
  wf params = true ->
  options = VObj fo ops ->
  wf options = true ->
  requestConfig c options = Ret c' ->
  exists f rps,
    member c' "request" = Ret (VObj f rps)
    /\ forall k v, get k ops = Some v ->
                   k <> "agentClass" -> k <> "agentOptions" ->
                   exists v', get k rps = Some v' /\ carries v v'.
Proof.
  intros Hc Hwp -> Hwo He.
  pose proof (wf_constructor _ _ _ _ _ Hwp Hc) as Hwc.
  unfold APIRequestManager.requestConfig in He.
  destruct (extend_content _ _ _ _ _ _ He)
    as (_params & m0 & nps & Hmp & Hm0 & Hndm
        & [[Hp _]|(f' & ps' & [= <- <-] & ->)] & Hndn & Hc'); [discriminate|].
  assert (Hwm0 : wf (VObj false m0) = true).
  { destruct Hm0 as [[_ ->]|(f0 & ps0 & -> & ->)]; [reflexivity|].
    rewrite <- merge_objects. apply wf_merge; [reflexivity|].
    exact (wf_member _ _ _ Hwc Hmp). }
  destruct (merged_object (get "request" m0) fo ops) as (xps & HX & HwX & Hx).
  { intros mv Hmv. apply wf_obj in Hwm0. destruct Hwm0 as [_ Hall].
    exact (all_wf_get _ _ _ Hall Hmv). }
  { exact Hwo. }
  assert (Hnps : get "request"
                   (delete "_params"
                      (delete "extend"
                         (own_enumerable
                            (merge (VObj false m0)
                               (VObj false [("request", VObj fo ops)])))))
                 = Some (VObj false xps)).
  { rewrite !get_delete_ne by discriminate.
    rewrite get_merge by (repeat constructor; intros []).
    cbn [get String.eqb Ascii.eqb Bool.eqb]. f_equal. exact HX. }
  destruct (constructor_content _ _ _ _ _ Hc')
    as (frozen & ps & f1 & ps1 & P & cps & Hparams & Hsame & _ & Hnd1
        & _ & _ & _ & _ & Hu & -> & _ & Hcps & _).
  assert (Hps : ps = delete "_params"
                       (delete "extend"
                          (own_enumerable
                             (merge (VObj false m0)
                                (VObj false [("request", VObj fo ops)])))))
    by congruence.
  subst ps. clear Hparams.
  destruct (merged_object (get "request" defaults) false xps) as (yps & HY & _ & Hy).
  { intros mv [= <-]. reflexivity. }
  { exact HwX. }
  assert (Hmerged : get "request"
                      (own_enumerable (merge (VObj false defaults) (VObj f1 ps1)))
                    = Some (VObj false yps)).
  { rewrite get_merge by (apply Hnd1; exact Hndn).
    rewrite (Hsame "request") by discriminate. rewrite Hnps. f_equal. exact HY. }
  rewrite merge_objects in Hu.
  destruct (updateRequestAgent_request _ _ _ _ _ Hu Hmerged)
    as (rps & HP & Hrps).
  exists true,
    (own_enumerable (deepFreezeWithRequest (VObj false rps))).
  split.
  - apply member_object. rewrite (Hcps "request") by discriminate.
    rewrite HP. reflexivity.
  - intros k v Hget Hclass Hopts.
    destruct (Hx k v Hget) as (v1 & Hv1 & Hc1).
    destruct (Hy k v1 Hv1) as (v2 & Hv2 & Hc2).
    exists (frozen_prop v2). split.
    + rewrite get_freeze, (Hrps k Hclass Hopts), Hv2. reflexivity.
    + eapply carries_trans; [exact Hc1|].
      eapply carries_trans; [exact Hc2|apply carries_frozen_prop].
Qed.

End RequestConfig.

(** X20: the configuration of a request.  [makeRequest(options)] and
    [makeStreamingRequest(options)] run the request under
    [config.extend({request: options})].  In it, every top-level
    setting of the shared configuration that is no plain object
    ([numMaxRetries], [retryIntervalMS], [retryStrategy], the URLs...)
    reads as in the shared configuration; and its [request] object
    carries each option given, the agent apart: an option that is no
    plain object is there as it is, and an option that is a plain
    object ([headers], [form], [qs]...) is there as an object holding its
    properties that are no plain objects. *)
Theorem request_config_carries_the_options :
  forall sdkVersion nodeVersion url_parse params c options c' frozen ops,
    Config.constructor sdkVersion nodeVersion url_parse params = Js.Ret c ->
    Values.wf params = true ->
    options = Js.VObj frozen ops ->
    Values.wf options = true ->
    APIRequestManager.requestConfig sdkVersion nodeVersion url_parse c options
    = Js.Ret c' ->
    (exists request,
        Js.member c' "request" = Js.Ret request
        /\ forall k v,
            Js.get k ops = Some v -> k <> "agentClass" -> k <> "agentOptions" ->
            exists v', Js.member request k = Js.Ret v' /\ Values.carries v v')
    /\ (forall k v,
           k <> "request" -> k <> "appAuth" -> k <> "extend" -> k <> "_params" ->
           Values.atomic v ->
           Js.member c k = Js.Ret v -> Js.member c' k = Js.Ret v).
Proof.
  intros sdk node url_parse params c options c' frozen ops Hc Hwp Ho Hwo He.
  split.
  - destruct (requestConfig_request sdk node url_parse params c options c'
                frozen ops Hc Hwp Ho Hwo He) as (f & rps & Hreq & Hfields).
    exists (Js.VObj f rps). split; [exact Hreq|].
    intros k v Hget Hclass Hopts.
    destruct (Hfields k v Hget Hclass Hopts) as (v' & Hv' & Hcarries).
    exists v'. split; [apply member_object; exact Hv'|exact Hcarries].
  - intros k v Hreq Happ Hext Hpar Hv Hmem.
    unfold APIRequestManager.requestConfig in He.
    apply (extend_kept sdk node url_parse params c c' false
             [("request", options)] k v Hc He); try assumption.
    cbn [Js.get]. destruct (String.eqb_spec k "request"); [contradiction|reflexivity].
Qed.

(** X20 at a [GET] request made under a configuration with
    [numMaxRetries: 3]. *)
Lemma request_config_carries_the_options_witness :
  let url_parse := fun s : string => [("href", Some s)] in
  let params := Js.VObj false [("clientID", Js.VStr "id");
                               ("clientSecret", Js.VStr "secret");
                               ("numMaxRetries", Js.VNum 3)] in
  let options := Js.VObj false [("method", Js.VStr "GET");
                                ("url", Js.VStr "https://api.box.com/2.0/files/1")] in
  exists c c' request,
    Config.constructor "3.0.0" "v18.0.0" url_parse params = Js.Ret c
    /\ APIRequestManager.requestConfig "3.0.0" "v18.0.0" url_parse c options
       = Js.Ret c'
    /\ Js.member c' "request" = Js.Ret request
    /\ Js.member request "method" = Js.Ret (Js.VStr "GET")
    /\ Js.member c' "numMaxRetries" = Js.Ret (Js.VNum 3).
Proof.
  intros url_parse params options.
  destruct (Config.constructor "3.0.0" "v18.0.0" url_parse params) as [c|] eqn:Hc;
    [|vm_compute in Hc; discriminate Hc].
  destruct (APIRequestManager.requestConfig "3.0.0" "v18.0.0" url_parse c options)
    as [c'|] eqn:He;
    [|vm_compute in Hc; injection Hc as <-; vm_compute in He; discriminate He].
  destruct (request_config_carries_the_options
              "3.0.0" "v18.0.0" url_parse params c options c' false _
              Hc eq_refl eq_refl eq_refl He)
    as ((request & Hreq & Hfields) & Hkept).
  destruct (Hfields "method" (Js.VStr "GET") eq_refl ltac:(discriminate)
              ltac:(discriminate)) as (v' & Hv' & Hcarries).
  exists c, c', request. split; [reflexivity|]. split; [exact He|].
  split; [exact Hreq|]. split.
  - rewrite Hv'. cbn in Hcarries. rewrite Hcarries. reflexivity.
  - apply (Hkept "numMaxRetries" (Js.VNum 3));
      [intros H; discriminate H | intros H; discriminate H
      | intros H; discriminate H | intros H; discriminate H
      | intros f q H; discriminate H |].
    vm_compute in Hc. injection Hc as <-. reflexivity.
Defined.

(** X21: what the executor makes of a request.  In the configuration
    that [makeRequest(options)] builds, [isRequestRetryable] answers by
    the [formData] that the options give, false when it is truthy, true
    when it is falsy; and the executor's test for a JWT grant answers
    true exactly when the [form] that the options give has the
    JWT-bearer [grant_type]: the merging into the defaults and the
    freezing lose neither. *)
Theorem request_config_keeps_retryability :
  forall sdkVersion nodeVersion url_parse params c options c' frozen ops,
    Config.constructor sdkVersion nodeVersion url_parse params = Js.Ret c ->
    Values.wf params = true ->
    options = Js.VObj frozen ops ->
    Values.wf options = true ->
    APIRequestManager.requestConfig sdkVersion nodeVersion url_parse c options
    = Js.Ret c' ->
    (forall formData,
        Js.get "formData" ops = Some formData ->
        APIRequestManager.isRetryable c' = Js.Ret (negb (Js.truthy formData)))
    /\ (forall f form g,
           Js.get "form" ops = Some (Js.VObj f form) ->
           Js.get "grant_type" form = Some (Js.VStr g) ->
           APIRequestManager.isJWT c'
           = Js.Ret (String.eqb g "urn:ietf:params:oauth:grant-type:jwt-bearer")).
Proof.
  intros sdk node url_parse params c options c' frozen ops Hc Hwp Ho Hwo He.
  destruct (requestConfig_request sdk node url_parse params c options c'
              frozen ops Hc Hwp Ho Hwo He) as (fr & rps & Hreq & Hfields).
  split.
  - intros formData Hget.
    destruct (Hfields "formData" formData Hget ltac:(discriminate)
                ltac:(discriminate)) as (v' & Hv' & Hcarries).
    unfold APIRequestManager.isRetryable. rewrite Hreq. cbn [Js.bind].
    rewrite (member_object fr rps "formData" v' Hv'). cbn [Js.bind].
    rewrite (carries_truthy _ _ Hcarries). reflexivity.
  - intros f form g Hget Hgrant.
    destruct (Hfields "form" (Js.VObj f form) Hget ltac:(discriminate)
                ltac:(discriminate)) as (v' & Hv' & Hcarries).
    cbn [Values.carries] in Hcarries.
    destruct Hcarries as (f' & form' & -> & Hform').
    assert (Hg : Js.get "grant_type" form' = Some (Js.VStr g)).
    { apply Hform'; [exact Hgrant|]. intros x y. discriminate. }
    unfold APIRequestManager.isJWT. rewrite Hreq.
    cbn [Js.bind APIRequestManager.hasOwnProperty_call Js.hasOwn].
    unfold Js.hasOwnProperty. rewrite Hv'. cbn [Js.bind].
    rewrite (member_object fr rps "form" _ Hv').
    cbn [Js.bind APIRequestManager.hasOwnProperty_call Js.hasOwn].
    unfold Js.hasOwnProperty. rewrite Hg. cbn [Js.bind].
    rewrite (member_object f' form' "grant_type" _ Hg). reflexivity.
Qed.

(** X21 at the request of a JWT grant, as [getTokens] hands it to
    [makeRequest]. *)
Lemma request_config_keeps_retryability_witness :
  let url_parse := fun s : string => [("href", Some s)] in
  let params := Js.VObj false [("clientID", Js.VStr "id");
                               ("clientSecret", Js.VStr "secret")] in
  let config := {| TokenRequests.clientID := Js.VStr "id";
                   TokenRequests.clientSecret := Js.VStr "secret";
                   TokenRequests.apiRootURL := "https://api.box.com";
                   TokenRequests.boxSubjectType := Js.VUndefined;
                   TokenRequests.boxSubjectId := Js.VUndefined |} in
  let options :=
    TokenRequests.options_object
      (TokenRequests.jwt_request config "e30.e30." Js.VUndefined) in
  exists c c',
    Config.constructor "3.0.0" "v18.0.0" url_parse params = Js.Ret c
    /\ APIRequestManager.requestConfig "3.0.0" "v18.0.0" url_parse c options
       = Js.Ret c'
    /\ APIRequestManager.isJWT c' = Js.Ret true.
Proof.
  intros url_parse params config options.
  destruct (Config.constructor "3.0.0" "v18.0.0" url_parse params) as [c|] eqn:Hc;
    [|vm_compute in Hc; discriminate Hc].
  destruct (APIRequestManager.requestConfig "3.0.0" "v18.0.0" url_parse c options)
    as [c'|] eqn:He;
    [|vm_compute in Hc; injection Hc as <-; vm_compute in He; discriminate He].
  exists c, c'. split; [reflexivity|]. split; [exact He|].
  apply (proj2 (request_config_keeps_retryability
                  "3.0.0" "v18.0.0" url_parse params c options c' false _
                  Hc eq_refl eq_refl eq_refl He)
           false
           [("grant_type", Js.VStr "urn:ietf:params:oauth:grant-type:jwt-bearer");
            ("assertion", Js.VStr "e30.e30.");
            ("client_id", Js.VStr "id"); ("client_secret", Js.VStr "secret")]
           "urn:ietf:params:oauth:grant-type:jwt-bearer");
    reflexivity.
Defined.

(** X22: a JWT grant under a configuration without app auth.  When the
    parameters of [new Config] have no [appAuth], the [appAuth] of the
    configuration is [undefined], and [getTokensJWTGrant] then throws a
    [TypeError] in the call itself, reading [keyID] of [undefined]: it
    neither returns a rejected promise nor makes a request. *)
Theorem jwt_grant_without_app_auth_throws :
  forall sdkVersion nodeVersion url_parse params c frozen ps,
    Config.constructor sdkVersion nodeVersion url_parse params = Js.Ret c ->
    params = Js.VObj frozen ps ->
    Js.get "appAuth" ps = None ->
    Js.member c "appAuth" = Js.Ret Js.VUndefined
    /\ forall getRetryTimeout Date_parse jwt_sign cfg now uuid answers,
        JWTGrant.getTokensJWTGrant getRetryTimeout Date_parse jwt_sign cfg
          Js.VUndefined now uuid answers
        = JWTGrant.Thrown Js.TypeError.
Proof.
  intros sdk node url_parse params c frozen ps Hc Hp Hget.
  split; [|reflexivity].
  rewrite (constructor_default sdk node url_parse params c frozen ps "appAuth"
             Hc Hp Hget ltac:(discriminate) ltac:(discriminate)).
  reflexivity.
Qed.

(** X22 at the parameters [{clientID, clientSecret}]. *)
Lemma jwt_grant_without_app_auth_throws_witness :
  let url_parse := fun s : string => [("href", Some s)] in
  let params := Js.VObj false [("clientID", Js.VStr "id");
                               ("clientSecret", Js.VStr "secret")] in
  let cfg := {| TokenManager.numMaxRetries := 5;
                TokenManager.retryIntervalMS := 2000;
                TokenManager.retryStrategy := None;
                TokenManager.expirationTime := 30 |} in
  exists c,
    Config.constructor "3.0.0" "v18.0.0" url_parse params = Js.Ret c
    /\ Js.member c "appAuth" = Js.Ret Js.VUndefined
    /\ JWTGrant.getTokensJWTGrant (fun _ _ => 2000) (fun _ => Js.NaN)
         (fun _ jwtid => Js.Ret jwtid) cfg Js.VUndefined 1700000000000 "u0" []
       = JWTGrant.Thrown Js.TypeError.
Proof.
  intros url_parse params cfg.
  destruct (Config.constructor "3.0.0" "v18.0.0" url_parse params) as [c|] eqn:Hc;
    [|vm_compute in Hc; discriminate Hc].
  destruct (jwt_grant_without_app_auth_throws
              "3.0.0" "v18.0.0" url_parse params c false _ Hc eq_refl eq_refl)
    as [Happ Hthrow].
  exists c. split; [reflexivity|]. split; [exact Happ|apply Hthrow].
Defined.

(** ** The app auth settings of a configuration *)

Section AppAuth.
Import Js MergeOptions Config Values.

Variable sdkVersion nodeVersion : string.
Variable url_parse : string -> list (string * option string).

Local Abbreviation defaults := (Config.defaults sdkVersion nodeVersion).
Local Abbreviation constructor := (Config.constructor sdkVersion nodeVersion url_parse).

(** What [validateAppAuthParams] lets through. *)
Lemma validateAppAuthParams_object (fa : bool) (aps : list (string * value)) :
  validateAppAuthParams (VObj fa aps) = Ret tt ->
  (exists s, get "keyID" aps = Some (VStr s))
  /\ (exists key, get "privateKey" aps = Some key
                  /\ ((exists s, key = VStr s) \/ (exists bytes, key = VBuffer bytes)))
  /\ (exists s, get "passphrase" aps = Some (VStr s) /\ s <> "")
  /\ (prop "algorithm" aps = VUndefined
      \/ exists a, get "algorithm" aps = Some (VStr a) /\ In a validAlgorithms)
  /\ (prop "expirationTime" aps = VUndefined
      \/ exists e, get "expirationTime" aps = Some (VNum e) /\ 0 < e <= 60).
Proof.
  unfold validateAppAuthParams. cbn [member bind]. unfold prop.
  destruct (get "keyID" aps) as [[| | | |keyID| | | |]|] eqn:Hk; try discriminate.
  cbn [typeof type_tag_eqb assert bind].
  destruct (get "privateKey" aps) as [[| | | |key| |bytes| |]|] eqn:Hp;
    try discriminate;
    cbn [typeof type_tag_eqb is_Buffer orb assert bind];
    (destruct (get "passphrase" aps) as [[| | | |pass| | | |]|] eqn:Hs;
     try discriminate; cbn [nonempty_String];
     destruct pass as [|ch pass]; [discriminate|];
     match goal with |- context [0 <? ?n] => replace (0 <? n) with true
         by (symmetry; apply Z.ltb_lt; cbn [String.length]; lia) end;
     cbn [assert bind];
     intros H;
     (split; [eexists; reflexivity|]);
     (split; [eexists; split; [reflexivity|];
              first [left; eexists; reflexivity | right; eexists; reflexivity]|]);
     (split; [eexists; split; [reflexivity|discriminate]|]);
     revert H;
     destruct (get "algorithm" aps) as [[| | | |a| | | |]|] eqn:Ha;
     cbn [typeof type_tag_eqb negb is_valid_algorithm assert bind];
     try discriminate;
     try (destruct (existsb (String.eqb a) validAlgorithms) eqn:Hvalid;
          [|discriminate]);
     cbn [assert bind];
     destruct (get "expirationTime" aps) as [[| | |e| | | | |]|] eqn:He;
     cbn [typeof type_tag_eqb negb is_valid_expirationTime assert bind];
     try discriminate;
     try (destruct ((0 <? e) && (e <=? 60)) eqn:Hrange; [|discriminate]);
     intros _; split;
     try (left; reflexivity);
     try (right; eexists; split; [reflexivity|];
          first [ apply existsb_exists in Hvalid;
                  destruct Hvalid as (x & Hin & Hx);
                  apply String.eqb_eq in Hx; subst x; exact Hin
                | apply andb_prop in Hrange; destruct Hrange as [H1 H2];
                  apply Z.ltb_lt in H1; apply Z.leb_le in H2; lia ])).
Qed.

Lemma appAuthDefaults_atomic (k : string) :
  option_map frozen_prop (option_map clone (get k appAuthDefaults))
  = get k appAuthDefaults.
Proof.
  cbn [get appAuthDefaults].
  repeat match goal with
         | |- context [String.eqb k ?s] => destruct (String.eqb k s); [reflexivity|]
         end.
  reflexivity.
Qed.

(** The [appAuth] of a configuration made from parameters whose
    [appAuth] is a plain object: the object validated, merged into the
    defaults of app auth, and frozen. *)
Lemma constructor_appAuth (params c : value) (frozen : bool)
      (ps : list (string * value)) (fa : bool) (aps : list (string * value)) :
  constructor params = Ret c ->
  params = VObj frozen ps ->
  List.NoDup (map fst ps) ->
  List.NoDup (map fst aps) ->
  get "appAuth" ps = Some (VObj fa aps) ->
  validateAppAuthParams (VObj fa aps) = Ret tt
  /\ exists caps,
      member c "appAuth" = Ret (VObj true caps)
      /\ (forall k x, get k aps = Some x -> atomic x -> get k caps = Some x)
      /\ (forall k, get k aps = None -> get k caps = get k appAuthDefaults).
Proof.
  intros Hc -> Hnd Hnda Hget.
  destruct (constructor_content _ _ _ _ _ Hc)
    as (frozen' & ps' & f1 & ps1 & P & cps & Hparams & _ & _ & _
        & _ & _ & HP & _ & _ & -> & _ & Hcps & Hparams1).
  assert (Hps : ps' = ps) by congruence. subst ps'.
  assert (Hfr : frozen' = frozen) by congruence. subst frozen'. clear Hparams.
  unfold prop in Hparams1. rewrite Hget in Hparams1.
  cbn [typeof type_tag_eqb] in Hparams1.
  destruct (validateAppAuthParams (VObj fa aps)) as [[]|] eqn:Hvalid;
    [|discriminate].
  split; [reflexivity|].
  cbn [bind] in Hparams1. unfold mergeOptions in Hparams1.
  cbn [merge_all] in Hparams1.
  set (m := own_enumerable (merge (VObj false appAuthDefaults) (VObj fa aps))) in *.
  change (merge (merge (merge (VObj false []) (VObj false []))
                   (VObj false appAuthDefaults)) (VObj fa aps))
    with (VObj false m) in Hparams1.
  cbn [bind] in Hparams1.
  destruct frozen; [discriminate|]. cbn [assign_member] in Hparams1.
  assert (Hps1 : ps1 = set "appAuth" (VObj false m) ps) by congruence.
  assert (HgetP : get "appAuth" P = Some (clone (VObj false m))).
  { rewrite (HP "appAuth") by discriminate.
    rewrite get_merge by (rewrite Hps1; apply NoDup_set; exact Hnd).
    rewrite Hps1, get_set_eq. reflexivity. }
  exists (own_enumerable (deepFreezeWithRequest (clone (VObj false m)))).
  split.
  { apply member_object. rewrite (Hcps "appAuth") by discriminate.
    rewrite HgetP. reflexivity. }
  assert (Hfield : forall k,
             get k (own_enumerable (deepFreezeWithRequest (clone (VObj false m))))
             = option_map frozen_prop (option_map clone (get k m))).
  { intros k.
    change (clone (VObj false m))
      with (VObj false (own_enumerable (clone (VObj false m)))).
    rewrite get_freeze, get_clone. reflexivity. }
  split.
  - intros k x Hk Hx. rewrite Hfield. subst m.
    rewrite get_merge by exact Hnda. rewrite Hk.
    destruct (get k appAuthDefaults); cbn [option_map];
      rewrite ?merge_atomic by exact Hx;
      rewrite !(clone_atomic x), frozen_prop_atomic by exact Hx; reflexivity.
  - intros k Hk. rewrite Hfield. subst m.
    rewrite get_merge_absent by exact Hk. apply appAuthDefaults_atomic.
Qed.

End AppAuth.

(** X23: the app auth settings of a configuration.  When the
    parameters of [new Config] hold a plain object [appAuth] and the
    constructor returns, the [appAuth] of the configuration is an object
    that has the [keyID] given, a string; the [privateKey] given, a
    string or a [Buffer]; the [passphrase] given, a non-empty string; as
    [algorithm] the one given, one of RS256, RS384 and RS512, or RS256
    when none is given; as [expirationTime] the one given, an integer
    from 1 to 60, or 30 when none is given; and [verifyTimestamp] false
    when none is given.  An [algorithm] or [expirationTime] given as
    [undefined] passes the validation and stays [undefined]. *)
Theorem config_app_auth_is_validated_and_completed :
  forall sdkVersion nodeVersion url_parse params c frozen ps fa aps,
    Config.constructor sdkVersion nodeVersion url_parse params = Js.Ret c ->
    params = Js.VObj frozen ps ->
    List.NoDup (map fst ps) ->
    List.NoDup (map fst aps) ->
    Js.get "appAuth" ps = Some (Js.VObj fa aps) ->
    exists appAuth keyID privateKey passphrase,
      Js.member c "appAuth" = Js.Ret (Js.VObj true appAuth)
      /\ Js.get "keyID" appAuth = Some (Js.VStr keyID)
      /\ Js.get "keyID" aps = Some (Js.VStr keyID)
      /\ Js.get "privateKey" appAuth = Some privateKey
      /\ Js.get "privateKey" aps = Some privateKey
      /\ ((exists s, privateKey = Js.VStr s)
          \/ (exists bytes, privateKey = Js.VBuffer bytes))
      /\ Js.get "passphrase" appAuth = Some (Js.VStr passphrase)
      /\ passphrase <> ""
      /\ ((exists a, Js.get "algorithm" appAuth = Some (Js.VStr a)
                     /\ In a ["RS256"; "RS384"; "RS512"]
                     /\ (Js.get "algorithm" aps = None -> a = "RS256"))
          \/ (Js.get "algorithm" aps = Some Js.VUndefined
              /\ Js.get "algorithm" appAuth = Some Js.VUndefined))
      /\ ((exists e, Js.get "expirationTime" appAuth = Some (Js.VNum e)
                     /\ 0 < e <= 60
                     /\ (Js.get "expirationTime" aps = None -> e = 30))
          \/ (Js.get "expirationTime" aps = Some Js.VUndefined
              /\ Js.get "expirationTime" appAuth = Some Js.VUndefined))
      /\ (Js.get "verifyTimestamp" aps = None ->
          Js.get "verifyTimestamp" appAuth = Some (Js.VBool false)).
Proof.
  intros sdk node url_parse params c frozen ps fa aps Hc Hp Hnd Hnda Hget.
  destruct (constructor_appAuth sdk node url_parse params c frozen ps fa aps
              Hc Hp Hnd Hnda Hget) as (Hvalid & caps & Hmem & Hgiven & Hdefault).
  destruct (validateAppAuthParams_object fa aps Hvalid)
    as ((keyID & Hk) & (key & Hkey & Hkind) & (pass & Hpass & Hne) & Halg & Hexp).
  exists caps, keyID, key, pass.
  split; [exact Hmem|].
  split; [apply Hgiven; [exact Hk|intros f q; discriminate]|].
  split; [exact Hk|].
  split; [apply Hgiven; [exact Hkey|];
          destruct Hkind as [[s ->]|[b ->]]; intros f q; discriminate|].
  split; [exact Hkey|]. split; [exact Hkind|].
  split; [apply Hgiven; [exact Hpass|intros f q; discriminate]|].
  split; [exact Hne|].
  split; [|split].
  - destruct Halg as [Hundef|(a & Ha & Hin)].
    + unfold Js.prop in Hundef.
      destruct (Js.get "algorithm" aps) as [x|] eqn:Hx.
      * subst x. right. split; [reflexivity|].
        apply Hgiven; [exact Hx|intros f q; discriminate].
      * left. exists "RS256". split; [rewrite (Hdefault _ Hx); reflexivity|].
        split; [left; reflexivity|reflexivity].
    + left. exists a. split; [apply Hgiven; [exact Ha|intros f q; discriminate]|].
      split; [exact Hin|]. rewrite Ha. discriminate.
  - destruct Hexp as [Hundef|(e & He & Hrange)].
    + unfold Js.prop in Hundef.
      destruct (Js.get "expirationTime" aps) as [x|] eqn:Hx.
      * subst x. right. split; [reflexivity|].
        apply Hgiven; [exact Hx|intros f q; discriminate].
      * left. exists 30. split; [rewrite (Hdefault _ Hx); reflexivity|].
        split; [lia|reflexivity].
    + left. exists e. split; [apply Hgiven; [exact He|intros f q; discriminate]|].
      split; [exact Hrange|]. rewrite He. discriminate.
  - intros Hx. rewrite (Hdefault _ Hx). reflexivity.
Qed.

(** X23 at parameters with [appAuth: {keyID, privateKey, passphrase}]. *)
Lemma config_app_auth_is_validated_and_completed_witness :
  let url_parse := fun s : string => [("href", Some s)] in
  let aps := [("keyID", Js.VStr "k1"); ("privateKey", Js.VStr "-----BEGIN");
              ("passphrase", Js.VStr "secret")] in
  let params := Js.VObj false [("clientID", Js.VStr "id");
                               ("clientSecret", Js.VStr "secret");
                               ("appAuth", Js.VObj false aps)] in
  exists c appAuth,
    Config.constructor "3.0.0" "v18.0.0" url_parse params = Js.Ret c
    /\ Js.member c "appAuth" = Js.Ret (Js.VObj true appAuth)
    /\ Js.get "keyID" appAuth = Some (Js.VStr "k1")
    /\ Js.get "verifyTimestamp" appAuth = Some (Js.VBool false).
Proof.
  intros url_parse aps params.
  destruct (Config.constructor "3.0.0" "v18.0.0" url_parse params) as [c|] eqn:Hc;
    [|vm_compute in Hc; discriminate Hc].
  assert (Hnd : List.NoDup (map fst [("clientID", Js.VStr "id");
                                     ("clientSecret", Js.VStr "secret");
                                     ("appAuth", Js.VObj false aps)])).
  { cbn. repeat (constructor; [cbn; intuition discriminate|]). constructor. }
  assert (Hnda : List.NoDup (map fst aps)).
  { cbn. repeat (constructor; [cbn; intuition discriminate|]). constructor. }
  destruct (config_app_auth_is_validated_and_completed
              "3.0.0" "v18.0.0" url_parse params c false _ false aps
              Hc eq_refl Hnd Hnda eq_refl)
    as (appAuth & keyID & key & pass & Hmem & Hk & Hk' & _ & _ & _ & _ & _ & _
        & _ & Hverify).
  exists c, appAuth. split; [reflexivity|]. split; [exact Hmem|].
  split; [|apply Hverify; reflexivity].
  rewrite Hk. cbn in Hk'. congruence.
Defined.

(** ** The preconfigured SDK instance *)

Section Preconfigured.
Import Js Config Values BoxSDKNode.

Variable sdkVersion nodeVersion : string.
Variable url_parse : string -> list (string * option string).

Local Abbreviation defaults := (Config.defaults sdkVersion nodeVersion).
Local Abbreviation constructor := (Config.constructor sdkVersion nodeVersion url_parse).

Lemma get_if_set_ne (k k' : string) (b : bool) (v : value)
      (ps : list (string * value)) :
  k <> k' -> get k (if b then set k' v ps else ps) = get k ps.
Proof. intros H. destruct b; [apply get_set_ne; exact H|reflexivity]. Qed.

Lemma get_if_set_eq (k : string) (b : bool) (v : value)
      (ps : list (string * value)) :
  get k ps = None ->
  get k (if b then set k v ps else ps) = if b then Some v else None.
Proof. intros H. destruct b; [apply get_set_eq|exact H]. Qed.

Lemma NoDup_if_set (k : string) (b : bool) (v : value)
      (ps : list (string * value)) :
  List.NoDup (map fst ps) -> List.NoDup (map fst (if b then set k v ps else ps)).
Proof. intros H. destruct b; [apply NoDup_set; exact H|exact H]. Qed.

Lemma is_string_inv (v : value) : is_string v = true -> exists s, v = VStr s.
Proof. destruct v; try discriminate. eexists. reflexivity. Qed.

(** The parameters that [getPreconfiguredInstance] puts together. *)
Lemma preconfigured_params_inv (appConfig params : value)
      (keys : option (value * value)) :
  preconfigured_params appConfig = Ret (keys, params) ->
  exists boxAppSettings clientID clientSecret appAuth enterpriseID ps,
    member appConfig "boxAppSettings" = Ret boxAppSettings
    /\ is_object boxAppSettings = true
    /\ member boxAppSettings "clientID" = Ret clientID
    /\ member boxAppSettings "clientSecret" = Ret clientSecret
    /\ member boxAppSettings "appAuth" = Ret appAuth
    /\ member appConfig "enterpriseID" = Ret enterpriseID
    /\ params = VObj false ps
    /\ List.NoDup (map fst ps)
    /\ get "clientID" ps = (if is_string clientID then Some clientID else None)
    /\ get "clientSecret" ps
       = (if is_string clientSecret then Some clientSecret else None)
    /\ get "enterpriseID" ps
       = (if is_string enterpriseID then Some enterpriseID else None)
    /\ (forall k, k <> "clientID" -> k <> "clientSecret" -> k <> "appAuth" ->
                  k <> "enterpriseID" -> get k ps = None)
    /\ (is_object appAuth = false
        \/ (exists publicKeyID, member appAuth "publicKeyID" = Ret publicKeyID
                                /\ truthy publicKeyID = false) ->
        get "appAuth" ps = None).
Proof.
  unfold preconfigured_params.
  destruct (member appConfig "boxAppSettings") as [boxAppSettings|] eqn:Hs;
    [|discriminate].
  cbn [bind]. destruct (is_object boxAppSettings) eqn:Hobj; [|discriminate].
  cbn [negb].
  destruct (member appConfig "webhooks") as [webhooks|]; [|discriminate].
  cbn [bind].
  destruct (if is_object webhooks then _ else _) as [signatureKeys|];
    [|discriminate].
  cbn [bind].
  destruct (member boxAppSettings "clientID") as [clientID|] eqn:Hid;
    [|discriminate].
  cbn [bind].
  destruct (member boxAppSettings "clientSecret") as [clientSecret|] eqn:Hsecret;
    [|discriminate].
  cbn [bind].
  destruct (member boxAppSettings "appAuth") as [appAuth|] eqn:Happ;
    [|discriminate].
  cbn [bind].
  set (p1 := if is_string clientID then set "clientID" clientID [] else []).
  set (p2 := if is_string clientSecret then set "clientSecret" clientSecret p1
             else p1).
  assert (Hnd2 : List.NoDup (map fst p2)).
  { apply NoDup_if_set, NoDup_if_set. constructor. }
  assert (Hid2 : get "clientID" p2 = if is_string clientID then Some clientID
                                     else None).
  { unfold p2. rewrite get_if_set_ne by discriminate.
    apply get_if_set_eq. reflexivity. }
  assert (Hsecret2 : get "clientSecret" p2
                     = if is_string clientSecret then Some clientSecret else None).
  { apply get_if_set_eq. unfold p1. rewrite get_if_set_ne by discriminate.
    reflexivity. }
  assert (Hother2 : forall k, k <> "clientID" -> k <> "clientSecret" ->
                              get k p2 = None).
  { intros k H1 H2. unfold p2, p1. rewrite !get_if_set_ne by assumption.
    reflexivity. }
  destruct (if is_object appAuth then _ else _) as [p3|] eqn:Hp3; [|discriminate].
  assert (H3 : List.NoDup (map fst p3)
               /\ (forall k, k <> "appAuth" -> get k p3 = get k p2)
               /\ (is_object appAuth = false
                   \/ (exists publicKeyID,
                          member appAuth "publicKeyID" = Ret publicKeyID
                          /\ truthy publicKeyID = false) ->
                   p3 = p2)).
  { destruct (is_object appAuth).
    - destruct (member appAuth "publicKeyID") as [publicKeyID|]; [|discriminate].
      cbn [bind] in Hp3. destruct (truthy publicKeyID) eqn:Htruthy.
      + destruct (member appAuth "privateKey"); [|discriminate].
        cbn [bind] in Hp3. destruct (member appAuth "passphrase"); [|discriminate].
        cbn [bind] in Hp3. injection Hp3 as <-.
        split; [apply NoDup_set; exact Hnd2|].
        split; [intros k Hk; apply get_set_ne; exact Hk|].
        intros [H|(id & [= <-] & H)]; congruence.
      + injection Hp3 as <-. auto.
    - injection Hp3 as <-. auto. }
  destruct H3 as (Hnd3 & Hsame3 & Hnone3).
  cbn [bind].
  destruct (member appConfig "enterpriseID") as [enterpriseID|] eqn:He;
    [|discriminate].
  cbn [bind]. intros [= <- <-].
  exists boxAppSettings, clientID, clientSecret, appAuth, enterpriseID.
  eexists. do 7 (split; [first [reflexivity | assumption]|]).
  split; [apply NoDup_if_set; exact Hnd3|].
  split; [rewrite get_if_set_ne, Hsame3 by discriminate; exact Hid2|].
  split; [rewrite get_if_set_ne, Hsame3 by discriminate; exact Hsecret2|].
  split.
  { apply get_if_set_eq. rewrite Hsame3 by discriminate.
    apply Hother2; discriminate. }
  split.
  { intros k H1 H2 H3 H4. rewrite get_if_set_ne, Hsame3 by assumption.
    apply Hother2; assumption. }
  intros Hno. rewrite get_if_set_ne by discriminate. rewrite (Hnone3 Hno).
  apply Hother2; discriminate.
Qed.

Lemma constructor_basic (params c : value) :
  constructor params = Ret c ->
  exists frozen ps s1 s2,
    params = VObj frozen ps
    /\ get "clientID" ps = Some (VStr s1)
    /\ get "clientSecret" ps = Some (VStr s2).
Proof.
  unfold Config.constructor.
  destruct (validateBasicParams params) as [[]|] eqn:Hbasic; [|discriminate].
  intros _. exact (validateBasicParams_object params Hbasic).
Qed.

End Preconfigured.

(** X24: the configuration of a preconfigured instance.  When
    [getPreconfiguredInstance(appConfig)] returns, [boxAppSettings]
    holds a string [clientID] and a string [clientSecret], and they are
    the ones of the configuration; [enterpriseID] is the one of
    [appConfig] when that is a string and [undefined] otherwise; with no
    [appAuth] object in [boxAppSettings], or one whose [publicKeyID] is
    falsy, the configuration has no app auth; and every other setting,
    [request] and the names an object inherits ([extend],
    [constructor], [toString]...) apart, has its default: nothing else
    of the file reaches the configuration. *)
Theorem preconfigured_instance_settings :
  forall sdkVersion nodeVersion url_parse appConfig keys c,
    BoxSDKNode.getPreconfiguredInstance sdkVersion nodeVersion url_parse appConfig
    = Js.Ret (keys, c) ->
    exists boxAppSettings clientID clientSecret,
      Js.member appConfig "boxAppSettings" = Js.Ret boxAppSettings
      /\ Js.member boxAppSettings "clientID" = Js.Ret (Js.VStr clientID)
      /\ Js.member boxAppSettings "clientSecret" = Js.Ret (Js.VStr clientSecret)
      /\ Js.member c "clientID" = Js.Ret (Js.VStr clientID)
      /\ Js.member c "clientSecret" = Js.Ret (Js.VStr clientSecret)
      /\ (exists enterpriseID,
             Js.member appConfig "enterpriseID" = Js.Ret enterpriseID
             /\ Js.member c "enterpriseID"
                = Js.Ret (if BoxSDKNode.is_string enterpriseID then enterpriseID
                          else Js.VUndefined))
      /\ (exists appAuth,
             Js.member boxAppSettings "appAuth" = Js.Ret appAuth
             /\ (BoxSDKNode.is_object appAuth = false
                 \/ (exists publicKeyID,
                        Js.member appAuth "publicKeyID" = Js.Ret publicKeyID
                        /\ Js.truthy publicKeyID = false) ->
                 Js.member c "appAuth" = Js.Ret Js.VUndefined))
      /\ (forall k,
             k <> "clientID" -> k <> "clientSecret" -> k <> "appAuth" ->
             k <> "enterpriseID" -> k <> "request" -> k <> "_params" ->
             ~ List.In k Values.inherited ->
             Js.member c k
             = Js.Ret (Config.deepFreezeWithRequest
                         (Js.prop k (Config.defaults sdkVersion nodeVersion)))).
Proof.
  intros sdk node url_parse appConfig keys c.
  unfold BoxSDKNode.getPreconfiguredInstance.
  destruct (BoxSDKNode.preconfigured_params appConfig) as [[keys' params]|] eqn:Hp;
    [|discriminate].
  cbn [Js.bind fst snd].
  destruct (Config.constructor sdk node url_parse params) as [c'|] eqn:Hc;
    [|discriminate].
  cbn [Js.bind]. intros [= <- <-].
  destruct (preconfigured_params_inv appConfig params keys' Hp)
    as (settings & clientID & clientSecret & appAuth & enterpriseID & ps
        & Hs & _ & Hid & Hsecret & Happ & He & -> & Hnd & Hgid & Hgsecret
        & Hge & Hother & Hnone).
  destruct (constructor_basic sdk node url_parse _ _ Hc)
    as (f & ps' & s1 & s2 & Heq & H1 & H2).
  assert (ps' = ps) by congruence. subst ps'. clear Heq.
  rewrite Hgid in H1. rewrite Hgsecret in H2.
  destruct (BoxSDKNode.is_string clientID); [|discriminate].
  destruct (BoxSDKNode.is_string clientSecret); [|discriminate].
  injection H1 as ->. injection H2 as ->.
  exists settings, s1, s2.
  split; [exact Hs|]. split; [exact Hid|]. split; [exact Hsecret|].
  split.
  { apply (constructor_given sdk node url_parse _ c' false ps "clientID" _
             Hc eq_refl Hnd Hgid); try discriminate;
      try (intros x y; discriminate). }
  split.
  { apply (constructor_given sdk node url_parse _ c' false ps "clientSecret" _
             Hc eq_refl Hnd Hgsecret); try discriminate;
      try (intros x y; discriminate). }
  split.
  { exists enterpriseID. split; [exact He|].
    destruct (BoxSDKNode.is_string enterpriseID) eqn:Hstr.
    - apply (constructor_given sdk node url_parse _ c' false ps "enterpriseID" _
               Hc eq_refl Hnd Hge); try discriminate.
      destruct (is_string_inv _ Hstr) as [s ->]. intros x y. discriminate.
    - rewrite (constructor_default sdk node url_parse _ c' false ps "enterpriseID"
                 Hc eq_refl Hge ltac:(discriminate) ltac:(discriminate)).
      reflexivity. }
  split.
  { exists appAuth. split; [exact Happ|]. intros Hno.
    rewrite (constructor_default sdk node url_parse _ c' false ps "appAuth"
               Hc eq_refl (Hnone Hno) ltac:(discriminate) ltac:(discriminate)).
    reflexivity. }
  intros k Hk1 Hk2 Hk3 Hk4 Hk5 Hk6 _.
  apply (constructor_default sdk node url_parse _ c' false ps k Hc eq_refl);
    try assumption.
  apply Hother; assumption.
Qed.

(** X24 at a settings file of an application without app auth: its
    [appAuth] has empty fields. *)
Lemma preconfigured_instance_settings_witness :
  let url_parse := fun s : string => [("href", Some s)] in
  let appConfig :=
    Js.VObj false
      [("boxAppSettings",
        Js.VObj false
          [("clientID", Js.VStr "id"); ("clientSecret", Js.VStr "secret");
           ("appAuth", Js.VObj false [("publicKeyID", Js.VStr "");
                                      ("privateKey", Js.VStr "");
                                      ("passphrase", Js.VStr "")])]);
       ("enterpriseID", Js.VStr "0")] in
  exists keys c,
    BoxSDKNode.getPreconfiguredInstance "3.0.0" "v18.0.0" url_parse appConfig
    = Js.Ret (keys, c)
    /\ Js.member c "clientID" = Js.Ret (Js.VStr "id")
    /\ Js.member c "appAuth" = Js.Ret Js.VUndefined
    /\ Js.member c "numMaxRetries" = Js.Ret (Js.VNum 5).
Proof.
  intros url_parse appConfig.
  destruct (BoxSDKNode.getPreconfiguredInstance "3.0.0" "v18.0.0" url_parse appConfig)
    as [[keys c]|] eqn:Hg; [|vm_compute in Hg; discriminate Hg].
  destruct (preconfigured_instance_settings
              "3.0.0" "v18.0.0" url_parse appConfig keys c Hg)
    as (settings & clientID & clientSecret & Hs & Hid & _ & Hcid & _ & _
        & (appAuth & Happ & Hnone) & Hdefault).
  exists keys, c. split; [reflexivity|].
  cbn in Hs. injection Hs as <-. cbn in Hid. injection Hid as <-.
  cbn in Happ. injection Happ as <-.
  split; [exact Hcid|]. split.
  - apply Hnone. right. eexists. split; reflexivity.
  - rewrite (Hdefault "numMaxRetries")
      by first [intros H; discriminate H | clear; cbn; intuition discriminate].
    reflexivity.
Defined.
